(** * DSS refund auditor: the decision-matching and compliance-scoring engine

    A shallow embedding of the engine functions of the Zendesk DSS refund
    auditor ([detectValueTier], [findBestMatch], [chooseColumnLetter],
    [severityRank], [compareSeverity], [buildOutputJSON] and the pure core of
    [runAudit]) together with the properties the specification states about
    them.

    The repository carries the engine twice:
    - [App]: [app.js], the script the widget loads; the README quotes the
      same functions;
    - [Enhanced]: the replacement for [assets/app.js] that the guide
      "Enhanced DSS Refund Auditor - Complete Implementation" prints.
    Both are embedded, each in a module of its own, over one string layer.

    One map on code units stands for the case folding of the [i] flag,
    where it is exact, and for [String.prototype.toLowerCase], where it is
    exact on ASCII text.  The source calls the latter in [findBestMatch], in
    [severityRank] and in the enhanced compliance flag only, and no statement
    below depends on how it treats letters outside ASCII. *)

From Stdlib Require Import List NArith ZArith Bool Lia String Ascii.
From Stdlib Require Import DecimalPos DecimalN.
Import ListNotations.

(* ================================================================== *)
(** * JavaScript strings *)
(* ================================================================== *)

(** A JavaScript string is a finite sequence of UTF-16 code units. *)
Definition jsstring := list N.

(** ASCII literals of the source are written [u "..."]. *)
Definition u (s : string) : jsstring :=
  map N_of_ascii (list_ascii_of_string s).

Module Str.

Open Scope N_scope.

(** [WhiteSpace] and [LineTerminator] code units of ECMAScript: what
    [String.prototype.trim] strips and what the class [\s] matches. *)
Definition isLineTerminator (c : N) : bool :=
  (c =? 10) || (c =? 13) || (c =? 8232) || (c =? 8233).

Definition isWhite (c : N) : bool :=
  (c =? 9) || (c =? 11) || (c =? 12) || (c =? 32) || (c =? 160)
  || (c =? 5760) || ((8192 <=? c) && (c <=? 8202))
  || (c =? 8239) || (c =? 8287) || (c =? 12288) || (c =? 65279)
  || isLineTerminator c.

(** [\d] is [0-9]; the class [[0-9,]] adds the comma. *)
Definition isDigit (c : N) : bool := (48 <=? c) && (c <=? 57).
Definition isNumComma (c : N) : bool := isDigit c || (c =? 44).

(** Case folding.  A regular expression with the [i] flag (and no [u] flag)
    never identifies a code unit above 127 with an ASCII one, so for the
    ASCII patterns of the source it is exactly ASCII case folding.
    [String.prototype.toLowerCase] is embedded by the same map, which is
    exact on ASCII text; other code units are left as they are. *)
Definition lowerUnit (c : N) : N :=
  if (65 <=? c) && (c <=? 90) then c + 32 else c.

Definition toLowerCase (s : jsstring) : jsstring := map lowerUnit s.

(** [a === b] on strings. *)
Fixpoint eqb (a b : jsstring) : bool :=
  match a, b with
  | [], [] => true
  | x :: a', y :: b' => (x =? y) && eqb a' b'
  | _, _ => false
  end.

(** A string is falsy exactly when it is empty. *)
Definition truthy (s : jsstring) : bool :=
  match s with [] => false | _ :: _ => true end.

(** [a || b] on strings. *)
Definition or_else (a b : jsstring) : jsstring :=
  if truthy a then a else b.

Fixpoint startsWith (p s : jsstring) : bool :=
  match p, s with
  | [], _ => true
  | _ :: _, [] => false
  | x :: p', y :: s' => (x =? y) && startsWith p' s'
  end.

(** [hay.includes(needle)] *)
Fixpoint includes (needle hay : jsstring) : bool :=
  startsWith needle hay
  || match hay with
     | [] => false
     | _ :: hay' => includes needle hay'
     end.

Fixpoint dropWhile (f : N -> bool) (s : jsstring) : jsstring :=
  match s with
  | [] => []
  | c :: s' => if f c then dropWhile f s' else s
  end.

Fixpoint takeWhile (f : N -> bool) (s : jsstring) : jsstring :=
  match s with
  | [] => []
  | c :: s' => if f c then c :: takeWhile f s' else []
  end.

(** The text is empty or its head fails [f]: a run of [f] ends here. *)
Definition stopsAt (f : N -> bool) (post : jsstring) : bool :=
  match post with
  | [] => true
  | c :: _ => negb (f c)
  end.

(** Strips trailing white space. *)
Fixpoint trimEnd (s : jsstring) : jsstring :=
  match s with
  | [] => []
  | c :: s' =>
      match trimEnd s' with
      | [] => if isWhite c then [] else [c]
      | r => c :: r
      end
  end.

(** Texts that begin, or end, with a code unit that is not white space. *)
Definition startsBlack (p : jsstring) : bool :=
  match p with
  | x :: _ => negb (isWhite x)
  | [] => false
  end.

Fixpoint endsBlack (p : jsstring) : bool :=
  match p with
  | [] => false
  | x :: p' =>
      match p' with
      | [] => negb (isWhite x)
      | _ :: _ => endsBlack p'
      end
  end.

(** [s.trim()] *)
Definition trim (s : jsstring) : jsstring := trimEnd (dropWhile isWhite s).

(** [s.slice(0, n)] *)
Definition slice0 (n : nat) (s : jsstring) : jsstring := firstn n s.

End Str.

(* ================================================================== *)
(** * The regular expressions of the source *)
(* ================================================================== *)

(** Every pattern of the engine is built from literal words with
    alternation, an optional character, [.*] and the anchors; each form gets
    the matcher below that decides [re.test(s)].  Patterns are given in lower
    case. *)
Module Re.

Import Str.
Open Scope N_scope.

(** [/p/i.test(s)] for a literal [p]. *)
Definition test_ci (p s : jsstring) : bool := includes p (toLowerCase s).

(** [/p1|p2|.../i.test(s)] *)
Definition test_any_ci (ps : list jsstring) (s : jsstring) : bool :=
  existsb (fun p => test_ci p s) ps.

(** [/^p$/i.test(s)] (no [m] flag: the anchors are the ends of [s]). *)
Definition exact_ci (p s : jsstring) : bool := Str.eqb p (toLowerCase s).

(** [.*] followed by the literal [b], tried at the head of [s]: [.] takes any
    code unit but a line terminator. *)
Fixpoint after_dotstar (b s : jsstring) : bool :=
  startsWith b s
  || match s with
     | [] => false
     | c :: s' => negb (isLineTerminator c) && after_dotstar b s'
     end.

Fixpoint seq_dotstar (a b s : jsstring) : bool :=
  (startsWith a s && after_dotstar b (skipn (List.length a) s))
  || match s with
     | [] => false
     | _ :: s' => seq_dotstar a b s'
     end.

(** [/a.*b/i.test(s)] for literals [a] and [b]. *)
Definition test_dotstar_ci (a b s : jsstring) : bool :=
  seq_dotstar a b (toLowerCase s).

End Re.

(* ================================================================== *)
(** * Data model *)
(* ================================================================== *)

(** One object of [dss_grid.json].  A property that is absent reads as
    [undefined]: [None].  The cells [C] .. [J] are kept as the object has
    them, keyed by the column letter. *)
Record GridRow := mkRow {
  L1 : option jsstring;
  L2 : option jsstring;
  keywords : option (list jsstring);
  cells : list (jsstring * jsstring)
}.

(** The object [{}] that [runAudit] passes when no row matched. *)
Definition emptyRow : GridRow := mkRow None None None [].

(** [obj[key]] on a list of own properties. *)
Fixpoint lookup (key : jsstring) (props : list (jsstring * jsstring))
  : option jsstring :=
  match props with
  | [] => None
  | (k, v) :: rest => if Str.eqb k key then Some v else lookup key rest
  end.

(** [x || ''] for a property that may be undefined. *)
Definition orEmpty (x : option jsstring) : jsstring :=
  match x with Some s => s | None => [] end.

(** [x || d] for a property that may be undefined or empty. *)
Definition orDefault (x : option jsstring) (d : jsstring) : jsstring :=
  match x with Some s => Str.or_else s d | None => d end.

(** A text between double quotes (code unit 34). *)
Definition quoted (s : jsstring) : jsstring := [34%N] ++ s ++ [34%N].

(** How a template literal prints a property. *)
Definition interpolate (x : option jsstring) : jsstring :=
  match x with Some s => s | None => u "undefined" end.

(** The three value tiers, as the strings the source uses.  8804 is the code
    unit of the less-than-or-equal sign. *)
Definition tierLow : jsstring := 8804%N :: u " USD 125".
Definition tierHigh : jsstring := u "> USD 125".
Definition tierUnknown : jsstring := u "Unknown".

(** [cellHeaderMap] of [buildOutputJSON], the same object in both files. *)
Definition cellHeaderMap : list (jsstring * jsstring) :=
  [ (u "C", u "Partnered " ++ tierLow);
    (u "D", u "Partnered " ++ tierHigh);
    (u "E", u "Non-Partnered " ++ tierLow);
    (u "F", u "Non-Partnered " ++ tierHigh);
    (u "G", u "Social Media Partnered " ++ tierLow);
    (u "H", u "Social Media Partnered " ++ tierHigh);
    (u "I", u "Social Media Non-Partnered " ++ tierLow);
    (u "J", u "Social Media Non-Partnered " ++ tierHigh) ].

Definition columnLetters : list jsstring :=
  [u "C"; u "D"; u "E"; u "F"; u "G"; u "H"; u "I"; u "J"].

(* ================================================================== *)
(** * Currency amounts *)
(* ================================================================== *)

Module Amount.

Import Str.
Open Scope N_scope.

(** The optional group [(?:\.[0-9]{1,2})?] tried at the head of [s]: the text
    it takes, a point and one or two digits, or nothing. *)
Definition fractionAt (s : jsstring) : jsstring :=
  match s with
  | c :: d1 :: rest =>
      if (c =? 46) && isDigit d1 then
        match rest with
        | d2 :: _ => if isDigit d2 then [c; d1; d2] else [c; d1]
        | [] => [c; d1]
        end
      else []
  | _ => []
  end.

(** [[0-9,]+(?:\.[0-9]{1,2})?] tried at the head of [s]: the captured text
    and what follows it. *)
Definition numeralAt (s : jsstring) : option (jsstring * jsstring) :=
  match takeWhile isNumComma s with
  | [] => None
  | run =>
      let rest := skipn (List.length run) s in
      let frac := fractionAt rest in
      Some (run ++ frac, skipn (List.length frac) rest)
  end.

(** [text.match(/\$\s*([0-9,]+(?:\.[0-9]{1,2})?)/)]: group 1 of the leftmost
    match.  [\s] and [[0-9,]] are disjoint and nothing follows the group, so
    at a given dollar sign the greedy choice is the only one. *)
Fixpoint matchDollar (text : jsstring) : option jsstring :=
  match text with
  | [] => None
  | c :: rest =>
      if c =? 36 then
        match numeralAt (dropWhile isWhite rest) with
        | Some (cap, _) => Some cap
        | None => matchDollar rest
        end
      else matchDollar rest
  end.

(** [text.match(/([\d,]+(?:\.\d{1,2})?)\s*USD/i)]: group 1 of the leftmost
    match.  At a given start every shorter choice of the run, of the fraction
    or of [\s*] leaves a code unit that neither [\s*] nor [USD] can take, so
    only the greedy choice can succeed; a failed start is retried one code
    unit to the right. *)
Definition usdAt (s : jsstring) : option jsstring :=
  match numeralAt s with
  | Some (cap, rest) =>
      if startsWith (u "usd") (toLowerCase (dropWhile isWhite rest))
      then Some cap else None
  | None => None
  end.

Fixpoint matchUsdCode (text : jsstring) : option jsstring :=
  match text with
  | [] => None
  | _ :: rest =>
      match usdAt text with
      | Some cap => Some cap
      | None => matchUsdCode rest
      end
  end.

(** [s.replace(/,/g, '')] *)
Definition removeCommas (s : jsstring) : jsstring :=
  filter (fun c => negb (c =? 44)) s.

Definition digitValue (c : N) : Z := Z.of_N (c - 48).

Definition decimalValue (ds : jsstring) : Z :=
  fold_left (fun acc c => (10 * acc + digitValue c)%Z) ds 0%Z.

(** [parseFloat(s)] for the texts the two patterns capture once the commas
    are gone: digits, then possibly a point and one or two digits.  The
    number is kept exactly, in hundredths; [None] is [NaN] (no digit at
    all).  The source compares the double nearest to the number with 125:
    rounding to nearest is monotone and 125 is a double, and a number with
    at most two decimals that exceeds 125 exceeds it by a hundredth at least,
    so that comparison and the exact one agree. *)
Definition parseFloat (s : jsstring) : option Z :=
  let ip := takeWhile isDigit s in
  let fp :=
    match skipn (List.length ip) s with
    | c :: ds => if c =? 46 then takeWhile isDigit ds else []
    | [] => []
    end in
  match ip, fp with
  | [], [] => None
  | _, [] => Some (100 * decimalValue ip)%Z
  | _, [d1] => Some (100 * decimalValue ip + 10 * digitValue d1)%Z
  | _, d1 :: d2 :: _ =>
      Some (100 * decimalValue ip + 10 * digitValue d1 + digitValue d2)%Z
  end.

(** [num <= 125 ? tierLow : tierHigh]; a comparison with [NaN] is false. *)
Definition tierOf (num : option Z) : jsstring :=
  match num with
  | Some hundredths => if (hundredths <=? 12500)%Z then tierLow else tierHigh
  | None => tierHigh
  end.

End Amount.

(* ================================================================== *)
(** * Scoring the grid: the loop both files share *)
(* ================================================================== *)

Module Score.

Import Str.
Open Scope Z_scope.

(** [for (const k of row.keywords) if (text.includes(k.toLowerCase()))
    score += 10] *)
Definition keywordScore (text : jsstring) (row : GridRow) : Z :=
  match keywords row with
  | Some ks =>
      fold_left
        (fun score k =>
           if includes (toLowerCase k) text then score + 10 else score)
        ks 0
  | None => 0
  end.

(** [row.X && text.includes(row.X.toLowerCase())] *)
Definition labelHit (text : jsstring) (label : option jsstring) : bool :=
  match label with
  | Some l => truthy l && includes (toLowerCase l) text
  | None => false
  end.

(** The body of the loop up to the comparison: the score of one row. *)
Definition rowScore (text : jsstring) (row : GridRow) : Z :=
  let score := keywordScore text row in
  let score := if labelHit text (L1 row) then score + 5 else score in
  let score := if labelHit text (L2 row) then score + 5 else score in
  score.

(** The two variables of the loop. *)
Definition Best : Type := option GridRow * Z.

(** [if (score > bestScore) { bestScore = score; best = row; }] *)
Definition step (text : jsstring) (st : Best) (row : GridRow) : Best :=
  let score := rowScore text row in
  if score >? snd st then (Some row, score) else st.

(** [for (const row of grid) ...] from [best = null; bestScore = 0]. *)
Definition scan (text : jsstring) (grid : list GridRow) : Best :=
  fold_left (step text) grid (None, 0).

End Score.

(* ================================================================== *)
(** * The observed-action sentence *)
(* ================================================================== *)

Module Sentence.

Import Str.
Open Scope N_scope.

(** [.*?(\.|$)] tried at the head of [s]: the text it takes.  The lazy star
    stops at the first point or at the end of the string, and cannot cross a
    line terminator. *)
Fixpoint upToStop (s : jsstring) : option jsstring :=
  match s with
  | [] => Some []
  | c :: s' =>
      if c =? 46 then Some [c]
      else if isLineTerminator c then None
      else option_map (cons c) (upToStop s')
  end.

(** [(s.match(/(refund.*?(\.|$))/i) || [])[0]]: the leftmost match, or
    [None] for [undefined]. *)
Fixpoint matchRefund (s : jsstring) : option jsstring :=
  match
    (if startsWith (u "refund") (toLowerCase s)
     then upToStop (skipn 6 s) else None)
  with
  | Some tail => Some (firstn 6 s ++ tail)
  | None =>
      match s with
      | [] => None
      | _ :: s' => matchRefund s'
      end
  end.

End Sentence.

(* ================================================================== *)
(** * [app.js] *)
(* ================================================================== *)

Module App.

Import Str Re.

(** What [gatherInputs] returns, with the [valueTier] that [runAudit] adds
    to the object before the other functions read it. *)
Record Inputs := mkInputs {
  bookingId : jsstring;
  ticketId : jsstring;
  subject : jsstring;
  latestComment : jsstring;
  experienceType : jsstring;
  ticketStatus : jsstring;
  valueTier : option jsstring
}.

Definition detectValueTier (text : jsstring) : jsstring :=
  if negb (truthy text) then tierUnknown
  else
    match Amount.matchDollar text with
    | Some cap => Amount.tierOf (Amount.parseFloat (Amount.removeCommas cap))
    | None =>
        match Amount.matchUsdCode text with
        | Some cap =>
            Amount.tierOf (Amount.parseFloat (Amount.removeCommas cap))
        | None => tierUnknown
        end
    end.

(** The haystack of [findBestMatch]. *)
Definition haystack (inputs : Inputs) : jsstring :=
  toLowerCase (latestComment inputs ++ u " " ++ subject inputs).

(** [/unknown|other|default/i.test(r.L1 || '') || ... (r.L2 || '')] *)
Definition isFallbackRow (r : GridRow) : bool :=
  test_any_ci [u "unknown"; u "other"; u "default"] (orEmpty (L1 r))
  || test_any_ci [u "unknown"; u "other"; u "default"] (orEmpty (L2 r)).

Definition findBestMatch (grid : list GridRow) (inputs : Inputs)
  : option GridRow :=
  match fst (Score.scan (haystack inputs) grid) with
  | Some best => Some best
  | None => find isFallbackRow grid
  end.

(** [vt === tierLow ? low : vt === tierHigh ? high : other] *)
Definition pick (vt low high other : jsstring) : jsstring :=
  if Str.eqb vt tierLow then low
  else if Str.eqb vt tierHigh then high
  else other.

(** [/non-?partnered/i] is the alternation of its two readings. *)
Definition nonPartnered : list jsstring :=
  [u "non-partnered"; u "nonpartnered"].

(** On strings [(x || '')] is [x]. *)
Definition chooseColumnLetter (experienceType valueTier : jsstring)
  : jsstring :=
  let type := trim experienceType in
  let vt := trim valueTier in
  if exact_ci (u "partnered") type
     || (test_ci (u "partnered") type && negb (test_ci (u "social") type))
  then pick vt (u "C") (u "D") (u "C")
  else if existsb (fun p => exact_ci p type) nonPartnered
          || (test_any_ci nonPartnered type
              && negb (test_ci (u "social") type))
  then pick vt (u "E") (u "F") (u "E")
  else if test_dotstar_ci (u "social") (u "partnered") type
          || (test_ci (u "social") type && test_ci (u "partnered") type
              && negb (test_ci (u "non") type))
  then pick vt (u "G") (u "H") (u "G")
  else if existsb (fun p => test_dotstar_ci (u "social") p type) nonPartnered
          || (test_ci (u "social") type && test_any_ci nonPartnered type)
  then pick vt (u "I") (u "J") (u "I")
  else if Str.eqb vt tierHigh then u "D" else u "C".

Definition severityRank (refundText : jsstring) : Z :=
  let t := toLowerCase refundText in
  if test_any_ci
       [u "full refund"; u "refund to original";
        u "refund (original method)"] t then 1
  else if test_any_ci [u "partial refund"; u "% refund"] t then 2
  else if test_any_ci [u "full wallet credit"; u "wallet credit full"] t
  then 3
  else if test_any_ci
            [u "partial wallet credit"; u "credit to wallet partial"] t
  then 4
  else if test_any_ci [u "no refund"; u "deny refund"; u "no action"] t
  then 5
  else 3.

Definition Match : jsstring := u "Match".
Definition LessSevere : jsstring := u "Less severe (under-refunded)".
Definition MoreSevere : jsstring := u "More severe (over-refunded)".
Definition Mismatch : jsstring := u "Mismatch".

Definition compareSeverity (expectedText actualText : jsstring) : jsstring :=
  let exp := severityRank expectedText in
  let act := severityRank actualText in
  if (exp =? act)%Z then Match
  else if (act >? exp)%Z then LessSevere
  else if (act <? exp)%Z then MoreSevere
  else Mismatch.

Definition Compliant : jsstring := u "Compliant".
Definition NonCompliant : jsstring := u "Non-Compliant".
Definition RuleMisapplied : jsstring :=
  u "Non-Compliant (DSS Rule Misapplied)".

(** The object [buildOutputJSON] returns, one field per key in the order of
    the literal. *)
Record OutputJSON := mkOutput {
  Booking_ID : jsstring;
  Week : jsstring;
  DSS_Compliance : jsstring;
  Booking_Value_Tier : jsstring;
  L1_Reason : jsstring;
  L2_Reason : jsstring;
  DSS_Grid_Column_Letter : jsstring;
  DSS_Grid_Column_Header : jsstring;
  Experience_Type : jsstring;
  Refund_Type_Verdict : jsstring;
  Refund_Verdict_Detail : jsstring;
  Compliance_Reason : jsstring;
  Compliance_Explanation : jsstring;
  Refund_Amount_Method : jsstring;
  DSS_Rule_Misapplied : jsstring;
  DSS_Severity_Match : jsstring;
  Ideal_Refund_Action : jsstring;
  Confidence : jsstring;
  Summary : jsstring
}.

(** [gridRow ? (gridRow[columnLetter] || '') : ''] *)
Definition expectedCellText (gridRow : option GridRow)
  (columnLetter : jsstring) : jsstring :=
  match gridRow with
  | Some row => orEmpty (lookup columnLetter (cells row))
  | None => []
  end.

Definition refundTypeVerdict (refundText : jsstring) : jsstring :=
  if test_any_ci [u "refund to original"; u "full refund"] refundText
  then u "Full refund (original method)"
  else if test_any_ci [u "partial refund"; u "% refund"] refundText
  then u "Partial refund"
  else if test_dotstar_ci (u "wallet credit") (u "full") refundText
          || test_dotstar_ci (u "full") (u "wallet credit") refundText
  then u "Full wallet credit"
  else if test_any_ci [u "wallet credit"; u "credit to wallet"] refundText
  then u "Partial wallet credit"
  else if test_any_ci [u "no refund"; u "deny refund"] refundText
  then u "No refund"
  else u "Unknown".

Definition complianceFlag (severityComparison : jsstring) : jsstring :=
  if Str.eqb severityComparison Match
     || Str.eqb severityComparison LessSevere
  then Compliant
  else if Str.eqb severityComparison MoreSevere then NonCompliant
  else RuleMisapplied.

(** [now] is what [new Date().toISOString()] reads from the clock; a null
    [gridRow] is [None]. *)
Definition buildOutputJSON (now : jsstring) (inputs : Inputs)
  (gridRow : option GridRow) (columnLetter actualActionText : jsstring)
  : OutputJSON :=
  let expected := expectedCellText gridRow columnLetter in
  let severityComparison := compareSeverity expected actualActionText in
  let flag := complianceFlag severityComparison in
  let header := lookup columnLetter cellHeaderMap in
  {| Booking_ID := or_else (bookingId inputs) (or_else (ticketId inputs) []);
     Week := slice0 10 now;
     DSS_Compliance := flag;
     Booking_Value_Tier := orEmpty (valueTier inputs);
     L1_Reason :=
       match gridRow with Some row => orEmpty (L1 row) | None => [] end;
     L2_Reason :=
       match gridRow with Some row => orEmpty (L2 row) | None => [] end;
     DSS_Grid_Column_Letter := columnLetter;
     DSS_Grid_Column_Header := orEmpty header;
     Experience_Type := experienceType inputs;
     Refund_Type_Verdict := refundTypeVerdict actualActionText;
     Refund_Verdict_Detail := actualActionText;
     Compliance_Reason := severityComparison;
     Compliance_Explanation :=
       u "DSS expects: " ++ quoted (slice0 150 expected)
       ++ u ". Actual: " ++ quoted (slice0 150 actualActionText) ++ u ".";
     Refund_Amount_Method := actualActionText;
     DSS_Rule_Misapplied :=
       if includes NonCompliant flag then u "Yes" else u "No";
     DSS_Severity_Match := severityComparison;
     Ideal_Refund_Action := expected;
     Confidence := u "High";
     Summary :=
       u "L1: "
       ++ match gridRow with
          | Some row => interpolate (L1 row)
          | None => u "Unknown"
          end
       ++ u "; L2: "
       ++ match gridRow with
          | Some row => interpolate (L2 row)
          | None => u "Unknown"
          end
       ++ u "; Col: " ++ orDefault header (u "N/A") |}.

(** [runAudit] from the loaded grid and the gathered inputs to [outputJson]:
    the part between the two fetches and the display. *)
Definition runAudit (now : jsstring) (grid : list GridRow) (inputs0 : Inputs)
  : OutputJSON :=
  let tier :=
    detectValueTier (latestComment inputs0 ++ u " " ++ subject inputs0) in
  let inputs :=
    mkInputs (bookingId inputs0) (ticketId inputs0) (subject inputs0)
      (latestComment inputs0) (experienceType inputs0) (ticketStatus inputs0)
      (Some tier) in
  let matchRow := findBestMatch grid inputs in
  let col := chooseColumnLetter (experienceType inputs) tier in
  let refundSentence :=
    orEmpty (Sentence.matchRefund (latestComment inputs)) in
  buildOutputJSON now inputs
    (Some match matchRow with Some row => row | None => emptyRow end)
    col refundSentence.

End App.

(* ================================================================== *)
(** * The enhanced [assets/app.js] of the implementation guide *)
(* ================================================================== *)

Module Enhanced.

Import Str Re.

(** What [gatherFullConversation] returns, with the [valueTier] that
    [runAudit] adds. *)
Record Inputs := mkInputs {
  bookingId : jsstring;
  ticketId : jsstring;
  subject : jsstring;
  fullConversation : jsstring;
  conversationCount : Z;
  experienceType : jsstring;
  ticketStatus : jsstring;
  valueTier : option jsstring
}.

Definition detectValueTier (text : jsstring) : jsstring :=
  if negb (truthy text) then tierUnknown
  else
    match Amount.matchDollar text with
    | Some cap => Amount.tierOf (Amount.parseFloat (Amount.removeCommas cap))
    | None => tierUnknown
    end.

Definition haystack (inputs : Inputs) : jsstring :=
  toLowerCase (fullConversation inputs ++ u " " ++ subject inputs).

(** [/unknown|default/i.test(r.L1 || '')] *)
Definition isFallbackRow (r : GridRow) : bool :=
  test_any_ci [u "unknown"; u "default"] (orEmpty (L1 r)).

Definition findBestMatch (grid : list GridRow) (inputs : Inputs)
  : option GridRow :=
  match fst (Score.scan (haystack inputs) grid) with
  | Some best => Some best
  | None =>
      if (conversationCount inputs =? 0)%Z then find isFallbackRow grid
      else None
  end.

(** [vt === tierLow ? low : high] *)
Definition pick (vt low high : jsstring) : jsstring :=
  if Str.eqb vt tierLow then low else high.

Definition nonPartnered : list jsstring :=
  [u "non-partnered"; u "nonpartnered"].

Definition chooseColumnLetter (experienceType valueTier : jsstring)
  : jsstring :=
  let type := trim experienceType in
  let vt := trim valueTier in
  if exact_ci (u "partnered") type
     || (test_ci (u "partnered") type && negb (test_ci (u "social") type))
  then pick vt (u "C") (u "D")
  else if existsb (fun p => exact_ci p type) nonPartnered
          || (test_any_ci nonPartnered type
              && negb (test_ci (u "social") type))
  then pick vt (u "E") (u "F")
  else if test_dotstar_ci (u "social") (u "partnered") type
          || (test_ci (u "social") type && test_ci (u "partnered") type
              && negb (test_ci (u "non") type))
  then pick vt (u "G") (u "H")
  else if existsb (fun p => test_dotstar_ci (u "social") p type) nonPartnered
          || (test_ci (u "social") type && test_any_ci nonPartnered type)
  then pick vt (u "I") (u "J")
  else if Str.eqb vt tierHigh then u "D" else u "C".

Definition Compliant : jsstring := u "Compliant".
Definition RuleMissing : jsstring := u "Non-Compliant (DSS Rule Missing)".

Record OutputJSON := mkOutput {
  Booking_ID : jsstring;
  Week : jsstring;
  DSS_Compliance : jsstring;
  Booking_Value_Tier : jsstring;
  L1_Reason : jsstring;
  L2_Reason : jsstring;
  Experience_Type : jsstring;
  Conversation_Count : Z;
  Confidence : jsstring
}.

Definition expectedCellText (gridRow : option GridRow)
  (columnLetter : jsstring) : jsstring :=
  match gridRow with
  | Some row => orEmpty (lookup columnLetter (cells row))
  | None => []
  end.

(** [!expectedCellText || expectedCellText.toLowerCase().includes('no action')] *)
Definition complianceFlag (expected : jsstring) : jsstring :=
  if negb (truthy expected)
     || includes (u "no action") (toLowerCase expected)
  then RuleMissing else Compliant.

Definition buildOutputJSON (now : jsstring) (inputs : Inputs)
  (gridRow : option GridRow) (columnLetter actualActionText : jsstring)
  : OutputJSON :=
  let expected := expectedCellText gridRow columnLetter in
  {| Booking_ID := bookingId inputs;
     Week := slice0 10 now;
     DSS_Compliance := complianceFlag expected;
     Booking_Value_Tier := orDefault (valueTier inputs) (u "Unknown");
     L1_Reason :=
       match gridRow with
       | Some row => orDefault (L1 row) (u "Unknown")
       | None => u "Unknown"
       end;
     L2_Reason :=
       match gridRow with
       | Some row => orDefault (L2 row) (u "Unknown")
       | None => u "Unknown"
       end;
     Experience_Type :=
       orDefault (lookup columnLetter cellHeaderMap) (u "Unknown");
     Conversation_Count := conversationCount inputs;
     Confidence :=
       if (conversationCount inputs >? 0)%Z then u "High" else u "Low" |}.

Definition runAudit (now : jsstring) (grid : list GridRow) (inputs0 : Inputs)
  : OutputJSON :=
  let tier :=
    detectValueTier (fullConversation inputs0 ++ u " " ++ subject inputs0) in
  let inputs :=
    mkInputs (bookingId inputs0) (ticketId inputs0) (subject inputs0)
      (fullConversation inputs0) (conversationCount inputs0)
      (experienceType inputs0) (ticketStatus inputs0) (Some tier) in
  let matchRow := findBestMatch grid inputs in
  let col := chooseColumnLetter (experienceType inputs) tier in
  let refundAction :=
    orDefault (Sentence.matchRefund (fullConversation inputs))
      (u "Not found") in
  buildOutputJSON now inputs
    (Some match matchRow with Some row => row | None => emptyRow end)
    col refundAction.

End Enhanced.

(* ================================================================== *)
(** * Vocabulary of the statements *)
(* ================================================================== *)

Module Terms.

Import Str.
Open Scope N_scope.

(** ** Amounts as they are written after a dollar sign *)

Fixpoint unitsOf (d : Decimal.uint) : jsstring :=
  match d with
  | Decimal.Nil => []
  | Decimal.D0 d' => 48 :: unitsOf d'
  | Decimal.D1 d' => 49 :: unitsOf d'
  | Decimal.D2 d' => 50 :: unitsOf d'
  | Decimal.D3 d' => 51 :: unitsOf d'
  | Decimal.D4 d' => 52 :: unitsOf d'
  | Decimal.D5 d' => 53 :: unitsOf d'
  | Decimal.D6 d' => 54 :: unitsOf d'
  | Decimal.D7 d' => 55 :: unitsOf d'
  | Decimal.D8 d' => 56 :: unitsOf d'
  | Decimal.D9 d' => 57 :: unitsOf d'
  end.

(** The decimal numeral of a natural number. *)
Definition showN (n : N) : jsstring := unitsOf (N.to_uint n).

(** An amount of money: whole dollars, dollars and tenths, or dollars and
    cents. *)
Inductive amount : Type :=
  | Dollars (d : N)
  | DollarsTenths (d t : N)
  | DollarsCents (d c : N).

Definition wellFormed (a : amount) : Prop :=
  match a with
  | Dollars _ => True
  | DollarsTenths _ t => t < 10
  | DollarsCents _ c => c < 100
  end.

(** The amount in hundredths of a dollar. *)
Definition hundredths (a : amount) : Z :=
  match a with
  | Dollars d => (100 * Z.of_N d)%Z
  | DollarsTenths d t => (100 * Z.of_N d + 10 * Z.of_N t)%Z
  | DollarsCents d c => (100 * Z.of_N d + Z.of_N c)%Z
  end.

Definition wholeDollars (a : amount) : N :=
  match a with
  | Dollars d => d
  | DollarsTenths d _ => d
  | DollarsCents d _ => d
  end.

(** The decimal places as written: nothing, [.5], [.25]. *)
Definition showDecimals (a : amount) : jsstring :=
  match a with
  | Dollars _ => []
  | DollarsTenths _ t => [46; 48 + t]
  | DollarsCents _ c => [46; 48 + c / 10; 48 + c mod 10]
  end.

(** [separated ds w]: the text [w] is the digits [ds], in order, written
    with thousands separators: a comma may stand before, between or after
    the digits, as in [1,250] for [1250].  The digits themselves, without
    any comma, are one such writing. *)
Inductive separated : jsstring -> jsstring -> Prop :=
  | separated_nil : separated [] []
  | separated_digit (c : N) (ds w : jsstring) :
      isDigit c = true -> separated ds w -> separated (c :: ds) (c :: w)
  | separated_comma (ds w : jsstring) :
      separated ds w -> separated ds (44 :: w).

(** The text after a written amount runs on into it when it would be read
    as part of the numeral: a digit, a comma, or a point and a digit after
    whole dollars ([$50] followed by [0] is [$500]); a digit after a single
    decimal ([$12.5] followed by [7] is [$12.57]). *)
Definition runsOn (a : amount) (post : jsstring) : bool :=
  match a, post with
  | DollarsCents _ _, _ => false
  | DollarsTenths _ _, [] => false
  | DollarsTenths _ _, c :: _ => isDigit c
  | Dollars _, [] => false
  | Dollars _, c :: rest =>
      isNumComma c
      || ((c =? 46) && match rest with d :: _ => isDigit d | [] => false end)
  end.

(** ** The two surface forms of a currency amount *)

(** A dollar sign, possibly white space, then a digit or a comma. *)
Definition dollarForm (text : jsstring) : Prop :=
  exists pre ws c post,
    text = pre ++ [36] ++ ws ++ c :: post
    /\ forallb isWhite ws = true /\ isNumComma c = true.

Definition isFraction (frac : jsstring) : Prop :=
  frac = []
  \/ (exists d, frac = [46; d] /\ isDigit d = true)
  \/ (exists d1 d2,
        frac = [46; d1; d2] /\ isDigit d1 = true /\ isDigit d2 = true).

(** A digit or a comma, possibly a fraction and white space, then the
    currency code in any case. *)
Definition codeForm (text : jsstring) : Prop :=
  exists pre c frac ws code post,
    text = pre ++ c :: frac ++ ws ++ code ++ post
    /\ isNumComma c = true /\ isFraction frac
    /\ forallb isWhite ws = true /\ toLowerCase code = u "usd".

(** ** The currency pattern in the words of the specification *)

(** "A currency symbol immediately followed by a numeral": a numeral begins
    with a digit, so a text shows this pattern exactly when a digit stands
    right after a dollar sign. *)
Fixpoint specDollarPattern (text : jsstring) : bool :=
  match text with
  | [] => false
  | c :: rest =>
      ((c =? 36) && match rest with d :: _ => isDigit d | [] => false end)
      || specDollarPattern rest
  end.

(** "A numeral immediately followed by the currency code": a numeral ends
    with a digit, so a text shows this pattern exactly when the code stands
    right after a digit.  The code is accepted in any case. *)
Fixpoint specCodePattern (text : jsstring) : bool :=
  match text with
  | [] => false
  | c :: rest =>
      (isDigit c && startsWith (u "usd") (toLowerCase rest))
      || specCodePattern rest
  end.

Definition specCurrencyPattern (text : jsstring) : bool :=
  specDollarPattern text || specCodePattern text.

(** ** Rules of the column selector, as conditions on the type string *)

(** Rule 1: exactly [partnered], or [partnered] without [social]. *)
Definition rule1 (type : jsstring) : Prop :=
  Re.exact_ci (u "partnered") type = true
  \/ (Re.test_ci (u "partnered") type = true
      /\ Re.test_ci (u "social") type = false).

(** Rule 4: [social] together with [non-partnered] or [nonpartnered]. *)
Definition rule4 (type : jsstring) : Prop :=
  Re.test_ci (u "social") type = true
  /\ Re.test_any_ci App.nonPartnered type = true.

(** ** The date field set apart *)

Definition appWithWeek (w : jsstring) (o : App.OutputJSON) : App.OutputJSON :=
  App.mkOutput (App.Booking_ID o) w (App.DSS_Compliance o)
    (App.Booking_Value_Tier o) (App.L1_Reason o) (App.L2_Reason o)
    (App.DSS_Grid_Column_Letter o) (App.DSS_Grid_Column_Header o)
    (App.Experience_Type o) (App.Refund_Type_Verdict o)
    (App.Refund_Verdict_Detail o) (App.Compliance_Reason o)
    (App.Compliance_Explanation o) (App.Refund_Amount_Method o)
    (App.DSS_Rule_Misapplied o) (App.DSS_Severity_Match o)
    (App.Ideal_Refund_Action o) (App.Confidence o) (App.Summary o).

Definition enhancedWithWeek (w : jsstring) (o : Enhanced.OutputJSON)
  : Enhanced.OutputJSON :=
  Enhanced.mkOutput (Enhanced.Booking_ID o) w (Enhanced.DSS_Compliance o)
    (Enhanced.Booking_Value_Tier o) (Enhanced.L1_Reason o)
    (Enhanced.L2_Reason o) (Enhanced.Experience_Type o)
    (Enhanced.Conversation_Count o) (Enhanced.Confidence o).

(** The eight headers of [cellHeaderMap]. *)
Definition columnHeaders : list jsstring := map snd cellHeaderMap.

End Terms.

(* ================================================================== *)
(** * Sample data used by the examples *)
(* ================================================================== *)

Module Sample.

(** A grid row that no text scores on but that is marked as the fallback. *)
Definition unknownRow : GridRow :=
  mkRow (Some (u "Unknown")) (Some (u "Unclassified")) (Some [])
    [(u "C", u "Full refund")].

(** A row whose second label carries the fallback word. *)
Definition otherRow : GridRow :=
  mkRow (Some (u "Miscellaneous")) (Some (u "Other")) (Some []) [].

Definition cancelRow : GridRow :=
  mkRow (Some (u "Cancel before start")) (Some (u "Customer request"))
    (Some [u "cancel"; u "cancellation"])
    [(u "C", u "Full refund to original payment method");
     (u "D", u "Partial refund - 50%")].

Definition weatherRow : GridRow :=
  mkRow (Some (u "Weather")) (Some (u "Supplier cancelled"))
    (Some [u "storm"; u "cancel"])
    [(u "C", u "Full wallet credit")].

(** The row of the end-to-end scenario of the specification. *)
Definition refundRow : GridRow :=
  mkRow (Some (u "Refund requested")) (Some (u "Partial refund approved"))
    (Some [u "partial refund"]) [(u "E", u "Partial refund - 50%")].

Definition appInputs (comment subject type : string) : App.Inputs :=
  App.mkInputs (u "4821") (u "17") (u subject) (u comment) (u type)
    (u "open") None.

Definition enhancedInputs (conversation subject type : string) (count : Z)
  : Enhanced.Inputs :=
  Enhanced.mkInputs (u "4821") (u "17") (u subject) (u conversation) count
    (u type) (u "open") None.

Definition monday : jsstring := u "2024-03-04T09:30:00.000Z".
Definition mondayEvening : jsstring := u "2024-03-04T17:45:10.250Z".
Definition tuesday : jsstring := u "2024-03-05T09:30:00.000Z".

End Sample.

(* ================================================================== *)
(** * More sample data *)
(* ================================================================== *)

Module More.

(** A row with an empty string among its keywords. *)
Definition blankKeywordRow : GridRow :=
  mkRow (Some (u "Late arrival")) (Some (u "Guide no-show"))
    (Some [u "no-show"; []]) [(u "C", u "Full wallet credit")].

End More.

(* ================================================================== *)
(** * Gathering the inputs ([gatherInputs] of [assets/app.js]) *)
(* ================================================================== *)

Module Gather.

(** A comment of the ticket, as the comments request returns it. *)
Record Comment := mkComment {
  plain_body : option jsstring;
  body : option jsstring
}.

(** The ticket object: its number, and the properties that may be missing.
    [customField] is given as [Object.entries] lists it. *)
Record Ticket := mkTicket {
  id : N;
  subject : option jsstring;
  status : option jsstring;
  customField : option (list (jsstring * option jsstring))
}.

(** [/\d{4,}/]: tried at each position in turn; where four digits or more
    begin, the greedy quantifier takes the whole run. *)
Fixpoint matchDigits4 (s : jsstring) : option jsstring :=
  match s with
  | [] => None
  | _ :: rest =>
      let run := Str.takeWhile Str.isDigit s in
      if (4 <=? List.length run)%nat then Some run else matchDigits4 rest
  end.

(** [(subject && subject.match(/\d{4,}/)) ? subject.match(/\d{4,}/)[0] : id] *)
Definition bookingIdOf (subject : option jsstring) (idText : jsstring)
  : jsstring :=
  match subject with
  | Some s =>
      if Str.truthy s then
        match matchDigits4 s with
        | Some m => m
        | None => idText
        end
      else idText
  | None => idText
  end.

(** [lastComment.plain_body || lastComment.body || ''] *)
Definition commentText (c : Comment) : jsstring :=
  orDefault (plain_body c) (orDefault (body c) []).

(** The text of the last comment; [''] when the request failed or brought
    no comment. *)
Definition latestCommentOf (comments : option (list Comment)) : jsstring :=
  match comments with
  | Some (c :: cs) => commentText (last cs c)
  | _ => []
  end.

(** The test of [find] on a custom field's key. *)
Definition isTypeKey (key : jsstring) : bool :=
  Str.includes (u "experience") (Str.toLowerCase key)
  || Str.includes (u "type") (Str.toLowerCase key).

Definition experienceTypeOf (t : Ticket) : jsstring :=
  match customField t with
  | None => u "Unknown"
  | Some entries =>
      match find (fun kv => isTypeKey (fst kv)) entries with
      | Some expField => orDefault (snd expField) (u "Unknown")
      | None => u "Unknown"
      end
  end.

(** Inside Zendesk: from the ticket and the answer to the comments request
    ([None] when it failed or has no [comments]).  The ticket number is
    carried as its decimal numeral. *)
Definition gatherInputs (t : Ticket) (comments : option (list Comment))
  : App.Inputs :=
  App.mkInputs
    (bookingIdOf (subject t) (Terms.showN (id t)))
    (Terms.showN (id t))
    (orEmpty (subject t))
    (Str.slice0 3000 (latestCommentOf comments))
    (experienceTypeOf t)
    (orDefault (status t) (u "unknown"))
    None.

(** Standalone: from the three answers to [prompt] ([None] when the dialog
    was dismissed) and the random ticket number, already a string. *)
Definition gatherStandalone
  (subject latestComment experienceType : option jsstring)
  (ticketId : jsstring) : App.Inputs :=
  App.mkInputs
    (bookingIdOf subject ticketId)
    ticketId
    (orEmpty subject)
    (Str.slice0 3000 (orEmpty latestComment))
    (orDefault experienceType (u "Unknown"))
    (u "unknown")
    None.

End Gather.

(* ================================================================== *)
(** * Deadlines ([assets/time-utils.js], [assets/tour-deadline.js]) *)
(* ================================================================== *)

(** A valid [Date] is its time value, a whole number of milliseconds; the
    clock reading of each [new Date()] is a parameter.  Differences of time
    values, their quotients by the unit lengths and the comparisons below
    are exact in double arithmetic for differences under 2^53 ms, which
    covers every pair of dates less than 285,000 years apart.  Beyond that
    distance the subtraction of the source rounds: a statement about two
    arbitrary dates carries the bound as a hypothesis. *)
Module TimeUtils.

Open Scope Z_scope.

Record TimeDifference := mkDiff {
  days : Z;
  hours : Z;
  minutes : Z;
  total : Z
}.

Definition getTimeDifference (date1 date2 : Z) : TimeDifference :=
  let diff := Z.abs (date2 - date1) in
  {| days := diff / (1000 * 60 * 60 * 24);
     hours := (diff mod (1000 * 60 * 60 * 24)) / (1000 * 60 * 60);
     minutes := (diff mod (1000 * 60 * 60)) / (1000 * 60);
     total := diff |}.

(** [date < new Date()] *)
Definition hasPassed (now date : Z) : bool := date <? now.

(** [hours > 0 && hours <= thresholdHours], for a whole number of hours. *)
Definition isApproaching (now date thresholdHours : Z) : bool :=
  let diff := date - now in
  (0 <? diff) && (diff <=? thresholdHours * (1000 * 60 * 60)).

(** [`${n} unit${n > 1 ? 's' : ''}`] *)
Definition counted (n : Z) (unit : jsstring) : jsstring :=
  Terms.showN (Z.to_N n) ++ u " " ++ unit ++ (if 1 <? n then u "s" else []).

Definition formatTimeRemaining (now date : Z) : jsstring :=
  let diff := getTimeDifference now date in
  if date <? now then
    if 0 <? days diff then counted (days diff) (u "day") ++ u " ago"
    else if 0 <? hours diff then counted (hours diff) (u "hour") ++ u " ago"
    else counted (minutes diff) (u "minute") ++ u " ago"
  else
    if 0 <? days diff then u "in " ++ counted (days diff) (u "day")
    else if 0 <? hours diff then u "in " ++ counted (hours diff) (u "hour")
    else u "in " ++ counted (minutes diff) (u "minute").

(** The status and its label in [displayDeadlineStatus]; [hasPassed] and
    [isApproaching] each read the clock. *)
Definition deadlineStatus (now1 now2 tourDate : Z) : jsstring * jsstring :=
  if hasPassed now1 tourDate then (u "passed", u "Deadline Passed")
  else if isApproaching now2 tourDate 24 then (u "approaching", u "Approaching")
  else (u "safe", u "On Time").

End TimeUtils.

(* ================================================================== *)
(** * Severity *)
(* ================================================================== *)

Section Severity.

Import App.

(** The rank is one of the five levels. *)
Lemma severityRank_range (t : jsstring) :
  (1 <= severityRank t <= 5)%Z.
Proof.
  unfold severityRank.
  repeat match goal with
  | |- context [if ?b then _ else _] => destruct b
  end; lia.
Qed.

(** The outcome is decided by the order of the two ranks. *)
Lemma compareSeverity_cases (e a : jsstring) :
  (severityRank e = severityRank a /\ compareSeverity e a = Match)
  \/ ((severityRank e < severityRank a)%Z
      /\ compareSeverity e a = LessSevere)
  \/ ((severityRank a < severityRank e)%Z
      /\ compareSeverity e a = MoreSevere).
Proof.
  unfold compareSeverity.
  destruct (Z.eqb_spec (severityRank e) (severityRank a)) as [Heq | Hne].
  - left; split; [exact Heq | reflexivity].
  - destruct (Z.gtb_spec (severityRank a) (severityRank e)) as [Hgt | Hle].
    + right; left; split; [lia | reflexivity].
    + destruct (Z.ltb_spec (severityRank a) (severityRank e)) as [Hlt | Hge].
      * right; right; split; [lia | reflexivity].
      * exfalso; lia.
Qed.

(** C9: [compareSeverity] is total and returns one of exactly three values,
    Match, Less severe (under-refunded) or More severe (over-refunded), for
    every pair of texts; the fourth value, Mismatch, is never returned, the
    three being pairwise different and different from it. *)
Theorem C9_compareSeverity_three_outcomes :
  forall expectedText actualText : jsstring,
    let r := compareSeverity expectedText actualText in
    (r = Match \/ r = LessSevere \/ r = MoreSevere)
    /\ r <> Mismatch
    /\ Match <> LessSevere /\ Match <> MoreSevere /\ LessSevere <> MoreSevere.
Proof.
  intros e a r; subst r.
  repeat split; try discriminate.
  - destruct (compareSeverity_cases e a) as [[_ H] | [[_ H] | [_ H]]];
      rewrite H; auto.
  - destruct (compareSeverity_cases e a) as [[_ H] | [[_ H] | [_ H]]];
      rewrite H; discriminate.
Qed.

(** C4, as the code has it: the rank of a full refund to the original payment
    method is 1, the rank of a refusal is 5, and comparing the first as
    expected with the second as actual gives Less severe (under-refunded):
    the actual rank is the greater one. *)
Theorem C4_rank_and_compare :
  severityRank (u "Full refund to original payment method") = 1%Z
  /\ severityRank (u "No refund - policy") = 5%Z
  /\ compareSeverity (u "Full refund to original payment method")
       (u "No refund - policy") = LessSevere.
Proof. repeat split; vm_compute; reflexivity. Qed.

(** C4 as stated fails: the comparison does not give More severe. *)
Lemma C4_compare_is_not_more_severe :
  compareSeverity (u "Full refund to original payment method")
    (u "No refund - policy") <> MoreSevere.
Proof. vm_compute; discriminate. Qed.

End Severity.

(* ================================================================== *)
(** * The column selector always lands on a column *)
(* ================================================================== *)

Section Columns.

Import Str.

Lemma app_pick_cases (vt low high other : jsstring) :
  App.pick vt low high other = low
  \/ App.pick vt low high other = high
  \/ App.pick vt low high other = other.
Proof.
  unfold App.pick.
  destruct (Str.eqb vt tierLow); [auto |].
  destruct (Str.eqb vt tierHigh); auto.
Qed.

Lemma enhanced_pick_cases (vt low high : jsstring) :
  Enhanced.pick vt low high = low \/ Enhanced.pick vt low high = high.
Proof. unfold Enhanced.pick; destruct (Str.eqb vt tierLow); auto. Qed.

Lemma app_column_in_letters (experienceType valueTier : jsstring) :
  In (App.chooseColumnLetter experienceType valueTier) columnLetters.
Proof.
  unfold App.chooseColumnLetter.
  repeat match goal with
  | |- context [if ?b then App.pick _ _ _ _ else _] => destruct b
  | |- context [App.pick ?v ?a ?b ?c] =>
      destruct (app_pick_cases v a b c) as [-> | [-> | ->]]
  | |- context [if ?b then u "D" else _] => destruct b
  end; vm_compute; tauto.
Qed.

Lemma enhanced_column_in_letters (experienceType valueTier : jsstring) :
  In (Enhanced.chooseColumnLetter experienceType valueTier) columnLetters.
Proof.
  unfold Enhanced.chooseColumnLetter.
  repeat match goal with
  | |- context [if ?b then Enhanced.pick _ _ _ else _] => destruct b
  | |- context [Enhanced.pick ?v ?a ?b] =>
      destruct (enhanced_pick_cases v a b) as [-> | ->]
  | |- context [if ?b then u "D" else _] => destruct b
  end; vm_compute; tauto.
Qed.

(** Each of the eight letters is a key of [cellHeaderMap]. *)
Lemma header_of_letter (letter : jsstring) :
  In letter columnLetters ->
  exists header,
    lookup letter cellHeaderMap = Some header
    /\ In header Terms.columnHeaders
    /\ truthy header = true.
Proof.
  intros Hin.
  repeat (destruct Hin as [<- | Hin];
          [eexists; split; [vm_compute; reflexivity |];
           split; [vm_compute; tauto | reflexivity] |]).
  destruct Hin.
Qed.

(** C10: [chooseColumnLetter] is total: for every experience-type string
    and every value-tier string, in [app.js] and in the enhanced file alike,
    it returns one of the eight letters C .. J; the lookup in the fixed header
    map succeeds on it, and the column header of the record the audit builds
    is one of the eight fixed headers. *)
Theorem C10_column_letter_total :
  forall experienceType valueTier : jsstring,
    (In (App.chooseColumnLetter experienceType valueTier) columnLetters
     /\ exists header,
          lookup (App.chooseColumnLetter experienceType valueTier)
            cellHeaderMap = Some header
          /\ In header Terms.columnHeaders)
    /\ (In (Enhanced.chooseColumnLetter experienceType valueTier)
          columnLetters
        /\ exists header,
             lookup (Enhanced.chooseColumnLetter experienceType valueTier)
               cellHeaderMap = Some header
             /\ In header Terms.columnHeaders)
    /\ (forall now grid inputs,
          In (App.DSS_Grid_Column_Header (App.runAudit now grid inputs))
            Terms.columnHeaders)
    /\ (forall now grid inputs,
          In (Enhanced.Experience_Type (Enhanced.runAudit now grid inputs))
            Terms.columnHeaders).
Proof.
  intros t v.
  split; [| split; [| split]].
  - split; [apply app_column_in_letters |].
    destruct (header_of_letter _ (app_column_in_letters t v))
      as (h & Hl & Hh & _); eauto.
  - split; [apply enhanced_column_in_letters |].
    destruct (header_of_letter _ (enhanced_column_in_letters t v))
      as (h & Hl & Hh & _); eauto.
  - intros now grid inputs.
    unfold App.runAudit, App.buildOutputJSON; cbn [App.DSS_Grid_Column_Header].
    match goal with
    | |- context [lookup ?l cellHeaderMap] =>
        destruct (@header_of_letter l) as (h & Hl & Hh & _);
          [apply app_column_in_letters | rewrite Hl; exact Hh]
    end.
  - intros now grid inputs.
    unfold Enhanced.runAudit, Enhanced.buildOutputJSON;
      cbn [Enhanced.Experience_Type].
    match goal with
    | |- context [lookup ?l cellHeaderMap] =>
        destruct (@header_of_letter l) as (h & Hl & Hh & Ht);
          [apply enhanced_column_in_letters | rewrite Hl]
    end.
    unfold orDefault, or_else; rewrite Ht; exact Hh.
Qed.

End Columns.

(* ================================================================== *)
(** * The scan of the grid *)
(* ================================================================== *)

Section Scan.

Import Score.
Open Scope Z_scope.

Variable text : jsstring.

Lemma keywordScore_nonneg (row : GridRow) : 0 <= keywordScore text row.
Proof.
  unfold keywordScore.
  destruct (keywords row) as [ks |]; [| lia].
  assert (H : forall acc, 0 <= acc ->
            0 <= fold_left
                   (fun score k =>
                      if Str.includes (Str.toLowerCase k) text
                      then score + 10 else score) ks acc).
  { induction ks as [| k ks IH]; intros acc Hacc; cbn; [exact Hacc |].
    apply IH.
    destruct (Str.includes (Str.toLowerCase k) text); lia. }
  apply H; lia.
Qed.

Lemma rowScore_nonneg (row : GridRow) : 0 <= rowScore text row.
Proof.
  unfold rowScore.
  pose proof (keywordScore_nonneg row).
  destruct (labelHit text (L1 row)), (labelHit text (L2 row)); lia.
Qed.

(** Only a strictly higher score displaces the current best row. *)
Lemma step_keeps (st : Best) (row : GridRow) :
  rowScore text row <= snd st -> step text st row = st.
Proof.
  intros H; unfold step.
  destruct (Z.gtb_spec (rowScore text row) (snd st)); [lia | reflexivity].
Qed.

Lemma step_takes (st : Best) (row : GridRow) :
  snd st < rowScore text row ->
  step text st row = (Some row, rowScore text row).
Proof.
  intros H; unfold step.
  destruct (Z.gtb_spec (rowScore text row) (snd st)); [reflexivity | lia].
Qed.

(** Rows that do not beat the current best leave the state as it is. *)
Lemma fold_keeps (rows : list GridRow) (st : Best) :
  (forall x, In x rows -> rowScore text x <= snd st) ->
  fold_left (step text) rows st = st.
Proof.
  induction rows as [| x rows IH]; intros H; cbn; [reflexivity |].
  rewrite step_keeps by (apply H; left; reflexivity).
  apply IH; intros y Hy; apply H; right; exact Hy.
Qed.

(** The best score stays below a bound that every row seen stays below. *)
Lemma fold_below (m : Z) (rows : list GridRow) (st : Best) :
  snd st < m ->
  (forall x, In x rows -> rowScore text x < m) ->
  snd (fold_left (step text) rows st) < m.
Proof.
  revert st; induction rows as [| x rows IH]; intros st Hst H; cbn;
    [exact Hst |].
  apply IH.
  - unfold step.
    destruct (rowScore text x >? snd st); cbn; [| exact Hst].
    apply H; left; reflexivity.
  - intros y Hy; apply H; right; exact Hy.
Qed.

(** The scan returns the first row that attains the best positive score. *)
Lemma scan_first_best (pre post : list GridRow) (r : GridRow) :
  0 < rowScore text r ->
  (forall x, In x pre -> rowScore text x < rowScore text r) ->
  (forall x, In x post -> rowScore text x <= rowScore text r) ->
  scan text (pre ++ r :: post) = (Some r, rowScore text r).
Proof.
  intros Hpos Hpre Hpost.
  unfold scan.
  rewrite fold_left_app; cbn [fold_left].
  rewrite step_takes by (apply fold_below; [cbn; lia | exact Hpre]).
  apply fold_keeps; cbn; exact Hpost.
Qed.

(** When no row scores above zero the scan ends as it began. *)
Lemma scan_all_zero (grid : list GridRow) :
  (forall x, In x grid -> rowScore text x = 0) ->
  scan text grid = (None, 0).
Proof.
  intros H; unfold scan; apply fold_keeps.
  intros x Hx; rewrite (H x Hx); cbn; lia.
Qed.

End Scan.

Section BestMatch.

Open Scope Z_scope.

(** C7: [findBestMatch] is order-stable, in [app.js] and in the enhanced
    file: when a row of the grid has a strictly positive score, every row
    before it scores strictly less and no row after it scores more (some may
    score the same), that row is the one returned. So of two rows that both
    attain the best score the earlier one wins. *)
Theorem C7_findBestMatch_order_stable :
  forall (pre post : list GridRow) (r : GridRow),
    (forall inputs : App.Inputs,
       let text := App.haystack inputs in
       0 < Score.rowScore text r ->
       (forall x, In x pre -> Score.rowScore text x < Score.rowScore text r) ->
       (forall x, In x post ->
                  Score.rowScore text x <= Score.rowScore text r) ->
       App.findBestMatch (pre ++ r :: post) inputs = Some r)
    /\ (forall inputs : Enhanced.Inputs,
          let text := Enhanced.haystack inputs in
          0 < Score.rowScore text r ->
          (forall x, In x pre ->
                     Score.rowScore text x < Score.rowScore text r) ->
          (forall x, In x post ->
                     Score.rowScore text x <= Score.rowScore text r) ->
          Enhanced.findBestMatch (pre ++ r :: post) inputs = Some r).
Proof.
  intros pre post r; split; intros inputs text Hpos Hpre Hpost.
  - unfold App.findBestMatch; fold text.
    rewrite (scan_first_best text pre post r Hpos Hpre Hpost).
    reflexivity.
  - unfold Enhanced.findBestMatch; fold text.
    rewrite (scan_first_best text pre post r Hpos Hpre Hpost).
    reflexivity.
Qed.

(** Two rows tie at 10 on the keyword "cancel"; the earlier one is returned,
    whichever of the two comes first in the grid. *)
Lemma C7_witness_tie :
  App.findBestMatch [Sample.unknownRow; Sample.cancelRow; Sample.weatherRow]
    (Sample.appInputs "Please cancel my booking" "Booking 4821" "Partnered")
  = Some Sample.cancelRow
  /\ Enhanced.findBestMatch
       [Sample.unknownRow; Sample.weatherRow; Sample.cancelRow]
       (Sample.enhancedInputs "Please cancel my booking" "Booking 4821"
          "Partnered" 1)
     = Some Sample.weatherRow.
Proof.
  split.
  - apply (proj1 (C7_findBestMatch_order_stable
                    [Sample.unknownRow] [Sample.weatherRow]
                    Sample.cancelRow)).
    + vm_compute; reflexivity.
    + intros x [<- | []]; vm_compute; reflexivity.
    + intros x [<- | []]; vm_compute; discriminate.
  - apply (proj2 (C7_findBestMatch_order_stable
                    [Sample.unknownRow] [Sample.cancelRow]
                    Sample.weatherRow)).
    + vm_compute; reflexivity.
    + intros x [<- | []]; vm_compute; reflexivity.
    + intros x [<- | []]; vm_compute; discriminate.
Defined.

End BestMatch.

(* ================================================================== *)
(** * The fallback when no row scores *)
(* ================================================================== *)

Section Fallback.

Open Scope Z_scope.

(** [app.js]: with every score at zero the result is the first fallback row,
    whatever the conversation holds. *)
Lemma app_zero_scores_fallback (grid : list GridRow) (inputs : App.Inputs) :
  (forall x, In x grid -> Score.rowScore (App.haystack inputs) x = 0) ->
  App.findBestMatch grid inputs = find App.isFallbackRow grid.
Proof.
  intros H; unfold App.findBestMatch.
  rewrite (scan_all_zero _ _ H); reflexivity.
Qed.

(** The enhanced file: with every score at zero a non-empty conversation
    gets no row, and an empty one gets the first row whose [L1] carries
    [unknown] or [default]. *)
Lemma enhanced_zero_scores_fallback (grid : list GridRow)
  (inputs : Enhanced.Inputs) :
  (forall x, In x grid -> Score.rowScore (Enhanced.haystack inputs) x = 0) ->
  Enhanced.findBestMatch grid inputs
  = if Enhanced.conversationCount inputs =? 0
    then find Enhanced.isFallbackRow grid else None.
Proof.
  intros H; unfold Enhanced.findBestMatch.
  rewrite (scan_all_zero _ _ H); reflexivity.
Qed.

(** C2, as the code has it: when every row of the grid scores zero,
    [app.js] returns the first row whose [L1] or [L2] holds "unknown",
    "other" or "default" in any case, or none when there is no such row,
    whatever the conversation holds; the enhanced file returns none when
    [conversationCount] is not zero and, when it is zero, the first row whose
    [L1] holds "unknown" or "default", or none. *)
Theorem C2_zero_scores_fallback :
  forall grid : list GridRow,
    (forall inputs : App.Inputs,
       (forall x, In x grid ->
                  Score.rowScore (App.haystack inputs) x = 0) ->
       App.findBestMatch grid inputs = find App.isFallbackRow grid)
    /\ (forall inputs : Enhanced.Inputs,
          (forall x, In x grid ->
                     Score.rowScore (Enhanced.haystack inputs) x = 0) ->
          Enhanced.findBestMatch grid inputs
          = if Enhanced.conversationCount inputs =? 0
            then find Enhanced.isFallbackRow grid else None).
Proof.
  intros grid; split; intros inputs H.
  - apply app_zero_scores_fallback, H.
  - apply enhanced_zero_scores_fallback, H.
Qed.

Lemma C2_witness_three_rows :
  App.findBestMatch
    [Sample.cancelRow; Sample.otherRow; Sample.unknownRow]
    (Sample.appInputs "Hello, where is my voucher?" "Booking 4821"
       "Partnered")
  = Some Sample.otherRow
  /\ Enhanced.findBestMatch
       [Sample.cancelRow; Sample.otherRow; Sample.unknownRow]
       (Sample.enhancedInputs "" "Booking 4821" "Partnered" 0)
     = Some Sample.unknownRow
  /\ Enhanced.findBestMatch
       [Sample.cancelRow; Sample.otherRow; Sample.unknownRow]
       (Sample.enhancedInputs "Hello, where is my voucher?" "Booking 4821"
          "Partnered" 3)
     = None.
Proof.
  destruct (C2_zero_scores_fallback
              [Sample.cancelRow; Sample.otherRow; Sample.unknownRow])
    as [Happ Henh].
  split; [| split].
  - rewrite Happ; [reflexivity |].
    intros x [<- | [<- | [<- | []]]]; vm_compute; reflexivity.
  - rewrite Henh; [reflexivity |].
    intros x [<- | [<- | [<- | []]]]; vm_compute; reflexivity.
  - rewrite Henh; [reflexivity |].
    intros x [<- | [<- | [<- | []]]]; vm_compute; reflexivity.
Defined.

(** C2 as stated fails in either file.  In [app.js] a conversation that is
    not empty and scores on no row still gets the fallback row.  In the
    enhanced file an empty conversation gets no row although a row carries
    the word "Other" in its [L2]. *)
Lemma C2_fallback_departures :
  (Score.rowScore
     (App.haystack
        (Sample.appInputs "Hello, where is my voucher?" "Booking 4821"
           "Partnered"))
     Sample.unknownRow = 0
   /\ App.findBestMatch [Sample.unknownRow]
        (Sample.appInputs "Hello, where is my voucher?" "Booking 4821"
           "Partnered")
      = Some Sample.unknownRow
   /\ Some Sample.unknownRow <> None)
  /\ (Score.rowScore
        (Enhanced.haystack
           (Sample.enhancedInputs "" "Booking 4821" "Partnered" 0))
        Sample.otherRow = 0
      /\ Enhanced.conversationCount
           (Sample.enhancedInputs "" "Booking 4821" "Partnered" 0) = 0
      /\ App.isFallbackRow Sample.otherRow = true
      /\ Enhanced.findBestMatch [Sample.otherRow]
           (Sample.enhancedInputs "" "Booking 4821" "Partnered" 0)
         = None
      /\ None <> Some Sample.otherRow).
Proof. repeat split; try (vm_compute; reflexivity); discriminate. Qed.

End Fallback.

(* ================================================================== *)
(** * The compliance category *)
(* ================================================================== *)

Section Category.

Open Scope Z_scope.

(** [app.js] derives the category from the two ranks and from nothing else:
    the third category of its source is never produced. *)
Lemma app_category_by_rank (now : jsstring) (inputs : App.Inputs)
  (gridRow : option GridRow) (columnLetter actual : jsstring) :
  App.DSS_Compliance
    (App.buildOutputJSON now inputs gridRow columnLetter actual)
  = if App.severityRank actual
       <? App.severityRank (App.expectedCellText gridRow columnLetter)
    then App.NonCompliant else App.Compliant.
Proof.
  cbn [App.buildOutputJSON App.DSS_Compliance].
  destruct (compareSeverity_cases
              (App.expectedCellText gridRow columnLetter) actual)
    as [[Hr ->] | [[Hr ->] | [Hr ->]]];
    match goal with
    | |- _ = (if ?a <? ?b then _ else _) =>
        destruct (Z.ltb_spec a b); try lia; reflexivity
    end.
Qed.

(** The enhanced file reads the expected text alone: an empty one is always
    a missing rule. *)
Lemma enhanced_category_rule_missing (now : jsstring)
  (inputs : Enhanced.Inputs) (gridRow : option GridRow)
  (columnLetter actual : jsstring) :
  Enhanced.expectedCellText gridRow columnLetter = [] ->
  Enhanced.DSS_Compliance
    (Enhanced.buildOutputJSON now inputs gridRow columnLetter actual)
  = Enhanced.RuleMissing.
Proof.
  intros H; cbn [Enhanced.buildOutputJSON Enhanced.DSS_Compliance].
  rewrite H; reflexivity.
Qed.





End Category.

(* ================================================================== *)
(** * Strings: prefixes, occurrences and trimming *)
(* ================================================================== *)

(** Settles [isWhite c = false] (on either side of an equation) for a code
    unit that the context confines to a range free of white space. *)
Ltac not_white :=
  unfold Str.isWhite, Str.isLineTerminator;
  repeat match goal with
  | |- context [(?a =? ?b)%N] =>
      destruct (N.eqb_spec a b); [exfalso; lia |]
  | |- context [(?a <=? ?b)%N] =>
      destruct (N.leb_spec a b); [| cbn [andb orb]]
  end; try reflexivity; exfalso; lia.

Section StringFacts.

Import Str.
Open Scope N_scope.

Lemma eqb_eq (a b : jsstring) : Str.eqb a b = true <-> a = b.
Proof.
  revert b; induction a as [| x a IH]; intros [| y b]; cbn;
    try (split; [discriminate | discriminate]); [tauto |].
  rewrite andb_true_iff, N.eqb_eq, IH.
  split; [intros [-> ->]; reflexivity | intros [= -> ->]; auto].
Qed.

Lemma startsWith_split (p s : jsstring) :
  startsWith p s = true -> s = p ++ skipn (List.length p) s.
Proof.
  revert s; induction p as [| x p IH]; intros s H; [reflexivity |].
  destruct s as [| y s]; [discriminate |].
  cbn in H; apply andb_true_iff in H; destruct H as [Hxy Hp].
  apply N.eqb_eq in Hxy; subst y.
  cbn; f_equal; apply IH; exact Hp.
Qed.

Lemma startsWith_app (p s : jsstring) : startsWith p (p ++ s) = true.
Proof.
  induction p as [| x p IH]; cbn; [reflexivity |].
  rewrite N.eqb_refl; exact IH.
Qed.

(** A longer prefix contains the shorter one. *)
Lemma startsWith_prefix (p q s : jsstring) :
  startsWith (p ++ q) s = true -> startsWith p s = true.
Proof.
  revert s; induction p as [| x p IH]; intros s H; [reflexivity |].
  destruct s as [| y s]; [discriminate |].
  cbn in *; apply andb_true_iff in H; destruct H as [-> H].
  cbn; apply IH; exact H.
Qed.

Lemma includes_prefix (p q s : jsstring) :
  includes (p ++ q) s = true -> includes p s = true.
Proof.
  induction s as [| y s IH]; cbn; intros H.
  - rewrite orb_false_r in *; apply startsWith_prefix with (q := q); exact H.
  - apply orb_true_iff in H; apply orb_true_iff.
    destruct H as [H | H];
      [left; apply startsWith_prefix with (q := q); exact H
      | right; apply IH; exact H].
Qed.

(** ** Case folding and white space *)

Lemma isWhite_lowerUnit (c : N) : isWhite (lowerUnit c) = isWhite c.
Proof.
  unfold lowerUnit.
  destruct (N.leb_spec 65 c) as [H1 | H1]; cbn [andb]; [| reflexivity].
  destruct (N.leb_spec c 90) as [H2 | H2]; [| reflexivity].
  not_white.
Qed.

Lemma toLowerCase_dropWhile (s : jsstring) :
  toLowerCase (dropWhile isWhite s) = dropWhile isWhite (toLowerCase s).
Proof.
  induction s as [| c s IH]; [reflexivity |].
  cbn; rewrite isWhite_lowerUnit.
  destruct (isWhite c); [exact IH | reflexivity].
Qed.

Lemma toLowerCase_trimEnd (s : jsstring) :
  toLowerCase (trimEnd s) = trimEnd (toLowerCase s).
Proof.
  unfold toLowerCase.
  induction s as [| c s IH]; [reflexivity |].
  cbn; rewrite <- IH, isWhite_lowerUnit.
  destruct (trimEnd s); cbn; [destruct (isWhite c) |]; reflexivity.
Qed.

Lemma toLowerCase_trim (s : jsstring) :
  toLowerCase (trim s) = trim (toLowerCase s).
Proof.
  unfold trim; rewrite toLowerCase_trimEnd, toLowerCase_dropWhile.
  reflexivity.
Qed.


(** ** Trimming does not touch an occurrence of a word *)

Lemma startsBlack_cons (p : jsstring) :
  startsBlack p = true ->
  exists x p', p = x :: p' /\ isWhite x = false.
Proof.
  destruct p as [| x p']; cbn; [discriminate |].
  intros H; exists x, p'; split; [reflexivity |].
  destruct (isWhite x); [discriminate | reflexivity].
Qed.

Lemma startsWith_white (p : jsstring) (c : N) (t : jsstring) :
  startsBlack p = true -> isWhite c = true -> startsWith p (c :: t) = false.
Proof.
  intros Hp Hc.
  destruct (startsBlack_cons p Hp) as (x & p' & -> & Hx).
  cbn; destruct (N.eqb_spec x c) as [-> | _]; [congruence | reflexivity].
Qed.

Lemma includes_dropWhile (p t : jsstring) :
  startsBlack p = true ->
  includes p (dropWhile isWhite t) = includes p t.
Proof.
  intros Hp; induction t as [| c t IH]; [reflexivity |].
  cbn [dropWhile]; destruct (isWhite c) eqn:Hc; [| reflexivity].
  rewrite IH; cbn [includes].
  rewrite (startsWith_white p c t Hp Hc); reflexivity.
Qed.

Lemma seq_dotstar_dropWhile (a b t : jsstring) :
  startsBlack a = true ->
  Re.seq_dotstar a b (dropWhile isWhite t) = Re.seq_dotstar a b t.
Proof.
  intros Ha; induction t as [| c t IH]; [reflexivity |].
  cbn [dropWhile]; destruct (isWhite c) eqn:Hc; [| reflexivity].
  rewrite IH; cbn [Re.seq_dotstar].
  rewrite (startsWith_white a c t Ha Hc); reflexivity.
Qed.

Lemma endsBlack_nonempty (p : jsstring) : endsBlack p = true -> p <> [].
Proof. destruct p; [discriminate | discriminate]. Qed.

Lemma startsWith_nil (p : jsstring) : p <> [] -> startsWith p [] = false.
Proof. destruct p; [congruence | reflexivity]. Qed.

Lemma trimEnd_app (x r : jsstring) :
  endsBlack x = true -> trimEnd (x ++ r) = x ++ trimEnd r.
Proof.
  induction x as [| c x IH]; [discriminate |].
  intros H; cbn [app trimEnd].
  destruct x as [| d x].
  - cbn in H; cbn [app].
    destruct (trimEnd r); [| reflexivity].
    destruct (isWhite c); [discriminate | reflexivity].
  - rewrite IH by exact H.
    reflexivity.
Qed.

Lemma trimEnd_black (p : jsstring) : endsBlack p = true -> trimEnd p = p.
Proof.
  intros H.
  rewrite <- (app_nil_r p) at 1.
  rewrite trimEnd_app by exact H.
  apply app_nil_r.
Qed.

Lemma startsWith_trimEnd (p t : jsstring) :
  endsBlack p = true -> startsWith p (trimEnd t) = startsWith p t.
Proof.
  revert p; induction t as [| c t IH]; intros p Hp; [reflexivity |].
  destruct p as [| x p]; [discriminate |].
  cbn [trimEnd].
  destruct p as [| y p].
  - cbn in Hp.
    destruct (trimEnd t) as [| r0 r].
    + destruct (isWhite c) eqn:Hc; cbn.
      * destruct (N.eqb_spec x c) as [-> | _];
          [rewrite Hc in Hp; discriminate | reflexivity].
      * reflexivity.
    + reflexivity.
  - assert (Hp' : endsBlack (y :: p) = true) by exact Hp.
    specialize (IH (y :: p) Hp').
    cbn [startsWith] in *.
    destruct (trimEnd t) as [| r0 r].
    + rewrite <- IH.
      destruct (isWhite c); cbn; rewrite ?andb_false_r; reflexivity.
    + cbn [startsWith]; rewrite <- IH; reflexivity.
Qed.

Lemma includes_nil (p : jsstring) : p <> [] -> includes p [] = false.
Proof. intros H; cbn; rewrite (startsWith_nil _ H); reflexivity. Qed.

Lemma includes_cons (p : jsstring) (c : N) (t : jsstring) :
  includes p (c :: t) = startsWith p (c :: t) || includes p t.
Proof. reflexivity. Qed.

Lemma includes_trimEnd (p t : jsstring) :
  endsBlack p = true -> includes p (trimEnd t) = includes p t.
Proof.
  intros Hp.
  pose proof (endsBlack_nonempty _ Hp) as Hne.
  induction t as [| c t IH]; [reflexivity |].
  pose proof (startsWith_trimEnd p (c :: t) Hp) as Hs.
  rewrite (includes_cons p c t), <- IH, <- Hs.
  cbn [trimEnd].
  destruct (trimEnd t) as [| r0 r].
  - rewrite (includes_nil _ Hne).
    destruct (isWhite c); [reflexivity |].
    rewrite includes_cons, (includes_nil _ Hne); reflexivity.
  - apply includes_cons.
Qed.

Lemma after_dotstar_nil (p : jsstring) :
  p <> [] -> Re.after_dotstar p [] = false.
Proof. intros H; cbn; rewrite (startsWith_nil _ H); reflexivity. Qed.

Lemma after_dotstar_cons (b : jsstring) (c : N) (t : jsstring) :
  Re.after_dotstar b (c :: t)
  = startsWith b (c :: t)
    || (negb (isLineTerminator c) && Re.after_dotstar b t).
Proof. reflexivity. Qed.

Lemma after_dotstar_trimEnd (b t : jsstring) :
  endsBlack b = true ->
  Re.after_dotstar b (trimEnd t) = Re.after_dotstar b t.
Proof.
  intros Hb.
  pose proof (endsBlack_nonempty _ Hb) as Hne.
  induction t as [| c t IH]; [reflexivity |].
  pose proof (startsWith_trimEnd b (c :: t) Hb) as Hs.
  rewrite (after_dotstar_cons b c t), <- IH, <- Hs.
  cbn [trimEnd].
  destruct (trimEnd t) as [| r0 r].
  - rewrite (after_dotstar_nil _ Hne), andb_false_r.
    destruct (isWhite c).
    + cbn; rewrite (startsWith_nil _ Hne); reflexivity.
    + rewrite after_dotstar_cons, (after_dotstar_nil _ Hne), andb_false_r.
      reflexivity.
  - apply after_dotstar_cons.
Qed.

Lemma seq_dotstar_nil (a b : jsstring) :
  a <> [] -> Re.seq_dotstar a b [] = false.
Proof. intros H; cbn; rewrite (startsWith_nil _ H); reflexivity. Qed.

(** The first alternative of [seq_dotstar], at the head of the text. *)
Lemma seq_head_trimEnd (a b t : jsstring) :
  endsBlack a = true -> endsBlack b = true ->
  startsWith a (trimEnd t)
  && Re.after_dotstar b (skipn (List.length a) (trimEnd t))
  = startsWith a t && Re.after_dotstar b (skipn (List.length a) t).
Proof.
  intros Ha Hb.
  rewrite (startsWith_trimEnd a t Ha).
  destruct (startsWith a t) eqn:Hs; [| reflexivity].
  cbn [andb].
  rewrite (startsWith_split _ _ Hs) at 1.
  rewrite (trimEnd_app _ _ Ha), skipn_app, skipn_all, Nat.sub_diag.
  cbn [skipn app].
  apply after_dotstar_trimEnd, Hb.
Qed.

Lemma seq_dotstar_cons (a b : jsstring) (c : N) (t : jsstring) :
  Re.seq_dotstar a b (c :: t)
  = (startsWith a (c :: t)
     && Re.after_dotstar b (skipn (List.length a) (c :: t)))
    || Re.seq_dotstar a b t.
Proof. reflexivity. Qed.

Lemma seq_dotstar_trimEnd (a b t : jsstring) :
  endsBlack a = true -> endsBlack b = true ->
  Re.seq_dotstar a b (trimEnd t) = Re.seq_dotstar a b t.
Proof.
  intros Ha Hb.
  pose proof (endsBlack_nonempty _ Ha) as Hne.
  induction t as [| c t IH]; [reflexivity |].
  pose proof (seq_head_trimEnd a b (c :: t) Ha Hb) as Hs.
  rewrite (seq_dotstar_cons a b c t), <- IH, <- Hs.
  cbn [trimEnd].
  destruct (trimEnd t) as [| r0 r].
  - rewrite (seq_dotstar_nil a b Hne).
    destruct (isWhite c).
    + cbn; rewrite (startsWith_nil _ Hne); reflexivity.
    + rewrite seq_dotstar_cons, (seq_dotstar_nil a b Hne); reflexivity.
  - apply seq_dotstar_cons.
Qed.

(** ** The patterns of the column selector see through [trim] *)

Lemma test_ci_trim (p s : jsstring) :
  startsBlack p = true -> endsBlack p = true ->
  Re.test_ci p (trim s) = Re.test_ci p s.
Proof.
  intros H1 H2; unfold Re.test_ci.
  rewrite toLowerCase_trim; unfold trim.
  rewrite (includes_trimEnd _ _ H2), (includes_dropWhile _ _ H1).
  reflexivity.
Qed.

Lemma test_dotstar_ci_trim (a b s : jsstring) :
  startsBlack a = true -> endsBlack a = true -> endsBlack b = true ->
  Re.test_dotstar_ci a b (trim s) = Re.test_dotstar_ci a b s.
Proof.
  intros H1 H2 H3; unfold Re.test_dotstar_ci.
  rewrite toLowerCase_trim; unfold trim.
  rewrite (seq_dotstar_trimEnd _ _ _ H2 H3), (seq_dotstar_dropWhile _ _ _ H1).
  reflexivity.
Qed.

Lemma exact_ci_trim (p s : jsstring) :
  startsBlack p = true -> endsBlack p = true ->
  Re.exact_ci p s = true -> Re.exact_ci p (trim s) = true.
Proof.
  intros H1 H2; unfold Re.exact_ci.
  rewrite !eqb_eq, toLowerCase_trim.
  intros <-; unfold trim.
  destruct (startsBlack_cons p H1) as (x & p' & -> & Hx).
  cbn [dropWhile]; rewrite Hx.
  symmetry; apply trimEnd_black, H2.
Qed.

(** A text that is a word up to case holds no other word. *)
Lemma exact_ci_test_ci (p q s : jsstring) :
  Re.exact_ci p s = true -> Re.test_ci q s = includes q p.
Proof.
  unfold Re.exact_ci, Re.test_ci; rewrite eqb_eq; intros <-; reflexivity.
Qed.

End StringFacts.

(* ================================================================== *)
(** * The rules of the column selector *)
(* ================================================================== *)

Section Rules.

Import Str Re.

Lemma trim_tiers :
  trim tierLow = tierLow /\ trim tierHigh = tierHigh
  /\ trim tierUnknown = tierUnknown.
Proof. repeat split; vm_compute; reflexivity. Qed.

Lemma test_any_ci_trim (ps : list jsstring) (s : jsstring) :
  forallb (fun p => startsBlack p && endsBlack p) ps = true ->
  test_any_ci ps (trim s) = test_any_ci ps s.
Proof.
  unfold test_any_ci.
  induction ps as [| p ps IH]; intros H; [reflexivity |].
  cbn in H |- *.
  apply andb_true_iff in H; destruct H as [Hp Hps].
  apply andb_true_iff in Hp; destruct Hp as [H1 H2].
  rewrite (test_ci_trim p s H1 H2), (IH Hps); reflexivity.
Qed.

(** Rule 1 fires on the trimmed type when the type meets its condition. *)
Lemma rule1_fires (type : jsstring) :
  Terms.rule1 type ->
  exact_ci (u "partnered") (trim type)
  || (test_ci (u "partnered") (trim type)
      && negb (test_ci (u "social") (trim type))) = true.
Proof.
  intros [H | [H1 H2]].
  - rewrite (exact_ci_trim (u "partnered") type); auto.
  - rewrite !test_ci_trim by reflexivity.
    rewrite H1, H2; apply orb_true_r.
Qed.

(** C6, as the code has it: on a type that is exactly "partnered" in any
    case, or holds "partnered" and not "social", both files return C for the
    low tier and D for the high tier; for the tier Unknown the enhanced file
    returns D and [app.js] returns C. *)
Theorem C6_partnered_columns :
  forall type : jsstring,
    Terms.rule1 type ->
    (App.chooseColumnLetter type tierLow = u "C"
     /\ App.chooseColumnLetter type tierHigh = u "D"
     /\ App.chooseColumnLetter type tierUnknown = u "C")
    /\ (Enhanced.chooseColumnLetter type tierLow = u "C"
        /\ Enhanced.chooseColumnLetter type tierHigh = u "D"
        /\ Enhanced.chooseColumnLetter type tierUnknown = u "D").
Proof.
  intros type H.
  pose proof (rule1_fires type H) as Hf.
  destruct trim_tiers as (Hl & Hh & Hu).
  unfold App.chooseColumnLetter, Enhanced.chooseColumnLetter.
  rewrite Hf, Hl, Hh, Hu.
  repeat split; reflexivity.
Qed.

Lemma C6_witness_partnered_tours :
  App.chooseColumnLetter (u "Partnered tours") tierUnknown = u "C"
  /\ Enhanced.chooseColumnLetter (u "Partnered tours") tierUnknown = u "D".
Proof.
  assert (H : Terms.rule1 (u "Partnered tours"))
    by (right; split; vm_compute; reflexivity).
  destruct (C6_partnered_columns (u "Partnered tours") H)
    as ((_ & _ & Ha) & (_ & _ & He)).
  split; [exact Ha | exact He].
Defined.

(** C6 as stated fails in [app.js]: the type "Partnered" with the tier
    Unknown gets C, not D. *)
Lemma C6_app_unknown_tier_is_low :
  Terms.rule1 (u "Partnered")
  /\ App.chooseColumnLetter (u "Partnered") tierUnknown = u "C"
  /\ App.chooseColumnLetter (u "Partnered") tierUnknown <> u "D".
Proof.
  split; [left; vm_compute; reflexivity |].
  split; [vm_compute; reflexivity | vm_compute; discriminate].
Qed.

(** A type that holds "non-partnered" or "nonpartnered" holds "non". *)
Lemma nonPartnered_holds_non (s : jsstring) :
  test_any_ci App.nonPartnered s = true -> test_ci (u "non") s = true.
Proof.
  unfold test_any_ci, App.nonPartnered, test_ci; cbn [existsb].
  rewrite orb_false_r, orb_true_iff.
  intros [H | H].
  - apply (includes_prefix (u "non") (u "-partnered")); exact H.
  - apply (includes_prefix (u "non") (u "partnered")); exact H.
Qed.

(** Rules 1 and 2 and the second pattern of rule 3 stay silent on a type
    that meets the condition of rule 4. *)
Lemma rule4_silences (type : jsstring) :
  Terms.rule4 type ->
  exact_ci (u "partnered") (trim type)
  || (test_ci (u "partnered") (trim type)
      && negb (test_ci (u "social") (trim type))) = false
  /\ existsb (fun p => exact_ci p (trim type)) App.nonPartnered
     || (test_any_ci App.nonPartnered (trim type)
         && negb (test_ci (u "social") (trim type))) = false
  /\ test_ci (u "social") (trim type) && test_ci (u "partnered") (trim type)
     && negb (test_ci (u "non") (trim type)) = false
  /\ test_ci (u "social") (trim type)
     && test_any_ci App.nonPartnered (trim type) = true.
Proof.
  intros [Hs Hn].
  assert (Hs' : test_ci (u "social") (trim type) = true)
    by (rewrite test_ci_trim by reflexivity; exact Hs).
  assert (Hn' : test_any_ci App.nonPartnered (trim type) = true)
    by (rewrite test_any_ci_trim by reflexivity; exact Hn).
  assert (Hx : forall p, includes (u "social") p = false ->
                         exact_ci p (trim type) = false).
  { intros p Hp.
    destruct (exact_ci p (trim type)) eqn:He; [| reflexivity].
    rewrite (exact_ci_test_ci p (u "social") (trim type) He) in Hs'.
    congruence. }
  rewrite Hs', Hn', (nonPartnered_holds_non _ Hn').
  cbn [negb andb existsb App.nonPartnered].
  rewrite !Hx by reflexivity.
  rewrite !andb_false_r.
  repeat split; reflexivity.
Qed.

(** C3, as the code has it: on a type that holds "social" and
    "non-partnered" or "nonpartnered", and in which no "partnered" follows a
    "social" on one line (the first pattern of rule 3 does not match), rule 4
    applies: both files return I for the low tier and J for the high tier;
    for the tier Unknown the enhanced file returns J and [app.js] returns I.
    The second pattern of rule 3 does not fire on such a type, because the
    type holds "non". *)
Theorem C3_social_non_partnered_columns :
  forall type : jsstring,
    Terms.rule4 type ->
    test_dotstar_ci (u "social") (u "partnered") type = false ->
    (App.chooseColumnLetter type tierLow = u "I"
     /\ App.chooseColumnLetter type tierHigh = u "J"
     /\ App.chooseColumnLetter type tierUnknown = u "I")
    /\ (Enhanced.chooseColumnLetter type tierLow = u "I"
        /\ Enhanced.chooseColumnLetter type tierHigh = u "J"
        /\ Enhanced.chooseColumnLetter type tierUnknown = u "J")
    /\ test_ci (u "social") type && test_ci (u "partnered") type
       && negb (test_ci (u "non") type) = false.
Proof.
  intros type H4 H3.
  destruct (rule4_silences type H4) as (R1 & R2 & R3 & R4).
  destruct trim_tiers as (Hl & Hh & Hu).
  assert (H3' : test_dotstar_ci (u "social") (u "partnered") (trim type)
                = false)
    by (rewrite test_dotstar_ci_trim by reflexivity; exact H3).
  split; [| split].
  - unfold App.chooseColumnLetter.
    rewrite R1, R2, H3', R3, R4, Hl, Hh, Hu, !orb_true_r.
    repeat split; reflexivity.
  - unfold Enhanced.chooseColumnLetter.
    change Enhanced.nonPartnered with App.nonPartnered.
    rewrite R1, R2, H3', R3, R4, Hl, Hh, Hu, !orb_true_r.
    repeat split; reflexivity.
  - destruct H4 as [_ Hn].
    rewrite (nonPartnered_holds_non _ Hn); apply andb_false_r.
Qed.

Lemma C3_witness_non_partnered_social :
  App.chooseColumnLetter (u "Non-Partnered (Social)") tierLow = u "I"
  /\ Enhanced.chooseColumnLetter (u "Non-Partnered (Social)") tierHigh
     = u "J".
Proof.
  assert (H4 : Terms.rule4 (u "Non-Partnered (Social)"))
    by (split; vm_compute; reflexivity).
  assert (H3 : test_dotstar_ci (u "social") (u "partnered")
                 (u "Non-Partnered (Social)") = false)
    by (vm_compute; reflexivity).
  destruct (C3_social_non_partnered_columns _ H4 H3)
    as ((Ha & _) & (_ & He & _) & _).
  split; [exact Ha | exact He].
Defined.

(** C3 as stated fails.  The label of columns I and J itself, "Social Media
    Non-Partnered", holds "social" and "non-partnered", yet the first pattern
    of rule 3 matches it ("social", then anything, then "partnered") and both
    files return G.  And in [app.js] a type on which rule 4 does apply gets I,
    not J, for the tier Unknown. *)
Lemma C3_social_media_non_partnered_gets_G :
  (Terms.rule4 (u "Social Media Non-Partnered")
   /\ App.chooseColumnLetter (u "Social Media Non-Partnered") tierLow
      = u "G"
   /\ Enhanced.chooseColumnLetter (u "Social Media Non-Partnered") tierLow
      = u "G"
   /\ u "G" <> u "I")
  /\ (Terms.rule4 (u "Non-Partnered (Social)")
      /\ App.chooseColumnLetter (u "Non-Partnered (Social)") tierUnknown
         = u "I"
      /\ u "I" <> u "J").
Proof.
  split; (split; [split; vm_compute; reflexivity |]);
    repeat split; try (vm_compute; reflexivity); vm_compute; discriminate.
Qed.

End Rules.

(* ================================================================== *)
(** * What the record depends on *)
(* ================================================================== *)

Section Determinism.

Import Str.

(** C8, as the code has it: for one input and one grid, two runs of the
    audit build records that agree in every field but the date field
    [Week]; that field is the first ten characters of the ISO rendering of
    the clock at the time of the run, so two runs on the same day build the
    same record. *)
Theorem C8_same_record_up_to_the_date :
  forall (now1 now2 : jsstring) (grid : list GridRow)
         (ia : App.Inputs) (ie : Enhanced.Inputs),
    (App.runAudit now2 grid ia
     = Terms.appWithWeek (slice0 10 now2) (App.runAudit now1 grid ia)
     /\ App.Week (App.runAudit now1 grid ia) = slice0 10 now1
     /\ (slice0 10 now1 = slice0 10 now2 ->
         App.runAudit now1 grid ia = App.runAudit now2 grid ia))
    /\ (Enhanced.runAudit now2 grid ie
        = Terms.enhancedWithWeek (slice0 10 now2)
            (Enhanced.runAudit now1 grid ie)
        /\ Enhanced.Week (Enhanced.runAudit now1 grid ie) = slice0 10 now1
        /\ (slice0 10 now1 = slice0 10 now2 ->
            Enhanced.runAudit now1 grid ie = Enhanced.runAudit now2 grid ie)).
Proof.
  intros; repeat split; try reflexivity; intros H.
  - unfold App.runAudit, App.buildOutputJSON; rewrite H; reflexivity.
  - unfold Enhanced.runAudit, Enhanced.buildOutputJSON; rewrite H.
    reflexivity.
Qed.

Lemma C8_witness_same_day :
  App.runAudit Sample.monday [Sample.cancelRow]
    (Sample.appInputs "Please cancel my booking" "Booking 4821" "Partnered")
  = App.runAudit Sample.mondayEvening [Sample.cancelRow]
      (Sample.appInputs "Please cancel my booking" "Booking 4821"
         "Partnered")
  /\ Enhanced.runAudit Sample.monday [Sample.cancelRow]
       (Sample.enhancedInputs "Please cancel my booking" "Booking 4821"
          "Partnered" 1)
     = Enhanced.runAudit Sample.mondayEvening [Sample.cancelRow]
         (Sample.enhancedInputs "Please cancel my booking" "Booking 4821"
            "Partnered" 1).
Proof.
  destruct (C8_same_record_up_to_the_date Sample.monday Sample.mondayEvening
              [Sample.cancelRow]
              (Sample.appInputs "Please cancel my booking" "Booking 4821"
                 "Partnered")
              (Sample.enhancedInputs "Please cancel my booking"
                 "Booking 4821" "Partnered" 1))
    as ((_ & _ & Happ) & (_ & _ & Henh)).
  split; [apply Happ | apply Henh]; reflexivity.
Defined.

(** C8 as stated fails: the same input and the same grid audited on two
    days give two different records, in either file. *)
Lemma C8_two_days_two_records :
  App.runAudit Sample.monday [Sample.cancelRow]
    (Sample.appInputs "Please cancel my booking" "Booking 4821" "Partnered")
  <> App.runAudit Sample.tuesday [Sample.cancelRow]
       (Sample.appInputs "Please cancel my booking" "Booking 4821"
          "Partnered")
  /\ Enhanced.runAudit Sample.monday [Sample.cancelRow]
       (Sample.enhancedInputs "Please cancel my booking" "Booking 4821"
          "Partnered" 1)
     <> Enhanced.runAudit Sample.tuesday [Sample.cancelRow]
          (Sample.enhancedInputs "Please cancel my booking" "Booking 4821"
             "Partnered" 1).
Proof.
  split; intros H.
  - apply (f_equal App.Week) in H; vm_compute in H; discriminate.
  - apply (f_equal Enhanced.Week) in H; vm_compute in H; discriminate.
Qed.

End Determinism.

(* ================================================================== *)
(** * Reading an amount *)
(* ================================================================== *)

Section Numerals.

Import Str Amount Terms.
Open Scope N_scope.

Lemma takeWhile_dropWhile (f : N -> bool) (s : jsstring) :
  s = takeWhile f s ++ dropWhile f s.
Proof.
  induction s as [| c s IH]; [reflexivity |].
  cbn; destruct (f c); [cbn; f_equal; exact IH | reflexivity].
Qed.

Lemma takeWhile_all (f : N -> bool) (s : jsstring) :
  forallb f (takeWhile f s) = true.
Proof.
  induction s as [| c s IH]; [reflexivity |].
  cbn; destruct (f c) eqn:Hc; [cbn; rewrite Hc; exact IH | reflexivity].
Qed.

Lemma skipn_takeWhile (f : N -> bool) (s : jsstring) :
  skipn (List.length (takeWhile f s)) s = dropWhile f s.
Proof.
  induction s as [| c s IH]; [reflexivity |].
  cbn; destruct (f c); [cbn; exact IH | reflexivity].
Qed.

Lemma takeWhile_app (f : N -> bool) (ds post : jsstring) :
  forallb f ds = true -> stopsAt f post = true ->
  takeWhile f (ds ++ post) = ds.
Proof.
  intros Hds Hpost.
  induction ds as [| c ds IH]; cbn in *.
  - destruct post as [| x post]; [reflexivity |].
    cbn in Hpost |- *; destruct (f x); [discriminate | reflexivity].
  - apply andb_true_iff in Hds; destruct Hds as [Hc Hds].
    rewrite Hc, (IH Hds); reflexivity.
Qed.

Lemma skipn_length_app (a b : jsstring) : skipn (List.length a) (a ++ b) = b.
Proof. induction a as [| x a IH]; [reflexivity | exact IH]. Qed.


(** ** Decimal numerals *)

Lemma isDigit_isNumComma (c : N) : isDigit c = true -> isNumComma c = true.
Proof. unfold isNumComma; intros ->; reflexivity. Qed.

Lemma isDigit_not_white (c : N) : isDigit c = true -> isWhite c = false.
Proof.
  unfold isDigit; intros H.
  apply andb_true_iff in H; destruct H as [H1 H2].
  apply N.leb_le in H1, H2.
  not_white.
Qed.

Lemma isDigit_not_comma (c : N) : isDigit c = true -> (c =? 44) = false.
Proof.
  unfold isDigit; intros H.
  apply andb_true_iff in H; destruct H as [H1 H2].
  apply N.leb_le in H1, H2; apply N.eqb_neq; lia.
Qed.

Lemma unitsOf_digits (d : Decimal.uint) :
  forallb isDigit (unitsOf d) = true.
Proof. induction d; cbn; auto. Qed.

Lemma unitsOf_nonempty (d : Decimal.uint) :
  d <> Decimal.Nil -> unitsOf d <> [].
Proof. destruct d; cbn; congruence. Qed.

Lemma showN_digits (n : N) : forallb isDigit (showN n) = true.
Proof. apply unitsOf_digits. Qed.

Lemma showN_nonempty (n : N) : showN n <> [].
Proof.
  unfold showN; apply unitsOf_nonempty.
  destruct n as [| p]; [discriminate |].
  apply DecimalPos.Unsigned.to_uint_nonnil.
Qed.

Lemma decimal_fold_pos (d : Decimal.uint) (acc : positive) :
  fold_left (fun a c => (10 * a + digitValue c)%Z) (unitsOf d) (Z.pos acc)
  = Z.pos (Pos.of_uint_acc d acc).
Proof.
  revert acc; induction d; intros acc; cbn [unitsOf fold_left Pos.of_uint_acc];
    [reflexivity | ..];
    rewrite <- IHd; f_equal; unfold digitValue; lia.
Qed.

Lemma decimalValue_unitsOf (d : Decimal.uint) :
  decimalValue (unitsOf d) = Z.of_N (N.of_uint d).
Proof.
  unfold decimalValue, N.of_uint.
  induction d; cbn [unitsOf fold_left Pos.of_uint]; [reflexivity | exact IHd | ..];
    match goal with
    | |- fold_left _ _ ?a = _ =>
        let v := eval vm_compute in a in change a with v
    end;
    rewrite decimal_fold_pos; reflexivity.
Qed.

(** Reading back the numeral of a number gives the number. *)
Lemma decimalValue_showN (n : N) : decimalValue (showN n) = Z.of_N n.
Proof.
  unfold showN; rewrite decimalValue_unitsOf, DecimalN.Unsigned.of_to.
  reflexivity.
Qed.


(** ** The numeral pattern on a written amount *)

Lemma cents_digits (c : N) :
  c < 100 ->
  isDigit (48 + c / 10) = true /\ isDigit (48 + c mod 10) = true
  /\ (10 * digitValue (48 + c / 10) + digitValue (48 + c mod 10))%Z
     = Z.of_N c.
Proof.
  intros Hc.
  pose proof (N.div_mod c 10 ltac:(discriminate)) as Hdm.
  pose proof (N.mod_lt c 10 ltac:(discriminate)) as Hm.
  unfold isDigit, digitValue.
  generalize dependent (c mod 10); generalize dependent (c / 10).
  intros q r Hdm Hr.
  repeat split.
  - apply andb_true_iff; split; apply N.leb_le; lia.
  - apply andb_true_iff; split; apply N.leb_le; lia.
  - lia.
Qed.

Lemma fractionAt_stops (post : jsstring) :
  stopsAt (fun c => isNumComma c
                    || ((c =? 46)
                        && match post with
                           | _ :: d :: _ => isDigit d
                           | _ => false
                           end)) post = true ->
  fractionAt post = [].
Proof.
  destruct post as [| c [| d rest]]; cbn; try reflexivity.
  destruct (c =? 46), (isDigit d); cbn; rewrite ?orb_true_r;
    try discriminate; reflexivity.
Qed.

Lemma runsOn_stops (d : N) (post : jsstring) :
  runsOn (Dollars d) post = false ->
  stopsAt isNumComma post = true /\ fractionAt post = [].
Proof.
  destruct post as [| c rest]; cbn; [auto |].
  intros H; apply orb_false_iff in H; destruct H as [H1 H2].
  rewrite H1; split; [reflexivity |].
  destruct rest as [| x rest]; [reflexivity |].
  destruct (c =? 46); [cbn in H2 |- *; rewrite H2 |]; reflexivity.
Qed.

Lemma forallb_digits_numComma (ds : jsstring) :
  forallb isDigit ds = true -> forallb isNumComma ds = true.
Proof.
  induction ds as [| c ds IH]; [reflexivity |]; cbn.
  intros H; apply andb_true_iff in H; destruct H as [Hc Hds].
  rewrite (isDigit_isNumComma c Hc), (IH Hds); reflexivity.
Qed.

Lemma numeralAt_run (s run : jsstring) :
  takeWhile isNumComma s = run -> run <> [] ->
  numeralAt s
  = Some (run ++ fractionAt (skipn (List.length run) s),
          skipn (List.length (fractionAt (skipn (List.length run) s)))
            (skipn (List.length run) s)).
Proof.
  intros Hrun Hne; unfold numeralAt; rewrite Hrun.
  destruct run; [congruence | reflexivity].
Qed.

(** ** The dollar pattern *)

Lemma numeralAt_none (s : jsstring) :
  numeralAt s = None <-> stopsAt isNumComma s = true.
Proof.
  unfold numeralAt; destruct s as [| c s]; cbn; [tauto |].
  destruct (isNumComma c); cbn; split; congruence.
Qed.

(** A failed start stays failed when a dollar sign follows. *)
Lemma numeralAt_before_dollar (p t : jsstring) :
  numeralAt (dropWhile isWhite p) = None ->
  numeralAt (dropWhile isWhite (p ++ 36 :: t)) = None.
Proof.
  induction p as [| x p IH]; intros H; [reflexivity |].
  cbn in H |- *; destruct (isWhite x); [exact (IH H) |].
  apply numeralAt_none; apply numeralAt_none in H; exact H.
Qed.

(** Text that holds no dollar amount does not hide the next one. *)
Lemma matchDollar_skip (pre t : jsstring) :
  matchDollar pre = None ->
  matchDollar (pre ++ 36 :: t) = matchDollar (36 :: t).
Proof.
  induction pre as [| c pre IH]; intros H; [reflexivity |].
  cbn [app matchDollar] in H |- *.
  destruct (c =? 36); [| exact (IH H)].
  destruct (numeralAt (dropWhile isWhite pre)) as [[cap rest] |] eqn:Hn;
    [discriminate |].
  rewrite (numeralAt_before_dollar pre t Hn); exact (IH H).
Qed.

(** ** [parseFloat] on a written amount *)

Lemma removeCommas_digits (ds : jsstring) :
  forallb isDigit ds = true -> removeCommas ds = ds.
Proof.
  unfold removeCommas.
  induction ds as [| c ds IH]; [reflexivity |]; cbn.
  intros H; apply andb_true_iff in H; destruct H as [Hc Hds].
  rewrite (isDigit_not_comma c Hc), (IH Hds); reflexivity.
Qed.

Lemma removeCommas_app (a b : jsstring) :
  removeCommas (a ++ b) = removeCommas a ++ removeCommas b.
Proof. apply filter_app. Qed.

Lemma parseFloat_parts (ip rest : jsstring) :
  forallb isDigit ip = true -> stopsAt isDigit rest = true ->
  parseFloat (ip ++ rest)
  = match
      ip,
      match rest with
      | c :: ds => if c =? 46 then takeWhile isDigit ds else []
      | [] => []
      end
    with
    | [], [] => None
    | _, [] => Some (100 * decimalValue ip)%Z
    | _, [d1] => Some (100 * decimalValue ip + 10 * digitValue d1)%Z
    | _, d1 :: d2 :: _ =>
        Some (100 * decimalValue ip + 10 * digitValue d1 + digitValue d2)%Z
    end.
Proof.
  intros Hip Hrest; unfold parseFloat.
  rewrite (takeWhile_app isDigit ip rest Hip Hrest), skipn_length_app.
  reflexivity.
Qed.

Lemma tenth_digit (t : N) :
  t < 10 ->
  isDigit (48 + t) = true /\ digitValue (48 + t) = Z.of_N t.
Proof.
  intros Ht; unfold isDigit, digitValue; split; [| lia].
  apply andb_true_iff; split; apply N.leb_le; lia.
Qed.

Lemma parseFloat_amount (a : amount) :
  wellFormed a ->
  parseFloat (showN (wholeDollars a) ++ showDecimals a)
  = Some (hundredths a).
Proof.
  intros Hwf.
  destruct a as [d | d t | d c];
    cbn [showDecimals wholeDollars hundredths].
  - rewrite (parseFloat_parts (showN d) [] (showN_digits d) eq_refl).
    rewrite decimalValue_showN.
    destruct (showN d) eqn:Hs; [apply showN_nonempty in Hs; contradiction |].
    reflexivity.
  - cbn in Hwf.
    destruct (tenth_digit t Hwf) as [Hx Hv].
    rewrite (parseFloat_parts (showN d) [46; 48 + t]
               (showN_digits d) eq_refl).
    rewrite decimalValue_showN.
    cbn [N.eqb Pos.eqb takeWhile]; rewrite Hx.
    destruct (showN d) eqn:Hs; [apply showN_nonempty in Hs; contradiction |].
    f_equal; lia.
  - cbn in Hwf.
    destruct (cents_digits c Hwf) as (Hx & Hy & Hv).
    rewrite (parseFloat_parts (showN d) [46; 48 + c / 10; 48 + c mod 10]
               (showN_digits d) eq_refl).
    rewrite decimalValue_showN.
    cbn [N.eqb Pos.eqb takeWhile]; rewrite Hx, Hy.
    destruct (showN d) eqn:Hs; [apply showN_nonempty in Hs; contradiction |].
    f_equal; lia.
Qed.

End Numerals.

(* ================================================================== *)
(** * The value tier *)
(* ================================================================== *)

Section ValueTier.

Import Str Amount Terms.
Open Scope N_scope.

(** ** A match of either pattern is an occurrence of its surface form *)

Lemma dollarForm_cons (c : N) (text : jsstring) :
  dollarForm text -> dollarForm (c :: text).
Proof.
  intros (pre & ws & x & post & -> & Hws & Hx).
  exists (c :: pre), ws, x, post; auto.
Qed.

Lemma matchDollar_form (text cap : jsstring) :
  matchDollar text = Some cap -> dollarForm text.
Proof.
  induction text as [| c rest IH]; [discriminate |].
  cbn [matchDollar].
  destruct (N.eqb_spec c 36) as [-> | _];
    [| intros H; apply dollarForm_cons, IH, H].
  destruct (numeralAt (dropWhile isWhite rest)) as [[cap' r] |] eqn:Hn;
    [| intros H; apply dollarForm_cons, IH, H].
  intros _.
  assert (Hstop : stopsAt isNumComma (dropWhile isWhite rest) <> true)
    by (rewrite <- numeralAt_none, Hn; discriminate).
  destruct (dropWhile isWhite rest) as [| x post] eqn:Hd;
    [cbn in Hstop; congruence |].
  exists [], (takeWhile isWhite rest), x, post.
  split; [| split].
  - cbn; rewrite <- Hd, <- takeWhile_dropWhile; reflexivity.
  - apply takeWhile_all.
  - cbn in Hstop; destruct (isNumComma x); [reflexivity |].
    elim Hstop; reflexivity.
Qed.

Lemma fractionAt_split (s : jsstring) :
  isFraction (fractionAt s)
  /\ s = fractionAt s ++ skipn (List.length (fractionAt s)) s.
Proof.
  unfold fractionAt, isFraction.
  destruct s as [| c [| d1 rest]]; [auto | auto |].
  destruct (N.eqb_spec c 46) as [-> | _]; [| auto].
  destruct (isDigit d1) eqn:H1; cbn [andb]; [| auto].
  destruct rest as [| d2 rest]; [split; [right; left; eauto | reflexivity] |].
  destruct (isDigit d2) eqn:H2.
  - split; [right; right; exists d1, d2; auto | reflexivity].
  - split; [right; left; eauto | reflexivity].
Qed.

Lemma startsWith_lower (p r : jsstring) :
  startsWith p (toLowerCase r) = true ->
  exists code post,
    r = code ++ post /\ toLowerCase code = p.
Proof.
  revert r; induction p as [| x p IH]; intros r H.
  - exists [], r; auto.
  - destruct r as [| y r]; [discriminate |].
    cbn in H; apply andb_true_iff in H; destruct H as [Hxy H].
    apply N.eqb_eq in Hxy.
    destruct (IH r H) as (code & post & -> & Hc).
    exists (y :: code), post; split; [reflexivity |].
    cbn; unfold toLowerCase in Hc; rewrite Hc, Hxy; reflexivity.
Qed.

Lemma usdAt_form (s cap : jsstring) : usdAt s = Some cap -> codeForm s.
Proof.
  unfold usdAt.
  destruct (numeralAt s) as [[cap' rest] |] eqn:Hn; [| discriminate].
  destruct (startsWith (u "usd") (toLowerCase (dropWhile isWhite rest)))
    eqn:Hs; [| discriminate].
  intros _.
  assert (Hrun : takeWhile isNumComma s <> []).
  { intros Hnil; unfold numeralAt in Hn; rewrite Hnil in Hn; discriminate. }
  rewrite (numeralAt_run s _ eq_refl Hrun) in Hn.
  injection Hn as _ Hrest.
  rewrite skipn_takeWhile in Hrest.
  destruct (fractionAt_split (dropWhile isNumComma s)) as [Hfrac Hsplit].
  rewrite Hrest in Hsplit.
  destruct (startsWith_lower _ _ Hs) as (code & post & Hcode & Hlow).
  destruct (exists_last Hrun) as (run' & c & Hlast).
  pose proof (takeWhile_all isNumComma s) as Hall.
  rewrite Hlast, forallb_app in Hall.
  apply andb_true_iff in Hall; destruct Hall as [_ Hc].
  cbn in Hc; rewrite andb_true_r in Hc.
  exists run', c, (fractionAt (dropWhile isNumComma s)),
    (takeWhile isWhite rest), code, post.
  split; [| auto using takeWhile_all].
  rewrite <- Hcode, <- takeWhile_dropWhile, <- Hsplit.
  rewrite (takeWhile_dropWhile isNumComma s) at 1.
  rewrite Hlast, <- app_assoc; reflexivity.
Qed.

Lemma codeForm_cons (c : N) (text : jsstring) :
  codeForm text -> codeForm (c :: text).
Proof.
  intros (pre & x & frac & ws & code & post & -> & H).
  exists (c :: pre), x, frac, ws, code, post; auto.
Qed.

Lemma matchUsdCode_form (text cap : jsstring) :
  matchUsdCode text = Some cap -> codeForm text.
Proof.
  induction text as [| c rest IH]; [discriminate |].
  cbn [matchUsdCode].
  destruct (usdAt (c :: rest)) as [cap' |] eqn:Hu.
  - intros _; exact (usdAt_form _ _ Hu).
  - intros H; apply codeForm_cons, IH, H.
Qed.

(** ** Signs of the two forms that a computation can look for *)

Lemma dollarForm_sign (text : jsstring) : dollarForm text -> In 36 text.
Proof.
  intros (pre & ws & c & post & -> & _).
  apply in_or_app; right; left; reflexivity.
Qed.

Lemma includes_app_mid (p a b : jsstring) : includes p (a ++ p ++ b) = true.
Proof.
  induction a as [| x a IH].
  - cbn [app]; destruct (p ++ b) eqn:E; cbn; rewrite <- ?E;
      rewrite startsWith_app; reflexivity.
  - cbn [app includes]; rewrite IH; apply orb_true_r.
Qed.

Lemma codeForm_sign (text : jsstring) :
  codeForm text -> Re.test_ci (u "usd") text = true.
Proof.
  intros (pre & c & frac & ws & code & post & -> & _ & _ & _ & Hcode).
  unfold Re.test_ci, toLowerCase in *.
  replace (pre ++ c :: frac ++ ws ++ code ++ post)
    with ((pre ++ c :: frac ++ ws) ++ code ++ post)
    by (rewrite <- !app_assoc; cbn; rewrite <- !app_assoc; reflexivity).
  rewrite !map_app, Hcode.
  apply includes_app_mid.
Qed.

(** ** The comparison with the threshold *)

Lemma tierOf_threshold (h : Z) :
  ((h <= 12500)%Z -> tierOf (Some h) = tierLow)
  /\ ((12500 < h)%Z -> tierOf (Some h) = tierHigh).
Proof.
  unfold tierOf; destruct (Z.leb_spec h 12500); split; intros; try lia;
    reflexivity.
Qed.

End ValueTier.

(* ================================================================== *)
(** * Rule 2 and the end-to-end scenario *)
(* ================================================================== *)

Section Scenario.

Import Str Re.

Lemma includes_suffix (p q s : jsstring) :
  includes (p ++ q) s = true -> includes q s = true.
Proof.
  induction s as [| c s IH].
  - destruct p, q; cbn; intros H; try discriminate; reflexivity.
  - intros H; rewrite includes_cons in H.
    apply orb_true_iff in H; destruct H as [H | H].
    + apply startsWith_split in H; rewrite H, <- app_assoc.
      apply includes_app_mid.
    + rewrite includes_cons, (IH H); apply orb_true_r.
Qed.

(** Rule 2 never fires: a type that is or holds "non-partnered" holds
    "partnered", so without "social" rule 1 has taken it already. *)
Lemma rule2_shadowed (type : jsstring) :
  exact_ci (u "partnered") type
  || (test_ci (u "partnered") type && negb (test_ci (u "social") type))
  = false ->
  existsb (fun p => exact_ci p type) App.nonPartnered
  || (test_any_ci App.nonPartnered type && negb (test_ci (u "social") type))
  = false.
Proof.
  intros H1.
  apply orb_false_iff in H1; destruct H1 as [_ H1].
  assert (Hsub : forall p q, test_ci (p ++ q) type = true ->
                             test_ci q type = true)
    by (intros p q; apply includes_suffix).
  assert (Hany : test_any_ci App.nonPartnered type = true ->
                 test_ci (u "partnered") type = true).
  { unfold test_any_ci, App.nonPartnered; cbn [existsb].
    rewrite orb_false_r, orb_true_iff; intros [H | H].
    - exact (Hsub (u "non-") (u "partnered") H).
    - exact (Hsub (u "non") (u "partnered") H). }
  assert (Hex : forall p, In p App.nonPartnered ->
                          exact_ci p type = true ->
                          test_ci (u "partnered") type = true
                          /\ test_ci (u "social") type = false).
  { intros p Hp He.
    rewrite !(exact_ci_test_ci p _ type He).
    destruct Hp as [<- | [<- | []]]; split; vm_compute; reflexivity. }
  destruct (test_ci (u "social") type) eqn:Hs.
  - rewrite andb_false_r, orb_false_r.
    cbn [existsb App.nonPartnered].
    destruct (exact_ci (u "non-partnered") type) eqn:E1;
      [destruct (Hex _ (or_introl eq_refl) E1); congruence |].
    destruct (exact_ci (u "nonpartnered") type) eqn:E2;
      [destruct (Hex _ (or_intror (or_introl eq_refl)) E2); congruence |].
    reflexivity.
  - cbn [negb] in H1; rewrite andb_true_r in H1.
    destruct (test_any_ci App.nonPartnered type) eqn:Ha;
      [rewrite (Hany eq_refl) in H1; discriminate |].
    cbn [existsb App.nonPartnered andb].
    destruct (exact_ci (u "non-partnered") type) eqn:E1;
      [destruct (Hex _ (or_introl eq_refl) E1); congruence |].
    destruct (exact_ci (u "nonpartnered") type) eqn:E2;
      [destruct (Hex _ (or_intror (or_introl eq_refl)) E2); congruence |].
    reflexivity.
Qed.

(** The scenario of the specification, run through [app.js]: the tier is the
    low one and the row is found; the type "Non-Partnered" holds "partnered"
    and not "social", so rule 1 takes it and the column is C, where the row
    has no entry.  The observed sentence starts at the word "refund". *)
Example scenario_partial_refund :
  let o :=
    App.runAudit Sample.monday [Sample.cancelRow; Sample.refundRow]
      (Sample.appInputs "We issued a partial refund of $50 to the customer."
         "Booking 4821 refund request" "Non-Partnered") in
  App.Booking_Value_Tier o = tierLow
  /\ App.L1_Reason o = u "Refund requested"
  /\ App.DSS_Grid_Column_Letter o = u "C"
  /\ App.Ideal_Refund_Action o = []
  /\ App.Refund_Verdict_Detail o = u "refund of $50 to the customer."
  /\ App.Compliance_Reason o = App.Match
  /\ App.DSS_Compliance o = App.Compliant
  /\ App.Week o = u "2024-03-04".
Proof. repeat split; vm_compute; reflexivity. Qed.

End Scenario.

(* ================================================================== *)
(** * More on the scan: the row returned is a best row of the grid *)
(* ================================================================== *)

Section BestRow.

Import Score.
Open Scope Z_scope.

Variable text : jsstring.

(** What the loop has established after any number of rows: the best score
    has not gone down, it bounds every row seen, and the state is the old
    one or a row seen together with its score, which beats the old best. *)
Lemma fold_best (rows : list GridRow) (st : Best) :
  let st' := fold_left (step text) rows st in
  snd st <= snd st'
  /\ (forall x, In x rows -> rowScore text x <= snd st')
  /\ (st' = st
      \/ exists r, In r rows /\ st' = (Some r, rowScore text r)
                   /\ snd st < rowScore text r).
Proof.
  revert st; induction rows as [| row rows IH]; intros st; cbn.
  - split; [lia |]; split; [intros x [] | left; reflexivity].
  - destruct (IH (step text st row)) as (Hle & Hall & Hst).
    assert (Hstep : snd st <= snd (step text st row)
                    /\ rowScore text row <= snd (step text st row)
                    /\ (step text st row = st
                        \/ (step text st row = (Some row, rowScore text row)
                            /\ snd st < rowScore text row))).
    { unfold step.
      destruct (Z.gtb_spec (rowScore text row) (snd st)); cbn.
      - split; [lia |]; split; [lia |].
        right; split; [reflexivity | lia].
      - split; [lia |]; split; [lia | left; reflexivity]. }
    destruct Hstep as (H1 & H2 & H3).
    split; [lia |]; split.
    + intros x [<- | Hx]; [lia | apply Hall, Hx].
    + destruct Hst as [Hst | (r & Hr & Hst & Hlt)].
      * rewrite Hst.
        destruct H3 as [H3 | [H3 Hlt]]; [left; exact H3 |].
        right; exists row; split; [left; reflexivity | split; [exact H3 | exact Hlt]].
      * right; exists r; split; [right; exact Hr |].
        split; [exact Hst | lia].
Qed.

(** The scan ends on no row, every score being zero or less, or on a row of
    the grid with a positive score that no row of the grid exceeds. *)
Lemma scan_result (grid : list GridRow) :
  (fst (scan text grid) = None
   /\ forall x, In x grid -> rowScore text x <= 0)
  \/ exists r,
       fst (scan text grid) = Some r /\ In r grid
       /\ 0 < rowScore text r
       /\ forall x, In x grid -> rowScore text x <= rowScore text r.
Proof.
  unfold scan.
  destruct (fold_best grid (None, 0)) as (_ & Hall & [Hst | (r & Hr & Hst & Hlt)]).
  - left; rewrite Hst in *; cbn in *; auto.
  - right; exists r; rewrite Hst in *; cbn in *; auto.
Qed.

(** A keyword that occurs in the text is worth ten points at least. *)
Lemma keywordScore_hit (row : GridRow) (ks : list jsstring) (k : jsstring) :
  keywords row = Some ks -> In k ks ->
  Str.includes (Str.toLowerCase k) text = true ->
  10 <= keywordScore text row.
Proof.
  intros Hks Hin Hhit; unfold keywordScore; rewrite Hks.
  assert (Hmono : forall l acc,
            acc <= fold_left
                     (fun score k' =>
                        if Str.includes (Str.toLowerCase k') text
                        then score + 10 else score) l acc).
  { induction l as [| a l IH]; intros acc; cbn; [lia |].
    specialize (IH (if Str.includes (Str.toLowerCase a) text
                    then acc + 10 else acc)).
    destruct (Str.includes (Str.toLowerCase a) text); lia. }
  assert (H : forall l acc, In k l ->
            acc + 10 <= fold_left
                          (fun score k' =>
                             if Str.includes (Str.toLowerCase k') text
                             then score + 10 else score) l acc).
  { induction l as [| a l IH]; intros acc Hl; [destruct Hl |].
    destruct Hl as [-> | Hl]; cbn.
    - rewrite Hhit; apply Hmono.
    - specialize (IH (if Str.includes (Str.toLowerCase a) text
                      then acc + 10 else acc) Hl).
      destruct (Str.includes (Str.toLowerCase a) text); lia. }
  apply (H ks 0 Hin).
Qed.

Lemma rowScore_hit (row : GridRow) (ks : list jsstring) (k : jsstring) :
  keywords row = Some ks -> In k ks ->
  Str.includes (Str.toLowerCase k) text = true ->
  10 <= rowScore text row.
Proof.
  intros Hks Hin Hhit.
  pose proof (keywordScore_hit row ks k Hks Hin Hhit).
  unfold rowScore.
  destruct (labelHit text (L1 row)), (labelHit text (L2 row)); lia.
Qed.

End BestRow.

Section BestMatchMore.

Open Scope Z_scope.

Lemma app_match_in_grid (grid : list GridRow) (inputs : App.Inputs)
  (r : GridRow) :
  App.findBestMatch grid inputs = Some r -> In r grid.
Proof.
  unfold App.findBestMatch.
  destruct (scan_result (App.haystack inputs) grid)
    as [[-> _] | (b & -> & Hb & _)].
  - intros H; apply find_some in H; tauto.
  - intros [= <-]; exact Hb.
Qed.

Lemma enhanced_match_in_grid (grid : list GridRow)
  (inputs : Enhanced.Inputs) (r : GridRow) :
  Enhanced.findBestMatch grid inputs = Some r -> In r grid.
Proof.
  unfold Enhanced.findBestMatch.
  destruct (scan_result (Enhanced.haystack inputs) grid)
    as [[-> _] | (b & -> & Hb & _)].
  - destruct (Enhanced.conversationCount inputs =? 0); [| discriminate].
    intros H; apply find_some in H; tauto.
  - intros [= <-]; exact Hb.
Qed.

(** X1: [findBestMatch] never makes a row up: a row it returns, by score or
    as the fallback, is a row of the grid, in both files. *)
Theorem X1_findBestMatch_row_of_grid :
  forall (grid : list GridRow) (r : GridRow),
    (forall inputs : App.Inputs,
       App.findBestMatch grid inputs = Some r -> In r grid)
    /\ (forall inputs : Enhanced.Inputs,
          Enhanced.findBestMatch grid inputs = Some r -> In r grid).
Proof.
  intros grid r; split; intros inputs.
  - apply app_match_in_grid.
  - apply enhanced_match_in_grid.
Qed.

Lemma X1_witness_fallback_row :
  In Sample.otherRow [Sample.cancelRow; Sample.otherRow; Sample.unknownRow]
  /\ In Sample.weatherRow
       [Sample.unknownRow; Sample.weatherRow; Sample.cancelRow].
Proof.
  split.
  - apply (proj1 (X1_findBestMatch_row_of_grid
                    [Sample.cancelRow; Sample.otherRow; Sample.unknownRow]
                    Sample.otherRow)
             (Sample.appInputs "Hello, where is my voucher?" "Booking 4821"
                "Partnered")).
    vm_compute; reflexivity.
  - apply (proj2 (X1_findBestMatch_row_of_grid
                    [Sample.unknownRow; Sample.weatherRow; Sample.cancelRow]
                    Sample.weatherRow)
             (Sample.enhancedInputs "Please cancel my booking" "Booking 4821"
                "Partnered" 1)).
    vm_compute; reflexivity.
Defined.

(** X2: as soon as one row of the grid scores above zero, [findBestMatch]
    returns a row of the grid that no row of the grid outscores, in both
    files. *)
Theorem X2_findBestMatch_best_score :
  forall (grid : list GridRow) (x : GridRow),
    In x grid ->
    (forall inputs : App.Inputs,
       0 < Score.rowScore (App.haystack inputs) x ->
       exists r,
         App.findBestMatch grid inputs = Some r /\ In r grid
         /\ forall y, In y grid ->
                      Score.rowScore (App.haystack inputs) y
                      <= Score.rowScore (App.haystack inputs) r)
    /\ (forall inputs : Enhanced.Inputs,
          0 < Score.rowScore (Enhanced.haystack inputs) x ->
          exists r,
            Enhanced.findBestMatch grid inputs = Some r /\ In r grid
            /\ forall y, In y grid ->
                         Score.rowScore (Enhanced.haystack inputs) y
                         <= Score.rowScore (Enhanced.haystack inputs) r).
Proof.
  intros grid x Hx; split; intros inputs Hpos.
  - unfold App.findBestMatch.
    destruct (scan_result (App.haystack inputs) grid)
      as [[_ Hall] | (b & -> & Hb & _ & Hmax)].
    + specialize (Hall x Hx); lia.
    + exists b; auto.
  - unfold Enhanced.findBestMatch.
    destruct (scan_result (Enhanced.haystack inputs) grid)
      as [[_ Hall] | (b & -> & Hb & _ & Hmax)].
    + specialize (Hall x Hx); lia.
    + exists b; auto.
Qed.

Lemma X2_witness_cancel :
  (exists r,
     App.findBestMatch [Sample.unknownRow; Sample.cancelRow; Sample.refundRow]
       (Sample.appInputs "Please cancel, I want a partial refund"
          "Cancellation" "Partnered") = Some r
     /\ In r [Sample.unknownRow; Sample.cancelRow; Sample.refundRow]
     /\ forall y,
          In y [Sample.unknownRow; Sample.cancelRow; Sample.refundRow] ->
          Score.rowScore
            (App.haystack
               (Sample.appInputs "Please cancel, I want a partial refund"
                  "Cancellation" "Partnered")) y
          <= Score.rowScore
               (App.haystack
                  (Sample.appInputs "Please cancel, I want a partial refund"
                     "Cancellation" "Partnered")) r).
Proof.
  apply (proj1 (X2_findBestMatch_best_score
                  [Sample.unknownRow; Sample.cancelRow; Sample.refundRow]
                  Sample.refundRow
                  (or_intror (or_intror (or_introl eq_refl))))).
  vm_compute; reflexivity.
Defined.

(** X3: an empty string among the keywords of a row occurs in every text, so
    that row always scores and [findBestMatch] never returns none on a grid
    that holds such a row, in both files. *)
Theorem X3_empty_keyword_always_matches :
  forall (grid : list GridRow) (row : GridRow) (ks : list jsstring),
    In row grid -> keywords row = Some ks -> In [] ks ->
    (forall inputs : App.Inputs,
       10 <= Score.rowScore (App.haystack inputs) row
       /\ App.findBestMatch grid inputs <> None)
    /\ (forall inputs : Enhanced.Inputs,
          10 <= Score.rowScore (Enhanced.haystack inputs) row
          /\ Enhanced.findBestMatch grid inputs <> None).
Proof.
  intros grid row ks Hrow Hks Hin.
  assert (Hscore : forall text, 10 <= Score.rowScore text row).
  { intros text; apply (rowScore_hit text row ks [] Hks Hin).
    destruct text; reflexivity. }
  split; intros inputs; (split; [apply Hscore |]).
  - unfold App.findBestMatch.
    destruct (scan_result (App.haystack inputs) grid)
      as [[_ Hall] | (b & -> & _)]; [| discriminate].
    specialize (Hall row Hrow); specialize (Hscore (App.haystack inputs)).
    lia.
  - unfold Enhanced.findBestMatch.
    destruct (scan_result (Enhanced.haystack inputs) grid)
      as [[_ Hall] | (b & -> & _)]; [| discriminate].
    specialize (Hall row Hrow).
    specialize (Hscore (Enhanced.haystack inputs)); lia.
Qed.

Lemma X3_witness_blank_keyword :
  App.findBestMatch [Sample.cancelRow; More.blankKeywordRow]
    (Sample.appInputs "Hello, where is my voucher?" "Booking 4821"
       "Partnered") <> None
  /\ Enhanced.findBestMatch [Sample.cancelRow; More.blankKeywordRow]
       (Sample.enhancedInputs "Hello, where is my voucher?" "Booking 4821"
          "Partnered" 2) <> None.
Proof.
  assert (Hin : In More.blankKeywordRow
                  [Sample.cancelRow; More.blankKeywordRow])
    by (right; left; reflexivity).
  assert (Hk : In [] [u "no-show"; []]) by (right; left; reflexivity).
  destruct (X3_empty_keyword_always_matches
              [Sample.cancelRow; More.blankKeywordRow] More.blankKeywordRow
              [u "no-show"; []] Hin eq_refl Hk) as [Happ Henh].
  split; [apply Happ | apply Henh].
Defined.

(** X4: in the enhanced file a row can only be returned without a score when
    there is no conversation, so the audit that reports such a row always
    carries the confidence Low. *)
Theorem X4_enhanced_fallback_low_confidence :
  forall (now : jsstring) (grid : list GridRow) (inputs : Enhanced.Inputs)
         (r : GridRow),
    Enhanced.findBestMatch grid inputs = Some r ->
    Score.rowScore (Enhanced.haystack inputs) r = 0 ->
    Enhanced.conversationCount inputs = 0
    /\ Enhanced.Confidence (Enhanced.runAudit now grid inputs) = u "Low".
Proof.
  intros now grid inputs r Hfind Hzero.
  assert (Hcount : Enhanced.conversationCount inputs = 0).
  { unfold Enhanced.findBestMatch in Hfind.
    destruct (scan_result (Enhanced.haystack inputs) grid)
      as [[Hnone _] | (b & Hsome & _ & Hpos & _)].
    - rewrite Hnone in Hfind.
      destruct (Z.eqb_spec (Enhanced.conversationCount inputs) 0);
        [assumption | discriminate].
    - rewrite Hsome in Hfind; injection Hfind as ->; lia. }
  split; [exact Hcount |].
  unfold Enhanced.runAudit, Enhanced.buildOutputJSON;
    cbn [Enhanced.Confidence Enhanced.conversationCount].
  rewrite Hcount; reflexivity.
Qed.

Lemma X4_witness_unknown_row :
  Enhanced.Confidence
    (Enhanced.runAudit Sample.monday
       [Sample.cancelRow; Sample.otherRow; Sample.unknownRow]
       (Sample.enhancedInputs "" "Booking 4821" "Partnered" 0))
  = u "Low".
Proof.
  apply (X4_enhanced_fallback_low_confidence Sample.monday
           [Sample.cancelRow; Sample.otherRow; Sample.unknownRow]
           (Sample.enhancedInputs "" "Booking 4821" "Partnered" 0)
           Sample.unknownRow);
    vm_compute; reflexivity.
Defined.

End BestMatchMore.


(* ================================================================== *)
(** * More on the column selector *)
(* ================================================================== *)

Section ColumnsMore.

Import Str Re.
Open Scope N_scope.

Lemma lowerUnit_idem (c : N) : lowerUnit (lowerUnit c) = lowerUnit c.
Proof.
  unfold lowerUnit.
  destruct ((65 <=? c) && (c <=? 90)) eqn:H; [| rewrite H; reflexivity].
  apply andb_true_iff in H; destruct H as [H1 H2].
  apply N.leb_le in H1, H2.
  assert (H3 : (c + 32 <=? 90) = false) by (apply N.leb_gt; lia).
  rewrite H3, andb_false_r; reflexivity.
Qed.

Lemma toLowerCase_idem (s : jsstring) :
  toLowerCase (toLowerCase s) = toLowerCase s.
Proof.
  unfold toLowerCase; rewrite map_map.
  apply map_ext; intros c; apply lowerUnit_idem.
Qed.

Lemma trimEnd_idem (s : jsstring) : trimEnd (trimEnd s) = trimEnd s.
Proof.
  induction s as [| c s IH]; [reflexivity |].
  cbn [trimEnd].
  destruct (trimEnd s) as [| r0 r] eqn:Hr.
  - destruct (isWhite c) eqn:Hc; [reflexivity |].
    cbn; rewrite Hc; reflexivity.
  - cbn [trimEnd] in IH |- *.
    change (trimEnd (c :: r0 :: r))
      with (match trimEnd (r0 :: r) with
            | [] => if isWhite c then [] else [c]
            | x :: l => c :: x :: l
            end).
    rewrite IH; reflexivity.
Qed.

Lemma dropWhile_trimEnd (s : jsstring) :
  dropWhile isWhite (trimEnd (dropWhile isWhite s))
  = trimEnd (dropWhile isWhite s).
Proof.
  induction s as [| c s IH]; [reflexivity |].
  cbn [dropWhile].
  destruct (isWhite c) eqn:Hc; [exact IH |].
  cbn [trimEnd].
  destruct (trimEnd s); rewrite ?Hc; cbn; rewrite ?Hc; reflexivity.
Qed.

Lemma trim_idem (s : jsstring) : trim (trim s) = trim s.
Proof.
  unfold trim; rewrite dropWhile_trimEnd; apply trimEnd_idem.
Qed.

Lemma lower_trim_lower (s : jsstring) :
  toLowerCase (trim (toLowerCase s)) = toLowerCase (trim s).
Proof. rewrite <- toLowerCase_trim, toLowerCase_idem; reflexivity. Qed.

(** X5: the type is matched without regard to case and to white space around
    it, and white space around the tier is ignored as well: lowering the
    type, or trimming type and tier beforehand, changes nothing, in both
    files. *)
Theorem X5_column_ignores_case_and_padding :
  forall experienceType valueTier : jsstring,
    App.chooseColumnLetter (toLowerCase experienceType) valueTier
    = App.chooseColumnLetter experienceType valueTier
    /\ App.chooseColumnLetter (trim experienceType) (trim valueTier)
       = App.chooseColumnLetter experienceType valueTier
    /\ Enhanced.chooseColumnLetter (toLowerCase experienceType) valueTier
       = Enhanced.chooseColumnLetter experienceType valueTier
    /\ Enhanced.chooseColumnLetter (trim experienceType) (trim valueTier)
       = Enhanced.chooseColumnLetter experienceType valueTier.
Proof.
  intros t v.
  unfold App.chooseColumnLetter, Enhanced.chooseColumnLetter,
    test_any_ci, test_ci, exact_ci, test_dotstar_ci.
  rewrite !trim_idem, !lower_trim_lower.
  repeat split; reflexivity.
Qed.

Lemma after_dotstar_includes (b s : jsstring) :
  after_dotstar b s = true -> includes b s = true.
Proof.
  induction s as [| c s IH]; cbn; [auto |].
  intros H; apply orb_true_iff in H; destruct H as [-> | H]; [reflexivity |].
  apply andb_true_iff in H; destruct H as [_ H].
  fold (startsWith b (c :: s)).
  rewrite (IH H); apply orb_true_r.
Qed.

Lemma includes_skipn (b : jsstring) (n : nat) (s : jsstring) :
  includes b (skipn n s) = true -> includes b s = true.
Proof.
  revert s; induction n as [| n IH]; intros s; [auto |].
  destruct s as [| c s]; [auto |].
  cbn [skipn]; intros H.
  rewrite includes_cons, (IH s H); apply orb_true_r.
Qed.

(** A match of [/a.*b/] holds both words. *)
Lemma seq_dotstar_includes (a b s : jsstring) :
  seq_dotstar a b s = true ->
  includes a s = true /\ includes b s = true.
Proof.
  induction s as [| c s IH].
  - cbn; rewrite !orb_false_r; intros H.
    apply andb_true_iff in H; destruct H as [Ha Hb].
    split; [exact Ha |].
    apply after_dotstar_includes in Hb.
    apply includes_skipn in Hb; cbn in Hb.
    rewrite orb_false_r in Hb; exact Hb.
  - rewrite seq_dotstar_cons, !includes_cons; intros H.
    apply orb_true_iff in H; destruct H as [H | H].
    + apply andb_true_iff in H; destruct H as [Ha Hb].
      rewrite Ha; split; [reflexivity |].
      apply after_dotstar_includes, includes_skipn in Hb.
      rewrite includes_cons in Hb; exact Hb.
    + destruct (IH H) as [-> ->]; rewrite !orb_true_r; auto.
Qed.

(** The conditions of the four rules on a type, whatever the tier. *)
Lemma rule1_needs_partnered (type : jsstring) :
  test_ci (u "partnered") type = false ->
  exact_ci (u "partnered") type
  || (test_ci (u "partnered") type && negb (test_ci (u "social") type))
  = false.
Proof.
  intros H; rewrite H; cbn [andb]; rewrite orb_false_r.
  destruct (exact_ci (u "partnered") type) eqn:He; [| reflexivity].
  rewrite (exact_ci_test_ci _ (u "partnered") _ He) in H; discriminate.
Qed.

Lemma dotstar_needs_partnered (a q type : jsstring) :
  test_ci (u "partnered") type = false ->
  test_dotstar_ci a (q ++ u "partnered") type = false.
Proof.
  intros H.
  destruct (test_dotstar_ci a (q ++ u "partnered") type) eqn:Hd;
    [| reflexivity].
  apply seq_dotstar_includes in Hd; destruct Hd as [_ Hd].
  apply includes_suffix in Hd.
  unfold test_ci in H; congruence.
Qed.

Lemma nonPartnered_needs_partnered (type : jsstring) :
  test_ci (u "partnered") type = false ->
  test_any_ci App.nonPartnered type = false.
Proof.
  intros H.
  destruct (test_any_ci App.nonPartnered type) eqn:Ha; [| reflexivity].
  unfold test_any_ci, App.nonPartnered in Ha; cbn [existsb] in Ha.
  rewrite orb_false_r in Ha; apply orb_true_iff in Ha.
  unfold test_ci in *.
  destruct Ha as [Ha | Ha].
  - apply (includes_suffix (u "non-") (u "partnered")) in Ha; congruence.
  - apply (includes_suffix (u "non") (u "partnered")) in Ha; congruence.
Qed.

(** X6: a type that does not hold the word "partnered" in any case - the
    empty type and the "Unknown" that [gatherInputs] fills in among them -
    falls through every rule to the default: column D when the tier is the
    high one and column C otherwise, in both files. *)
Theorem X6_column_default_without_partnered :
  forall experienceType valueTier : jsstring,
    test_ci (u "partnered") experienceType = false ->
    App.chooseColumnLetter experienceType valueTier
    = (if Str.eqb (trim valueTier) tierHigh then u "D" else u "C")
    /\ Enhanced.chooseColumnLetter experienceType valueTier
       = (if Str.eqb (trim valueTier) tierHigh then u "D" else u "C").
Proof.
  intros t v H.
  assert (Ht : test_ci (u "partnered") (trim t) = false)
    by (rewrite test_ci_trim by reflexivity; exact H).
  pose proof (rule1_needs_partnered _ Ht) as R1.
  pose proof (rule2_shadowed _ R1) as R2.
  pose proof (nonPartnered_needs_partnered _ Ht) as Hn.
  pose proof (dotstar_needs_partnered (u "social") [] _ Ht) as D0.
  pose proof (dotstar_needs_partnered (u "social") (u "non-") _ Ht) as D1.
  pose proof (dotstar_needs_partnered (u "social") (u "non") _ Ht) as D2.
  unfold App.chooseColumnLetter, Enhanced.chooseColumnLetter.
  change Enhanced.nonPartnered with App.nonPartnered.
  rewrite R1, R2.
  cbn [existsb App.nonPartnered].
  change ([] ++ u "partnered") with (u "partnered") in D0.
  change (u "non-" ++ u "partnered") with (u "non-partnered") in D1.
  change (u "non" ++ u "partnered") with (u "nonpartnered") in D2.
  rewrite D0, D1, D2, Ht, Hn.
  rewrite !andb_false_r; cbn [orb].
  split; reflexivity.
Qed.

Lemma X6_witness_unknown_type :
  App.chooseColumnLetter (u "Unknown") tierHigh = u "D"
  /\ Enhanced.chooseColumnLetter [] tierUnknown = u "C".
Proof.
  split.
  - apply (proj1 (X6_column_default_without_partnered (u "Unknown") tierHigh
                    eq_refl)).
  - apply (proj2 (X6_column_default_without_partnered [] tierUnknown
                    eq_refl)).
Defined.

(** X7: columns E and F are never chosen: whatever the type and the tier,
    [chooseColumnLetter] returns neither of the two Non-Partnered columns, in
    either file, because a type that is or holds "non-partnered" holds
    "partnered" and is taken by rule 1 or, with "social", by rules 3 and
    4. *)
Theorem X7_columns_E_F_never_chosen :
  forall experienceType valueTier : jsstring,
    App.chooseColumnLetter experienceType valueTier <> u "E"
    /\ App.chooseColumnLetter experienceType valueTier <> u "F"
    /\ Enhanced.chooseColumnLetter experienceType valueTier <> u "E"
    /\ Enhanced.chooseColumnLetter experienceType valueTier <> u "F".
Proof.
  intros t v.
  unfold App.chooseColumnLetter, Enhanced.chooseColumnLetter.
  change Enhanced.nonPartnered with App.nonPartnered.
  destruct (exact_ci (u "partnered") (trim t)
            || (test_ci (u "partnered") (trim t)
                && negb (test_ci (u "social") (trim t)))) eqn:R1.
  - destruct (app_pick_cases (trim v) (u "C") (u "D") (u "C"))
      as [-> | [-> | ->]];
      destruct (enhanced_pick_cases (trim v) (u "C") (u "D")) as [-> | ->];
      repeat split; discriminate.
  - rewrite (rule2_shadowed _ R1).
    repeat match goal with
    | |- context [if ?b then App.pick _ _ _ _ else _] => destruct b
    | |- context [App.pick ?v ?a ?b ?c] =>
        destruct (app_pick_cases v a b c) as [-> | [-> | ->]]
    | |- context [Enhanced.pick ?v ?a ?b] =>
        destruct (enhanced_pick_cases v a b) as [-> | ->]
    | |- context [if ?b then u "D" else _] => destruct b
    end; repeat split; discriminate.
Qed.

(** X8: a type in which "social" comes before "partnered" on one line is
    taken by rule 3, whether it says "non-partnered" or not: both files
    return G for the low tier and H for the high tier, and never another
    column. *)
Theorem X8_social_before_partnered_gets_G_or_H :
  forall experienceType valueTier : jsstring,
    test_dotstar_ci (u "social") (u "partnered") experienceType = true ->
    (App.chooseColumnLetter experienceType tierLow = u "G"
     /\ App.chooseColumnLetter experienceType tierHigh = u "H"
     /\ (App.chooseColumnLetter experienceType valueTier = u "G"
         \/ App.chooseColumnLetter experienceType valueTier = u "H"))
    /\ (Enhanced.chooseColumnLetter experienceType tierLow = u "G"
        /\ Enhanced.chooseColumnLetter experienceType tierHigh = u "H"
        /\ (Enhanced.chooseColumnLetter experienceType valueTier = u "G"
            \/ Enhanced.chooseColumnLetter experienceType valueTier
               = u "H")).
Proof.
  intros t v H.
  assert (Ht : test_dotstar_ci (u "social") (u "partnered") (trim t) = true)
    by (rewrite test_dotstar_ci_trim by reflexivity; exact H).
  assert (Hs : test_ci (u "social") (trim t) = true)
    by (apply (seq_dotstar_includes _ _ _ Ht)).
  assert (R1 : exact_ci (u "partnered") (trim t)
               || (test_ci (u "partnered") (trim t)
                   && negb (test_ci (u "social") (trim t))) = false).
  { rewrite Hs; cbn [negb]; rewrite andb_false_r, orb_false_r.
    destruct (exact_ci (u "partnered") (trim t)) eqn:He; [| reflexivity].
    rewrite (exact_ci_test_ci _ (u "social") _ He) in Hs; discriminate. }
  destruct trim_tiers as (Hl & Hh & _).
  unfold App.chooseColumnLetter, Enhanced.chooseColumnLetter.
  change Enhanced.nonPartnered with App.nonPartnered.
  rewrite R1, (rule2_shadowed _ R1), Ht, Hl, Hh; cbn [orb].
  split; (split; [reflexivity |]; split; [reflexivity |]).
  - destruct (app_pick_cases (trim v) (u "G") (u "H") (u "G"))
      as [-> | [-> | ->]]; auto.
  - destruct (enhanced_pick_cases (trim v) (u "G") (u "H")) as [-> | ->];
      auto.
Qed.

Lemma X8_witness_social_media_labels :
  App.chooseColumnLetter (u "Social Media Partnered") tierHigh = u "H"
  /\ Enhanced.chooseColumnLetter (u "Social Media Non-Partnered") tierLow
     = u "G".
Proof.
  split.
  - apply (X8_social_before_partnered_gets_G_or_H
             (u "Social Media Partnered") tierHigh eq_refl).
  - apply (X8_social_before_partnered_gets_G_or_H
             (u "Social Media Non-Partnered") tierLow eq_refl).
Defined.

End ColumnsMore.

(* ================================================================== *)
(** * More on the comparison and on the record *)
(* ================================================================== *)

Section RecordMore.

Import Str.
Open Scope Z_scope.

(** X9: [compareSeverity] turns over with its arguments: the observed action
    is less severe than the expected one exactly when the expected one is
    more severe than the observed one, Match is symmetric, and a text always
    matches itself. *)
Theorem X9_compareSeverity_swaps :
  forall expectedText actualText : jsstring,
    (App.compareSeverity expectedText actualText = App.LessSevere
     <-> App.compareSeverity actualText expectedText = App.MoreSevere)
    /\ (App.compareSeverity expectedText actualText = App.Match
        <-> App.compareSeverity actualText expectedText = App.Match)
    /\ App.compareSeverity expectedText expectedText = App.Match.
Proof.
  intros e a.
  destruct (compareSeverity_cases e a) as [[H1 E1] | [[H1 E1] | [H1 E1]]];
    destruct (compareSeverity_cases a e) as [[H2 E2] | [[H2 E2] | [H2 E2]]];
    destruct (compareSeverity_cases e e) as [[H3 E3] | [[H3 E3] | [H3 E3]]];
    try lia; rewrite E1, E2, E3;
    repeat split; intros; try reflexivity; try discriminate.
Qed.

Lemma app_findBestMatch_tier (grid : list GridRow) (inputs : App.Inputs)
  (tier : option jsstring) :
  App.findBestMatch grid
    (App.mkInputs (App.bookingId inputs) (App.ticketId inputs)
       (App.subject inputs) (App.latestComment inputs)
       (App.experienceType inputs) (App.ticketStatus inputs) tier)
  = App.findBestMatch grid inputs.
Proof. reflexivity. Qed.

Lemma enhanced_findBestMatch_tier (grid : list GridRow)
  (inputs : Enhanced.Inputs) (tier : option jsstring) :
  Enhanced.findBestMatch grid
    (Enhanced.mkInputs (Enhanced.bookingId inputs) (Enhanced.ticketId inputs)
       (Enhanced.subject inputs) (Enhanced.fullConversation inputs)
       (Enhanced.conversationCount inputs) (Enhanced.experienceType inputs)
       (Enhanced.ticketStatus inputs) tier)
  = Enhanced.findBestMatch grid inputs.
Proof. reflexivity. Qed.

(** X10: in the record [app.js] builds, the audit is Non-Compliant exactly
    when the observed action it reports ranks below the ideal action it
    reports, and Compliant otherwise; the flag "DSS Rule Misapplied" is Yes
    exactly for the Non-Compliant audits, and the third category of the
    source never appears. *)
Theorem X10_app_record_category :
  forall (now : jsstring) (grid : list GridRow) (inputs : App.Inputs),
    let o := App.runAudit now grid inputs in
    (App.DSS_Compliance o = App.NonCompliant
     <-> App.severityRank (App.Refund_Verdict_Detail o)
         < App.severityRank (App.Ideal_Refund_Action o))
    /\ (App.DSS_Compliance o = App.Compliant
        <-> App.severityRank (App.Ideal_Refund_Action o)
            <= App.severityRank (App.Refund_Verdict_Detail o))
    /\ (App.DSS_Rule_Misapplied o = u "Yes"
        <-> App.DSS_Compliance o = App.NonCompliant)
    /\ (App.DSS_Rule_Misapplied o = u "No"
        <-> App.DSS_Compliance o = App.Compliant)
    /\ App.DSS_Compliance o <> App.RuleMisapplied.
Proof.
  intros now grid inputs o; subst o.
  unfold App.runAudit.
  match goal with
  | |- context [App.buildOutputJSON ?n ?i ?g ?c ?a] =>
      pose proof (app_category_by_rank n i g c a) as Hcat;
      set (rec := App.buildOutputJSON n i g c a) in *;
      assert (Hmis : App.DSS_Rule_Misapplied rec
                     = if includes App.NonCompliant (App.DSS_Compliance rec)
                       then u "Yes" else u "No") by reflexivity;
      change (App.Refund_Verdict_Detail rec) with a;
      change (App.Ideal_Refund_Action rec)
        with (App.expectedCellText g c) in *
  end.
  rewrite Hmis, Hcat.
  match goal with
  | |- context [?x <? ?y] => destruct (Z.ltb_spec x y)
  end; repeat split; intros; try lia; try reflexivity; try discriminate.
Qed.

(** X11: the explanation in the record never carries more than 150 code
    units of the ideal action nor of the observed one: it is 28 code units
    of fixed text around the two quotations, 328 at most. *)
Theorem X11_explanation_is_bounded :
  forall (now : jsstring) (grid : list GridRow) (inputs : App.Inputs),
    let o := App.runAudit now grid inputs in
    App.Compliance_Explanation o
    = u "DSS expects: "
      ++ quoted (slice0 150 (App.Ideal_Refund_Action o))
      ++ u ". Actual: "
      ++ quoted (slice0 150 (App.Refund_Verdict_Detail o)) ++ u "."
    /\ (List.length (App.Compliance_Explanation o) <= 328)%nat
    /\ (List.length (App.Compliance_Explanation o)
        = 28 + Nat.min 150 (List.length (App.Ideal_Refund_Action o))
          + Nat.min 150 (List.length (App.Refund_Verdict_Detail o)))%nat.
Proof.
  intros now grid inputs o; subst o.
  unfold App.runAudit.
  match goal with
  | |- context [App.buildOutputJSON ?n ?i ?g ?c ?a] =>
      set (rec := App.buildOutputJSON n i g c a);
      change (App.Refund_Verdict_Detail rec) with a;
      change (App.Ideal_Refund_Action rec) with (App.expectedCellText g c);
      change (App.Compliance_Explanation rec)
        with (u "DSS expects: "
              ++ quoted (slice0 150 (App.expectedCellText g c))
              ++ u ". Actual: " ++ quoted (slice0 150 a) ++ u ".");
      generalize (App.expectedCellText g c) as e; generalize a as t
  end.
  intros t e; split; [reflexivity |].
  unfold quoted, slice0.
  rewrite !length_app, !length_firstn.
  change (List.length (u "DSS expects: ")) with 13%nat.
  change (List.length (u ". Actual: ")) with 10%nat.
  change (List.length (u ".")) with 1%nat.
  cbn [List.length]; lia.
Qed.

(** X12: when no row matches, [runAudit] of [app.js] hands the empty object
    to [buildOutputJSON], never null: the two reasons and the ideal action
    of the record are empty, its summary reads "undefined" for both labels
    (the word "Unknown" of the template is out of reach), and the audit is
    judged against the neutral rank 3. *)
Theorem X12_app_record_without_match :
  forall (now : jsstring) (grid : list GridRow) (inputs : App.Inputs),
    App.findBestMatch grid inputs = None ->
    let o := App.runAudit now grid inputs in
    App.L1_Reason o = [] /\ App.L2_Reason o = []
    /\ App.Ideal_Refund_Action o = []
    /\ App.Summary o
       = u "L1: undefined; L2: undefined; Col: "
         ++ App.DSS_Grid_Column_Header o
    /\ (App.DSS_Compliance o = App.NonCompliant
        <-> App.severityRank (App.Refund_Verdict_Detail o) < 3).
Proof.
  intros now grid inputs Hnone o; subst o.
  unfold App.runAudit.
  rewrite app_findBestMatch_tier, Hnone.
  match goal with
  | |- context [App.buildOutputJSON ?n ?i ?g ?c ?a] =>
      pose proof (app_category_by_rank n i g c a) as Hcat;
      destruct (header_of_letter c (app_column_in_letters _ _))
        as (h & Hh & _ & Htruthy);
      set (rec := App.buildOutputJSON n i g c a) in *;
      change (App.Refund_Verdict_Detail rec) with a;
      assert (Hsum : App.Summary rec
                     = u "L1: undefined; L2: undefined; Col: "
                       ++ orDefault (lookup c cellHeaderMap) (u "N/A"))
        by reflexivity;
      assert (Hhead : App.DSS_Grid_Column_Header rec
                      = orEmpty (lookup c cellHeaderMap)) by reflexivity
  end.
  rewrite Hsum, Hhead, Hh, Hcat.
  cbn [orDefault orEmpty]; unfold or_else; rewrite Htruthy.
  repeat split; try reflexivity;
    change (App.severityRank (App.expectedCellText (Some emptyRow) _))
      with 3;
    match goal with
    | |- context [?x <? 3] => destruct (Z.ltb_spec x 3)
    end; intros; try lia; try reflexivity; try discriminate.
Qed.

Lemma X12_witness_empty_grid :
  App.Summary
    (App.runAudit Sample.monday []
       (Sample.appInputs "Sorry, no refund is due." "Booking 4821"
          "Non-Partnered"))
  = u "L1: undefined; L2: undefined; Col: "
    ++ App.DSS_Grid_Column_Header
         (App.runAudit Sample.monday []
            (Sample.appInputs "Sorry, no refund is due." "Booking 4821"
               "Non-Partnered")).
Proof.
  apply (X12_app_record_without_match Sample.monday []
           (Sample.appInputs "Sorry, no refund is due." "Booking 4821"
              "Non-Partnered")).
  reflexivity.
Defined.

(** X13: in the enhanced file an audit is Compliant only when a row matched
    and that row prescribes, for the chosen column, a text that is not empty
    and does not say "no action"; with no match the record reads the
    missing-rule category and "Unknown" for both reasons. *)
Theorem X13_enhanced_compliant_needs_a_rule :
  forall (now : jsstring) (grid : list GridRow) (inputs : Enhanced.Inputs),
    let o := Enhanced.runAudit now grid inputs in
    (Enhanced.DSS_Compliance o = Enhanced.Compliant ->
     exists row text,
       Enhanced.findBestMatch grid inputs = Some row /\ In row grid
       /\ (exists column,
             In column columnLetters
             /\ lookup column (cells row) = Some text)
       /\ text <> []
       /\ includes (u "no action") (toLowerCase text) = false)
    /\ (Enhanced.findBestMatch grid inputs = None ->
        Enhanced.DSS_Compliance o = Enhanced.RuleMissing
        /\ Enhanced.L1_Reason o = u "Unknown"
        /\ Enhanced.L2_Reason o = u "Unknown").
Proof.
  intros now grid inputs o; subst o.
  unfold Enhanced.runAudit.
  rewrite enhanced_findBestMatch_tier.
  split.
  - destruct (Enhanced.findBestMatch grid inputs) as [row |] eqn:Hf;
      [| intros H; vm_compute in H; discriminate].
    cbn [Enhanced.buildOutputJSON Enhanced.DSS_Compliance
         Enhanced.expectedCellText].
    match goal with
    | |- context [lookup ?c (cells row)] =>
        pose proof (enhanced_column_in_letters
                      (Enhanced.experienceType inputs)
                      (Enhanced.detectValueTier
                         (Enhanced.fullConversation inputs ++ u " "
                          ++ Enhanced.subject inputs))) as Hc;
        destruct (lookup c (cells row)) as [text |] eqn:Hl
    end; [| intros H; vm_compute in H; discriminate].
    cbn [orEmpty]; unfold Enhanced.complianceFlag.
    destruct text as [| x text]; [intros H; vm_compute in H; discriminate |].
    cbn [truthy negb orb].
    destruct (includes (u "no action") (toLowerCase (x :: text))) eqn:Hna;
      [intros H; vm_compute in H; discriminate |].
    intros _; exists row, (x :: text).
    split; [reflexivity |].
    split; [apply (enhanced_match_in_grid grid inputs row Hf) |].
    split; [eexists; split; [exact Hc | exact Hl] |].
    split; [discriminate | exact Hna].
  - intros ->; repeat split; reflexivity.
Qed.

Lemma X13_witness_both_ways :
  (exists row text,
     Enhanced.findBestMatch [Sample.unknownRow; Sample.cancelRow]
       (Sample.enhancedInputs "Please cancel my booking" "Booking 4821"
          "Partnered" 1) = Some row
     /\ In row [Sample.unknownRow; Sample.cancelRow]
     /\ (exists column,
           In column columnLetters
           /\ lookup column (cells row) = Some text)
     /\ text <> []
     /\ includes (u "no action") (toLowerCase text) = false)
  /\ Enhanced.L1_Reason
       (Enhanced.runAudit Sample.monday [Sample.cancelRow]
          (Sample.enhancedInputs "Hello, where is my voucher?"
             "Booking 4821" "Partnered" 1))
     = u "Unknown".
Proof.
  split.
  - apply (proj1 (X13_enhanced_compliant_needs_a_rule Sample.monday
                    [Sample.unknownRow; Sample.cancelRow]
                    (Sample.enhancedInputs "Please cancel my booking"
                       "Booking 4821" "Partnered" 1))).
    vm_compute; reflexivity.
  - apply (proj2 (X13_enhanced_compliant_needs_a_rule Sample.monday
                    [Sample.cancelRow]
                    (Sample.enhancedInputs "Hello, where is my voucher?"
                       "Booking 4821" "Partnered" 1))).
    vm_compute; reflexivity.
Defined.

End RecordMore.

(* ================================================================== *)
(** * More on the value tier *)
(* ================================================================== *)

Section ValueTierMore.

Import Str Amount Terms.
Open Scope N_scope.

Lemma isNumComma_not_white (c : N) : isNumComma c = true -> isWhite c = false.
Proof.
  unfold isNumComma; intros H; apply orb_true_iff in H.
  destruct H as [H | H]; [apply isDigit_not_white, H |].
  apply N.eqb_eq in H; subst c; reflexivity.
Qed.

Lemma isNumComma_lower (c : N) : isNumComma c = true -> lowerUnit c = c.
Proof.
  unfold isNumComma, isDigit, lowerUnit; intros H.
  destruct ((65 <=? c) && (c <=? 90)) eqn:Hu; [| reflexivity].
  apply andb_true_iff in Hu; destruct Hu as [H1 H2].
  apply N.leb_le in H1, H2.
  apply orb_true_iff in H; destruct H as [H | H].
  - apply andb_true_iff in H; destruct H as [_ H].
    apply N.leb_le in H; lia.
  - apply N.eqb_eq in H; lia.
Qed.

Lemma dropWhile_app_all (f : N -> bool) (ws s : jsstring) :
  forallb f ws = true -> dropWhile f (ws ++ s) = dropWhile f s.
Proof.
  induction ws as [| w ws IH]; [reflexivity |]; cbn.
  intros H; apply andb_true_iff in H; destruct H as [-> H]; exact (IH H).
Qed.

(** ** Every occurrence of a surface form is found *)

Lemma matchDollar_complete (text : jsstring) :
  dollarForm text -> matchDollar text <> None.
Proof.
  intros (pre & ws & c & post & -> & Hws & Hc).
  induction pre as [| x pre IH].
  - cbn [app matchDollar]; rewrite N.eqb_refl.
    rewrite (dropWhile_app_all isWhite ws _ Hws).
    cbn [dropWhile]; rewrite (isNumComma_not_white c Hc).
    unfold numeralAt; cbn [takeWhile]; rewrite Hc; cbv iota beta zeta.
    discriminate.
  - cbn [app matchDollar].
    destruct (x =? 36); [| exact IH].
    match goal with
    | |- context [numeralAt ?t] =>
        destruct (numeralAt t) as [[cap rest] |]
    end; [discriminate | exact IH].
Qed.

(** What follows the numeral in the code form: white space, then the
    currency code. *)
Lemma code_tail (ws code post : jsstring) :
  forallb isWhite ws = true -> toLowerCase code = u "usd" ->
  startsWith (u "usd") (toLowerCase (dropWhile isWhite (ws ++ code ++ post)))
  = true
  /\ stopsAt isNumComma (ws ++ code ++ post) = true
  /\ fractionAt (ws ++ code ++ post) = []
  /\ stopsAt isDigit (ws ++ code ++ post) = true.
Proof.
  intros Hws Hcode.
  destruct code as [| x code]; [vm_compute in Hcode; discriminate |].
  unfold toLowerCase in Hcode; cbn [map] in Hcode.
  change (u "usd") with (117 :: u "sd") in Hcode.
  injection Hcode as Hx Hrest.
  assert (Hxw : isWhite x = false)
    by (rewrite <- isWhite_lowerUnit, Hx; reflexivity).
  assert (Hxn : isNumComma x = false).
  { destruct (isNumComma x) eqn:E; [| reflexivity].
    rewrite (isNumComma_lower x E) in Hx; subst x; discriminate. }
  assert (Hxd : isDigit x = false).
  { destruct (isDigit x) eqn:E; [| reflexivity].
    rewrite (isDigit_isNumComma x E) in Hxn; discriminate. }
  assert (Hx46 : (x =? 46) = false).
  { destruct (N.eqb_spec x 46) as [-> | _]; [discriminate | reflexivity]. }
  split; [| split; [| split]].
  - rewrite (dropWhile_app_all isWhite ws _ Hws).
    cbn [app dropWhile]; rewrite Hxw.
    unfold toLowerCase; cbn [map]; rewrite map_app, Hx, Hrest.
    reflexivity.
  - destruct ws as [| w ws]; cbn; [rewrite Hxn; reflexivity |].
    cbn in Hws; apply andb_true_iff in Hws; destruct Hws as [Hw _].
    destruct (isNumComma w) eqn:E; [| reflexivity].
    rewrite (isNumComma_not_white w E) in Hw; discriminate.
  - destruct ws as [| w ws]; cbn [app fractionAt].
    + destruct (code ++ post); [reflexivity |].
      rewrite Hx46; reflexivity.
    + cbn in Hws; apply andb_true_iff in Hws; destruct Hws as [Hw _].
      assert (Hw46 : (w =? 46) = false).
      { destruct (N.eqb_spec w 46) as [-> | _];
          [discriminate | reflexivity]. }
      destruct (ws ++ x :: code ++ post); [reflexivity |].
      rewrite Hw46; reflexivity.
  - destruct ws as [| w ws]; cbn; [rewrite Hxd; reflexivity |].
    cbn in Hws; apply andb_true_iff in Hws; destruct Hws as [Hw _].
    destruct (isDigit w) eqn:E; [| reflexivity].
    rewrite (isDigit_not_white w E) in Hw; discriminate.
Qed.

Lemma usdAt_complete (c : N) (frac ws code post : jsstring) :
  isNumComma c = true -> isFraction frac ->
  forallb isWhite ws = true -> toLowerCase code = u "usd" ->
  usdAt (c :: frac ++ ws ++ code ++ post) <> None.
Proof.
  intros Hc Hfrac Hws Hcode.
  destruct (code_tail ws code post Hws Hcode) as (Husd & Hstop & Hnofrac & Hnod).
  set (tail := ws ++ code ++ post) in *.
  assert (Hrun : takeWhile isNumComma (c :: frac ++ tail) = [c]).
  { cbn [takeWhile]; rewrite Hc; f_equal.
    destruct Hfrac as [-> | [(d & -> & _) | (d1 & d2 & -> & _)]];
      [| reflexivity | reflexivity].
    cbn [app]; destruct tail as [| t tail']; [reflexivity |].
    cbn in Hstop |- *; destruct (isNumComma t); [discriminate | reflexivity]. }
  unfold usdAt.
  rewrite (numeralAt_run _ [c] Hrun ltac:(discriminate)).
  cbn [List.length skipn].
  assert (Hrest : skipn (List.length (fractionAt (frac ++ tail)))
                    (frac ++ tail) = tail).
  { destruct Hfrac as [-> | [(d & -> & Hd) | (d1 & d2 & -> & Hd1 & Hd2)]].
    - cbn [app]; rewrite Hnofrac; reflexivity.
    - cbn [app fractionAt]; rewrite Hd; cbn [N.eqb Pos.eqb andb].
      destruct tail as [| t tail']; [reflexivity |].
      cbn in Hnod; destruct (isDigit t); [discriminate | reflexivity].
    - cbn [app fractionAt]; rewrite Hd1, Hd2; reflexivity. }
  rewrite Hrest, Husd; discriminate.
Qed.

Lemma matchUsdCode_complete (text : jsstring) :
  codeForm text -> matchUsdCode text <> None.
Proof.
  intros (pre & c & frac & ws & code & post & -> & Hc & Hfrac & Hws & Hcode).
  pose proof (usdAt_complete c frac ws code post Hc Hfrac Hws Hcode) as Hat.
  induction pre as [| x pre IH].
  - cbn [app matchUsdCode].
    destruct (usdAt (c :: frac ++ ws ++ code ++ post));
      [discriminate | contradiction].
  - cbn [app matchUsdCode].
    destruct (usdAt (x :: pre ++ c :: frac ++ ws ++ code ++ post));
      [discriminate | exact IH].
Qed.

Lemma tierOf_known (num : option Z) : tierOf num <> tierUnknown.
Proof.
  unfold tierOf; destruct num as [h |]; [destruct (h <=? 12500)%Z |];
    discriminate.
Qed.

(** X14: [detectValueTier] answers Unknown exactly on the texts that show no
    currency amount: in [app.js], neither a dollar sign followed by a digit
    or a comma nor a numeral followed by USD; in the enhanced file, no such
    dollar sign (a numeral followed by USD is not looked for there). *)
Theorem X14_unknown_iff_no_amount :
  forall text : jsstring,
    (App.detectValueTier text = tierUnknown
     <-> ~ dollarForm text /\ ~ codeForm text)
    /\ (Enhanced.detectValueTier text = tierUnknown <-> ~ dollarForm text).
Proof.
  intros text; split; split.
  - intros H; split; intros Hf.
    + apply matchDollar_complete in Hf.
      unfold App.detectValueTier in H.
      destruct text as [| c text]; [apply Hf; reflexivity |].
      cbn [truthy negb] in H.
      destruct (matchDollar (c :: text)); [| contradiction].
      exact (tierOf_known _ H).
    + pose proof (matchUsdCode_complete _ Hf) as Hu.
      unfold App.detectValueTier in H.
      destruct text as [| c text]; [apply Hu; reflexivity |].
      cbn [truthy negb] in H.
      destruct (matchDollar (c :: text)); [exact (tierOf_known _ H) |].
      destruct (matchUsdCode (c :: text)); [| contradiction].
      exact (tierOf_known _ H).
  - intros [Hd Hc].
    unfold App.detectValueTier.
    destruct (truthy text); [| reflexivity]; cbn [negb].
    destruct (matchDollar text) as [cap |] eqn:Hm;
      [elim Hd; exact (matchDollar_form _ _ Hm) |].
    destruct (matchUsdCode text) as [cap |] eqn:Hu;
      [elim Hc; exact (matchUsdCode_form _ _ Hu) | reflexivity].
  - intros H Hf.
    apply matchDollar_complete in Hf.
    unfold Enhanced.detectValueTier in H.
    destruct text as [| c text]; [apply Hf; reflexivity |].
    cbn [truthy negb] in H.
    destruct (matchDollar (c :: text)); [| contradiction].
    exact (tierOf_known _ H).
  - intros Hd.
    unfold Enhanced.detectValueTier.
    destruct (truthy text); [| reflexivity]; cbn [negb].
    destruct (matchDollar text) as [cap |] eqn:Hm;
      [elim Hd; exact (matchDollar_form _ _ Hm) | reflexivity].
Qed.

(** X15: the two files read the same tier off every text except those that
    show an amount only as a numeral followed by USD: there the enhanced
    file answers Unknown where [app.js] answers a tier. *)
Theorem X15_files_differ_on_usd_only :
  forall text : jsstring,
    (dollarForm text \/ ~ codeForm text ->
     App.detectValueTier text = Enhanced.detectValueTier text)
    /\ (~ dollarForm text -> codeForm text ->
        Enhanced.detectValueTier text = tierUnknown
        /\ App.detectValueTier text <> tierUnknown).
Proof.
  intros text; split.
  - intros H.
    unfold App.detectValueTier, Enhanced.detectValueTier.
    destruct (truthy text); [| reflexivity]; cbn [negb].
    destruct (matchDollar text) as [cap |] eqn:Hm; [reflexivity |].
    destruct H as [H | H]; [apply matchDollar_complete in H; congruence |].
    destruct (matchUsdCode text) as [cap |] eqn:Hu; [| reflexivity].
    elim H; exact (matchUsdCode_form _ _ Hu).
  - intros Hd Hc.
    pose proof (matchUsdCode_complete _ Hc) as Hu.
    unfold App.detectValueTier, Enhanced.detectValueTier.
    destruct text as [| c text]; [elim Hu; reflexivity |].
    cbn [truthy negb].
    destruct (matchDollar (c :: text)) as [cap |] eqn:Hm;
      [elim Hd; exact (matchDollar_form _ _ Hm) |].
    split; [reflexivity |].
    destruct (matchUsdCode (c :: text)); [apply tierOf_known | contradiction].
Qed.

Lemma dollarForm_intro (pre ws : jsstring) (c : N) (post : jsstring) :
  forallb isWhite ws = true -> isNumComma c = true ->
  dollarForm (pre ++ [36] ++ ws ++ c :: post).
Proof. intros Hws Hc; exists pre, ws, c, post; auto. Qed.

Lemma codeForm_intro (pre : jsstring) (c : N) (ws code post : jsstring) :
  isNumComma c = true -> forallb isWhite ws = true ->
  toLowerCase code = u "usd" ->
  codeForm (pre ++ c :: [] ++ ws ++ code ++ post).
Proof.
  intros Hc Hws Hcode; exists pre, c, [], ws, code, post.
  repeat split; auto; left; reflexivity.
Qed.

Lemma X14_witness_plain_text :
  App.detectValueTier (u "The customer asked for a refund.") = tierUnknown
  /\ ~ dollarForm (u "The customer paid 90 USD.").
Proof.
  split.
  - apply (proj1 (X14_unknown_iff_no_amount
                    (u "The customer asked for a refund."))).
    split; intros H.
    + apply dollarForm_sign in H; vm_compute in H; intuition discriminate.
    + apply codeForm_sign in H; vm_compute in H; discriminate.
  - apply (proj2 (X14_unknown_iff_no_amount (u "The customer paid 90 USD."))).
    vm_compute; reflexivity.
Defined.

Lemma X15_witness_ninety_usd :
  (App.detectValueTier (u "Paid $40 of 90 USD")
   = Enhanced.detectValueTier (u "Paid $40 of 90 USD"))
  /\ (Enhanced.detectValueTier (u "The customer paid 90 USD.") = tierUnknown
      /\ App.detectValueTier (u "The customer paid 90 USD.")
         <> tierUnknown).
Proof.
  split.
  - apply (proj1 (X15_files_differ_on_usd_only (u "Paid $40 of 90 USD"))).
    left; exact (dollarForm_intro (u "Paid ") [] 52 (u "0 of 90 USD")
                   eq_refl eq_refl).
  - apply (proj2 (X15_files_differ_on_usd_only
                    (u "The customer paid 90 USD."))).
    + intros H; apply dollarForm_sign in H; vm_compute in H.
      intuition discriminate.
    + exact (codeForm_intro (u "The customer paid 9") 48 (u " ") (u "USD")
               (u ".") eq_refl eq_refl eq_refl).
Defined.

(** ** Numerals with separators *)

Lemma removeCommas_idem (s : jsstring) :
  removeCommas (removeCommas s) = removeCommas s.
Proof.
  unfold removeCommas.
  induction s as [| c s IH]; [reflexivity |]; cbn.
  destruct (c =? 44) eqn:E; cbn; [exact IH |].
  rewrite E; cbn; f_equal; exact IH.
Qed.

Lemma removeCommas_numComma (run : jsstring) :
  forallb isNumComma run = true ->
  forallb isDigit (removeCommas run) = true
  /\ (existsb isDigit run = true -> removeCommas run <> []).
Proof.
  unfold removeCommas.
  induction run as [| c run IH]; cbn; [split; [reflexivity | discriminate] |].
  intros H; apply andb_true_iff in H; destruct H as [Hc Hrun].
  destruct (IH Hrun) as [Hd Hne].
  unfold isNumComma in Hc.
  destruct (c =? 44) eqn:E; cbn.
  - split; [exact Hd |].
    apply N.eqb_eq in E; subst c; cbn; exact Hne.
  - rewrite orb_false_r in Hc; rewrite Hc; cbn.
    split; [exact Hd | discriminate].
Qed.

(** The dollar pattern on a run of digits and commas. *)
Lemma matchDollar_run (pre run post : jsstring) :
  matchDollar pre = None -> forallb isNumComma run = true -> run <> [] ->
  stopsAt isNumComma post = true ->
  matchDollar (pre ++ u "$" ++ run ++ post) = Some (run ++ fractionAt post).
Proof.
  intros Hpre Hrun Hne Hstop.
  change (u "$" ++ run ++ post) with (36 :: run ++ post).
  rewrite (matchDollar_skip pre _ Hpre).
  cbn [matchDollar]; rewrite N.eqb_refl.
  assert (Hd : dropWhile isWhite (run ++ post) = run ++ post).
  { destruct run as [| c run]; [congruence |].
    cbn in Hrun |- *; apply andb_true_iff in Hrun; destruct Hrun as [Hc _].
    rewrite (isNumComma_not_white c Hc); reflexivity. }
  rewrite Hd.
  rewrite (numeralAt_run _ run (takeWhile_app isNumComma run post Hrun Hstop)
             Hne).
  rewrite skipn_length_app; reflexivity.
Qed.

Lemma fractionAt_no_comma (s : jsstring) :
  removeCommas (fractionAt s) = fractionAt s.
Proof.
  destruct (fractionAt_split s) as [[-> | [(d & -> & Hd) | (d1 & d2 & -> & Hd1 & Hd2)]] _];
    [reflexivity | |]; unfold removeCommas; cbn [filter];
    rewrite ?(isDigit_not_comma _ Hd), ?(isDigit_not_comma _ Hd1),
            ?(isDigit_not_comma _ Hd2); reflexivity.
Qed.

(** X16: thousands separators do not count: a numeral of digits and commas
    after the dollar sign gives the tier of the same numeral written without
    its commas, in both files. *)
Theorem X16_separators_are_ignored :
  forall pre run post : jsstring,
    matchDollar pre = None ->
    forallb isNumComma run = true -> existsb isDigit run = true ->
    stopsAt isNumComma post = true ->
    App.detectValueTier (pre ++ u "$" ++ run ++ post)
    = App.detectValueTier (pre ++ u "$" ++ removeCommas run ++ post)
    /\ Enhanced.detectValueTier (pre ++ u "$" ++ run ++ post)
       = Enhanced.detectValueTier (pre ++ u "$" ++ removeCommas run ++ post).
Proof.
  intros pre run post Hpre Hrun Hdig Hstop.
  destruct (removeCommas_numComma run Hrun) as [Hd Hne].
  assert (Hne' : run <> []) by (destruct run; [discriminate | discriminate]).
  unfold App.detectValueTier, Enhanced.detectValueTier.
  rewrite (matchDollar_run pre run post Hpre Hrun Hne' Hstop).
  rewrite (matchDollar_run pre (removeCommas run) post Hpre
             (forallb_digits_numComma _ Hd) (Hne Hdig) Hstop).
  rewrite !removeCommas_app, removeCommas_idem.
  assert (Ht : forall x, truthy (pre ++ u "$" ++ x) = true)
    by (intros x; destruct pre; reflexivity).
  rewrite !Ht; split; reflexivity.
Qed.

Lemma X16_witness_twelve_hundred :
  App.detectValueTier (u "Total $1,250 paid")
  = App.detectValueTier (u "Total $1250 paid").
Proof.
  apply (X16_separators_are_ignored (u "Total ") (u "1,250") (u " paid"));
    reflexivity.
Defined.

(** X17: a dollar sign followed by commas alone is read as an amount:
    nothing is left to parse, the number is [NaN], the comparison with 125
    fails and the tier is the high one, in both files. *)
Theorem X17_commas_alone_are_high :
  forall pre commas post : jsstring,
    matchDollar pre = None ->
    commas <> [] -> forallb (fun c => c =? 44) commas = true ->
    stopsAt isNumComma post = true -> fractionAt post = [] ->
    App.detectValueTier (pre ++ u "$" ++ commas ++ post) = tierHigh
    /\ Enhanced.detectValueTier (pre ++ u "$" ++ commas ++ post) = tierHigh.
Proof.
  intros pre commas post Hpre Hne Hall Hstop Hfrac.
  assert (Hrun : forallb isNumComma commas = true).
  { clear Hne; induction commas as [| c cs IH]; [reflexivity |].
    cbn in Hall |- *; apply andb_true_iff in Hall; destruct Hall as [Hc Hcs].
    unfold isNumComma; rewrite Hc, orb_true_r; exact (IH Hcs). }
  assert (Hrem : removeCommas commas = []).
  { clear Hne Hrun; unfold removeCommas.
    induction commas as [| c cs IH]; [reflexivity |].
    cbn in Hall |- *; apply andb_true_iff in Hall; destruct Hall as [Hc Hcs].
    rewrite Hc; exact (IH Hcs). }
  unfold App.detectValueTier, Enhanced.detectValueTier.
  rewrite (matchDollar_run pre commas post Hpre Hrun Hne Hstop).
  rewrite Hfrac, app_nil_r, Hrem.
  assert (Ht : truthy (pre ++ u "$" ++ commas ++ post) = true)
    by (destruct pre; reflexivity).
  rewrite Ht; split; reflexivity.
Qed.

Lemma X17_witness_lone_comma :
  App.detectValueTier (u "Price: $, please advise") = tierHigh.
Proof.
  apply (X17_commas_alone_are_high (u "Price: ") (u ",")
           (u " please advise"));
    try reflexivity; discriminate.
Defined.

End ValueTierMore.

(* ================================================================== *)
(** * Written amounts and the threshold *)
(* ================================================================== *)

Section WrittenAmounts.

Import Str Amount Terms.
Open Scope N_scope.

(** A writing with separators is a run of digits and commas that
    [replace(/,/g, '')] takes back to the digits. *)
Lemma separated_run (ds w : jsstring) :
  separated ds w ->
  forallb isNumComma w = true /\ removeCommas w = ds
  /\ (ds <> [] -> w <> []).
Proof.
  induction 1 as [| c ds w Hc _ (Hrun & Hrem & _) | ds w _ (Hrun & Hrem & Hne)].
  - split; [reflexivity |]; split; [reflexivity | auto].
  - split; [| split; [| discriminate]].
    + cbn; rewrite (isDigit_isNumComma c Hc), Hrun; reflexivity.
    + unfold removeCommas in *; cbn.
      rewrite (isDigit_not_comma c Hc); cbn; rewrite Hrem; reflexivity.
  - split; [| split; [| discriminate]].
    + cbn; exact Hrun.
    + unfold removeCommas in *; cbn; exact Hrem.
Qed.

(** The decimals of an amount, when the text does not run on, are what the
    optional group of the pattern takes. *)
Lemma decimals_taken (a : amount) (post : jsstring) :
  wellFormed a -> runsOn a post = false ->
  stopsAt isNumComma (showDecimals a ++ post) = true
  /\ fractionAt (showDecimals a ++ post) = showDecimals a
  /\ removeCommas (showDecimals a) = showDecimals a.
Proof.
  intros Hwf Hrun.
  destruct a as [d | d t | d c]; cbn [showDecimals app].
  - destruct (runsOn_stops d post Hrun) as [Hstop Hfrac]; auto.
  - cbn in Hwf; destruct (tenth_digit t Hwf) as [Hx _].
    split; [reflexivity |]; split.
    + unfold fractionAt; rewrite Hx; cbn [N.eqb Pos.eqb andb].
      destruct post as [| y post]; [reflexivity |].
      cbn in Hrun; rewrite Hrun; reflexivity.
    + unfold removeCommas; cbn [filter].
      rewrite (isDigit_not_comma _ Hx); reflexivity.
  - cbn in Hwf; destruct (cents_digits c Hwf) as (Hx & Hy & _).
    split; [reflexivity |]; split.
    + unfold fractionAt; rewrite Hx, Hy; reflexivity.
    + unfold removeCommas; cbn [filter].
      rewrite (isDigit_not_comma _ Hx), (isDigit_not_comma _ Hy).
      reflexivity.
Qed.

(** The dollar pattern passes over white space between the sign and the
    numeral. *)
Lemma matchDollar_spaced_run (pre ws run post : jsstring) :
  matchDollar pre = None -> forallb isWhite ws = true ->
  forallb isNumComma run = true -> run <> [] ->
  stopsAt isNumComma post = true ->
  matchDollar (pre ++ u "$" ++ ws ++ run ++ post)
  = Some (run ++ fractionAt post).
Proof.
  intros Hpre Hws Hrun Hne Hstop.
  change (u "$" ++ ws ++ run ++ post) with (36 :: ws ++ run ++ post).
  rewrite (matchDollar_skip pre _ Hpre).
  cbn [matchDollar]; rewrite N.eqb_refl.
  rewrite (dropWhile_app_all isWhite ws _ Hws).
  assert (Hd : dropWhile isWhite (run ++ post) = run ++ post).
  { destruct run as [| c run]; [congruence |].
    cbn in Hrun |- *; apply andb_true_iff in Hrun; destruct Hrun as [Hc _].
    rewrite (isNumComma_not_white c Hc); reflexivity. }
  rewrite Hd.
  rewrite (numeralAt_run _ run (takeWhile_app isNumComma run post Hrun Hstop)
             Hne).
  rewrite skipn_length_app; reflexivity.
Qed.

Lemma tier_of_written_amount (pre ws ip post : jsstring) (a : amount) :
  matchDollar pre = None -> forallb isWhite ws = true ->
  wellFormed a -> separated (showN (wholeDollars a)) ip ->
  runsOn a post = false ->
  App.detectValueTier (pre ++ u "$" ++ ws ++ ip ++ showDecimals a ++ post)
  = tierOf (Some (hundredths a))
  /\ Enhanced.detectValueTier
       (pre ++ u "$" ++ ws ++ ip ++ showDecimals a ++ post)
     = tierOf (Some (hundredths a)).
Proof.
  intros Hpre Hws Hwf Hsep Hrun.
  destruct (separated_run _ _ Hsep) as (Hip & Hrem & Hne).
  destruct (decimals_taken a post Hwf Hrun) as (Hstop & Hfrac & Hdec).
  unfold App.detectValueTier, Enhanced.detectValueTier.
  rewrite (matchDollar_spaced_run pre ws ip (showDecimals a ++ post)
             Hpre Hws Hip (Hne (showN_nonempty _)) Hstop).
  rewrite Hfrac, removeCommas_app, Hrem, Hdec.
  rewrite (parseFloat_amount a Hwf).
  assert (Ht : truthy (pre ++ u "$" ++ ws ++ ip ++ showDecimals a ++ post)
               = true)
    by (destruct pre; reflexivity).
  rewrite Ht; split; reflexivity.
Qed.

(** ** The pattern of the specification and the forms the code looks for *)

Lemma specDollarPattern_form (text : jsstring) :
  specDollarPattern text = true -> dollarForm text.
Proof.
  induction text as [| c rest IH]; [discriminate |].
  cbn [specDollarPattern]; intros H.
  apply orb_true_iff in H; destruct H as [H | H];
    [| apply dollarForm_cons, IH, H].
  apply andb_true_iff in H; destruct H as [Hc Hd].
  apply N.eqb_eq in Hc; subst c.
  destruct rest as [| d post]; [discriminate |].
  exists [], [], d, post.
  split; [reflexivity |]; split; [reflexivity |].
  apply isDigit_isNumComma, Hd.
Qed.

Lemma specCodePattern_form (text : jsstring) :
  specCodePattern text = true -> codeForm text.
Proof.
  induction text as [| c rest IH]; [discriminate |].
  cbn [specCodePattern]; intros H.
  apply orb_true_iff in H; destruct H as [H | H];
    [| apply codeForm_cons, IH, H].
  apply andb_true_iff in H; destruct H as [Hc Hs].
  destruct (startsWith_lower _ _ Hs) as (code & post & -> & Hcode).
  exists [], c, [], [], code, post.
  split; [reflexivity |].
  split; [apply isDigit_isNumComma, Hc |].
  split; [left; reflexivity |]; split; [reflexivity | exact Hcode].
Qed.

(** C5 (as amended): an amount written after a dollar sign - whole dollars
    with or without thousands separators, then no, one or two decimals,
    white space allowed between the sign and the numeral, nothing before
    the sign reading as a dollar amount and the text after the numeral not
    running on into it - gives the low tier when it is at most 125 and the
    high tier when it exceeds 125, in both files.  A text in which no dollar
    sign is followed, after optional white space, by a digit or a comma, and
    no digit or comma, with its optional decimals, is followed, after
    optional white space, by USD in any case, gives Unknown in [app.js]; in
    the enhanced file, which only knows the dollar form, the first condition
    is enough.  Such texts show no currency pattern in the words of the
    specification either. *)
Theorem C5_detectValueTier_threshold :
  (forall (pre ws ip post : jsstring) (a : amount),
     matchDollar pre = None -> forallb isWhite ws = true ->
     wellFormed a -> separated (showN (wholeDollars a)) ip ->
     runsOn a post = false ->
     let text := pre ++ u "$" ++ ws ++ ip ++ showDecimals a ++ post in
     ((hundredths a <= 12500)%Z ->
      App.detectValueTier text = tierLow
      /\ Enhanced.detectValueTier text = tierLow)
     /\ ((12500 < hundredths a)%Z ->
         App.detectValueTier text = tierHigh
         /\ Enhanced.detectValueTier text = tierHigh))
  /\ (forall text : jsstring,
        ~ dollarForm text -> ~ codeForm text ->
        App.detectValueTier text = tierUnknown
        /\ specCurrencyPattern text = false)
  /\ (forall text : jsstring,
        ~ dollarForm text ->
        Enhanced.detectValueTier text = tierUnknown
        /\ specDollarPattern text = false).
Proof.
  split; [| split].
  - intros pre ws ip post a Hpre Hws Hwf Hsep Hrun text.
    destruct (tier_of_written_amount pre ws ip post a Hpre Hws Hwf Hsep Hrun)
      as [Ha He].
    destruct (tierOf_threshold (hundredths a)) as [Hlow Hhigh].
    subst text; rewrite Ha, He.
    split; intros H; [rewrite (Hlow H) | rewrite (Hhigh H)]; auto.
  - intros text Hd Hc; split.
    + unfold App.detectValueTier.
      destruct (truthy text); [| reflexivity]; cbn [negb].
      destruct (matchDollar text) as [cap |] eqn:Hm;
        [elim Hd; exact (matchDollar_form _ _ Hm) |].
      destruct (matchUsdCode text) as [cap |] eqn:Hu;
        [elim Hc; exact (matchUsdCode_form _ _ Hu) | reflexivity].
    + unfold specCurrencyPattern.
      destruct (specDollarPattern text) eqn:H1;
        [elim Hd; exact (specDollarPattern_form _ H1) |].
      destruct (specCodePattern text) eqn:H2;
        [elim Hc; exact (specCodePattern_form _ H2) | reflexivity].
  - intros text Hd; split.
    + unfold Enhanced.detectValueTier.
      destruct (truthy text); [| reflexivity]; cbn [negb].
      destruct (matchDollar text) as [cap |] eqn:Hm;
        [elim Hd; exact (matchDollar_form _ _ Hm) | reflexivity].
    + destruct (specDollarPattern text) eqn:H1;
        [elim Hd; exact (specDollarPattern_form _ H1) | reflexivity].
Qed.

Lemma C5_witness_written_amounts :
  (App.detectValueTier
     (u "We issued a partial refund of $50 to the customer.") = tierLow
   /\ Enhanced.detectValueTier
        (u "Paid $ 125.00 on the day, then $300 more.") = tierLow)
  /\ (App.detectValueTier (u "Charged EUR 40, $125.1 in total") = tierHigh
      /\ Enhanced.detectValueTier (u "Total $1,250.50 paid") = tierHigh)
  /\ App.detectValueTier (u "The customer asked for a refund.") = tierUnknown
  /\ Enhanced.detectValueTier (u "The customer paid 90 USD.") = tierUnknown.
Proof.
  destruct C5_detectValueTier_threshold as (Hamount & Hnone & Hnone').
  assert (H50 : separated (showN 50) (u "50"))
    by (vm_compute; repeat constructor).
  assert (H125 : separated (showN 125) (u "125"))
    by (vm_compute; repeat constructor).
  assert (H1250 : separated (showN 1250) (u "1,250"))
    by (vm_compute; repeat constructor).
  split; [split | split; [split | split]].
  - apply (Hamount (u "We issued a partial refund of ") []
             (u "50") (u " to the customer.") (Dollars 50));
      [reflexivity | reflexivity | exact I | exact H50 | reflexivity
      | vm_compute; discriminate].
  - apply (Hamount (u "Paid ") (u " ") (u "125")
             (u " on the day, then $300 more.") (DollarsCents 125 0));
      [reflexivity | reflexivity | reflexivity | exact H125 | reflexivity
      | vm_compute; discriminate].
  - apply (Hamount (u "Charged EUR 40, ") [] (u "125") (u " in total")
             (DollarsTenths 125 1));
      [reflexivity | reflexivity | reflexivity | exact H125 | reflexivity
      | vm_compute; reflexivity].
  - apply (Hamount (u "Total ") [] (u "1,250") (u " paid")
             (DollarsCents 1250 50));
      [reflexivity | reflexivity | reflexivity | exact H1250 | reflexivity
      | vm_compute; reflexivity].
  - apply Hnone; intros H.
    + apply dollarForm_sign in H; vm_compute in H; intuition discriminate.
    + apply codeForm_sign in H; vm_compute in H; discriminate.
  - apply Hnone'; intros H.
    apply dollarForm_sign in H; vm_compute in H; intuition discriminate.
Defined.

(** C5, as the claim states it, fails: texts that show no currency pattern
    in the words of the specification and yet get a tier.  White space
    between the sign and the numeral, or between the numeral and the code,
    is passed over by the two patterns of the source; a comma alone counts
    as the numeral for them. *)
Lemma C5_tier_without_currency_pattern :
  (specCurrencyPattern (u "Refund of $ 50 issued") = false
   /\ App.detectValueTier (u "Refund of $ 50 issued") = tierLow
   /\ Enhanced.detectValueTier (u "Refund of $ 50 issued") = tierLow)
  /\ (specCurrencyPattern (u "Refund of 50 USD issued") = false
      /\ App.detectValueTier (u "Refund of 50 USD issued") = tierLow)
  /\ (specCurrencyPattern (u "Price: $, please advise") = false
      /\ App.detectValueTier (u "Price: $, please advise") = tierHigh
      /\ Enhanced.detectValueTier (u "Price: $, please advise") = tierHigh)
  /\ (specCurrencyPattern (u "We accept EUR, USD and GBP") = false
      /\ App.detectValueTier (u "We accept EUR, USD and GBP") = tierHigh).
Proof. vm_compute; repeat split. Qed.

End WrittenAmounts.

(* ================================================================== *)
(** * The observed-action sentence *)
(* ================================================================== *)

Section SentenceFacts.

Import Str Re Sentence.
Open Scope N_scope.

(** What the lazy part of the pattern takes: code units that are neither a
    point nor a line terminator, closed by the first point, or running to
    the end of the text. *)
Lemma upToStop_shape (r t : jsstring) :
  upToStop r = Some t ->
  exists body,
    forallb (fun c => negb (c =? 46) && negb (isLineTerminator c)) body = true
    /\ ((t = body ++ [46] /\ exists post, r = t ++ post)
        \/ (t = body /\ r = t)).
Proof.
  revert t; induction r as [| c r IH]; intros t; cbn [upToStop].
  - intros [= <-]; exists []; split; [reflexivity | right; auto].
  - destruct (N.eqb_spec c 46) as [-> | Hc].
    + intros [= <-]; exists []; split; [reflexivity |].
      left; split; [reflexivity | exists r; reflexivity].
    + destruct (isLineTerminator c) eqn:Hlt; [discriminate |].
      destruct (upToStop r) as [t' |]; [| discriminate].
      intros [= <-].
      destruct (IH t' eq_refl) as (body & Hbody & Hshape).
      exists (c :: body); split.
      * cbn; rewrite Hbody, Hlt.
        destruct (N.eqb_spec c 46); [contradiction | reflexivity].
      * destruct Hshape as [[-> (post & ->)] | [-> ->]].
        -- left; split; [reflexivity | exists post; reflexivity].
        -- right; split; reflexivity.
Qed.

Lemma startsWith_lower_split (p s : jsstring) :
  startsWith p (toLowerCase s) = true ->
  toLowerCase (firstn (List.length p) s) = p
  /\ s = firstn (List.length p) s ++ skipn (List.length p) s.
Proof.
  intros H; split; [| symmetry; apply firstn_skipn].
  revert s H; induction p as [| x p IH]; intros s H; [reflexivity |].
  destruct s as [| y s]; [discriminate |].
  cbn in H; apply andb_true_iff in H; destruct H as [Hxy H].
  apply N.eqb_eq in Hxy.
  cbn; unfold toLowerCase in IH; rewrite (IH s H), Hxy; reflexivity.
Qed.

(** X18: the observed action that [runAudit] cuts out of the comment is a
    piece of the comment that begins with the word "refund" in any case and
    goes on, without a point or a line break inside, up to and including the
    first point, or to the very end of the comment when no point follows.
    Whatever stands before the word - "full", "partial", "no" - is not part
    of it. *)
Theorem X18_observed_sentence_shape :
  forall s m : jsstring,
    matchRefund s = Some m ->
    exists pre word body,
      toLowerCase word = u "refund"
      /\ forallb (fun c => negb (c =? 46) && negb (isLineTerminator c)) body
         = true
      /\ ((m = word ++ body ++ [46] /\ exists post, s = pre ++ m ++ post)
          \/ (m = word ++ body /\ s = pre ++ m)).
Proof.
  intros s; induction s as [| c s IH]; intros m.
  - cbn; discriminate.
  - cbn [matchRefund].
    destruct (startsWith (u "refund") (toLowerCase (c :: s))) eqn:Hs.
    + destruct (upToStop (skipn 6 (c :: s))) as [tail |] eqn:Hu.
      * intros [= <-].
        destruct (startsWith_lower_split _ _ Hs) as [Hword Hsplit].
        change (List.length (u "refund")) with 6%nat in Hword, Hsplit.
        destruct (upToStop_shape _ _ Hu) as (body & Hbody & Hshape).
        exists [], (firstn 6 (c :: s)), body.
        split; [exact Hword |]; split; [exact Hbody |].
        destruct Hshape as [[-> (post & Hpost)] | [-> Hend]].
        -- left; split; [reflexivity |].
           exists post; cbn [app]; rewrite <- app_assoc, <- Hpost.
           exact Hsplit.
        -- right; split; [reflexivity |].
           cbn [app]; rewrite <- Hend; exact Hsplit.
      * intros H.
        destruct (IH m H) as (pre & word & body & Hw & Hb & Hshape).
        exists (c :: pre), word, body.
        split; [exact Hw |]; split; [exact Hb |].
        destruct Hshape as [[Hm (post & ->)] | [Hm ->]].
        -- left; split; [exact Hm | exists post; reflexivity].
        -- right; split; [exact Hm | reflexivity].
    + intros H.
      destruct (IH m H) as (pre & word & body & Hw & Hb & Hshape).
      exists (c :: pre), word, body.
      split; [exact Hw |]; split; [exact Hb |].
      destruct Hshape as [[Hm (post & ->)] | [Hm ->]].
      * left; split; [exact Hm | exists post; reflexivity].
      * right; split; [exact Hm | reflexivity].
Qed.

Lemma X18_witness_partial_refund :
  exists pre word body,
    toLowerCase word = u "refund"
    /\ forallb (fun c => negb (c =? 46) && negb (isLineTerminator c)) body
       = true
    /\ ((u "Refund of $50 to the customer." = word ++ body ++ [46]
         /\ exists post,
              u "We issued a partial Refund of $50 to the customer. Bye"
              = pre ++ u "Refund of $50 to the customer." ++ post)
        \/ (u "Refund of $50 to the customer." = word ++ body
            /\ u "We issued a partial Refund of $50 to the customer. Bye"
               = pre ++ u "Refund of $50 to the customer.")).
Proof.
  apply (X18_observed_sentence_shape
           (u "We issued a partial Refund of $50 to the customer. Bye")
           (u "Refund of $50 to the customer.")).
  vm_compute; reflexivity.
Defined.

Lemma upToStop_total (r : jsstring) :
  forallb (fun c => negb (isLineTerminator c)) r = true ->
  upToStop r <> None.
Proof.
  induction r as [| c r IH]; cbn; [discriminate |].
  intros H; apply andb_true_iff in H; destruct H as [Hc Hr].
  destruct (c =? 46); [discriminate |].
  destruct (isLineTerminator c); [discriminate |].
  destruct (upToStop r); [discriminate | elim (IH Hr); reflexivity].
Qed.

Lemma forallb_skipn (f : N -> bool) (n : nat) (s : jsstring) :
  forallb f s = true -> forallb f (skipn n s) = true.
Proof.
  revert s; induction n as [| n IH]; intros s H; [exact H |].
  destruct s as [| c s]; [reflexivity |].
  cbn in H |- *; apply andb_true_iff in H; destruct H as [_ H].
  exact (IH s H).
Qed.

(** X19: a comment that does not hold the word "refund" yields no observed
    action - [app.js] then reports the empty string and the refund type
    "Unknown" - and a comment of one line that holds the word always yields
    one. *)
Theorem X19_observed_sentence_presence :
  forall s : jsstring,
    (test_ci (u "refund") s = false -> matchRefund s = None)
    /\ (forallb (fun c => negb (isLineTerminator c)) s = true ->
        test_ci (u "refund") s = true -> matchRefund s <> None)
    /\ (forall now grid inputs,
          App.latestComment inputs = s ->
          test_ci (u "refund") s = false ->
          App.Refund_Verdict_Detail (App.runAudit now grid inputs) = []
          /\ App.Refund_Type_Verdict (App.runAudit now grid inputs)
             = u "Unknown").
Proof.
  intros s.
  assert (Hnone : test_ci (u "refund") s = false -> matchRefund s = None).
  { unfold test_ci, toLowerCase.
    induction s as [| c s IH]; [reflexivity |].
    cbn [map]; rewrite includes_cons; intros H.
    apply orb_false_iff in H; destruct H as [H1 H2].
    cbn [matchRefund]; unfold toLowerCase; cbn [map]; rewrite H1.
    exact (IH H2). }
  split; [exact Hnone |]; split.
  - clear Hnone; unfold test_ci, toLowerCase.
    induction s as [| c s IH]; [discriminate |].
    intros Hlt; cbn [map]; rewrite includes_cons; intros H.
    cbn [matchRefund]; unfold toLowerCase; cbn [map].
    destruct (startsWith (u "refund") (lowerUnit c :: map lowerUnit s)).
    + pose proof (upToStop_total _ (forallb_skipn _ 6 _ Hlt)) as Ht.
      destruct (upToStop (skipn 6 (c :: s))); [discriminate | contradiction].
    + cbn [orb] in H.
      cbn in Hlt; apply andb_true_iff in Hlt; destruct Hlt as [_ Hlt].
      exact (IH Hlt H).
  - intros now grid inputs <- H.
    unfold App.runAudit; cbn [App.latestComment].
    rewrite (Hnone H).
    split; reflexivity.
Qed.

Lemma X19_witness_two_comments :
  matchRefund (u "Please call me back about my booking.") = None
  /\ matchRefund (u "Customer asks for a REFUND today") <> None.
Proof.
  split.
  - apply (proj1 (X19_observed_sentence_presence
                    (u "Please call me back about my booking."))).
    reflexivity.
  - apply (proj1 (proj2 (X19_observed_sentence_presence
                           (u "Customer asks for a REFUND today"))));
      reflexivity.
Defined.

End SentenceFacts.

(* ================================================================== *)
(** * The gathered inputs *)
(* ================================================================== *)

Section GatherFacts.

Import Str Gather.
Open Scope N_scope.

Lemma dropWhile_stopsAt (f : N -> bool) (s : jsstring) :
  stopsAt f (dropWhile f s) = true.
Proof.
  induction s as [| c s IH]; [reflexivity |].
  cbn; destruct (f c) eqn:Hc; [exact IH | cbn; rewrite Hc; reflexivity].
Qed.

Lemma takeWhile_longest (f : N -> bool) (d r : jsstring) :
  forallb f d = true ->
  (List.length d <= List.length (takeWhile f (d ++ r)))%nat.
Proof.
  induction d as [| c d IH]; cbn; [lia |].
  intros H; apply andb_true_iff in H; destruct H as [Hc Hd].
  rewrite Hc; cbn; apply le_n_S; exact (IH Hd).
Qed.

(** No four digits in a row anywhere in the text. *)
Lemma matchDigits4_none (s : jsstring) :
  matchDigits4 s = None <->
  (forall a d b, s = a ++ d ++ b -> forallb isDigit d = true ->
                 (List.length d < 4)%nat).
Proof.
  induction s as [| c s IH].
  - split; [| reflexivity].
    intros _ a d b H _.
    destruct a; [destruct d; [cbn; lia | discriminate] | discriminate].
  - cbn [matchDigits4]; cbv zeta.
    destruct (4 <=? List.length (takeWhile isDigit (c :: s)))%nat eqn:Hlen.
    + split; [discriminate |].
      intros H; exfalso.
      apply Nat.leb_le in Hlen.
      pose proof (H [] (takeWhile isDigit (c :: s))
                    (dropWhile isDigit (c :: s))
                    (takeWhile_dropWhile isDigit (c :: s))
                    (takeWhile_all isDigit (c :: s))).
      lia.
    + apply Nat.leb_gt in Hlen.
      rewrite IH; split; intros H a d b Heq Hd.
      * destruct a as [| x a].
        -- cbn [app] in Heq.
           pose proof (takeWhile_longest isDigit d b Hd) as Hle.
           rewrite <- Heq in Hle; lia.
        -- injection Heq as _ Heq; exact (H a d b Heq Hd).
      * apply (H (c :: a) d b); [cbn; rewrite Heq; reflexivity | exact Hd].
Qed.

Lemma stopsAt_rev_cons (f : N -> bool) (c : N) (pre : jsstring) :
  pre <> [] -> stopsAt f (rev (c :: pre)) = stopsAt f (rev pre).
Proof.
  intros Hpre; cbn [rev].
  destruct (rev pre) as [| x rp] eqn:Hrev; [| reflexivity].
  apply (f_equal (@rev N)) in Hrev; rewrite rev_involutive in Hrev.
  contradiction.
Qed.

Lemma matchDigits4_shape (s m : jsstring) :
  matchDigits4 s = Some m ->
  exists pre post,
    s = pre ++ m ++ post
    /\ forallb isDigit m = true /\ (4 <= List.length m)%nat
    /\ stopsAt isDigit post = true
    /\ stopsAt isDigit (rev pre) = true
    /\ matchDigits4 pre = None.
Proof.
  revert m; induction s as [| c s IH]; intros m; [discriminate |].
  cbn [matchDigits4]; cbv zeta.
  destruct (4 <=? List.length (takeWhile isDigit (c :: s)))%nat eqn:Hlen.
  - intros [= <-]; apply Nat.leb_le in Hlen.
    exists [], (dropWhile isDigit (c :: s)).
    split; [exact (takeWhile_dropWhile isDigit (c :: s)) |].
    split; [exact (takeWhile_all isDigit (c :: s)) |].
    split; [exact Hlen |].
    split; [exact (dropWhile_stopsAt isDigit (c :: s)) |]; split; reflexivity.
  - intros H; apply Nat.leb_gt in Hlen.
    destruct (IH m H) as (pre & post & Hs & Hm & Hl & Hpost & Hrev & Hpre).
    exists (c :: pre), post.
    split; [cbn; rewrite Hs; reflexivity |].
    split; [exact Hm |]; split; [exact Hl |]; split; [exact Hpost |].
    split.
    + destruct pre as [| x pre].
      * cbn; destruct (isDigit c) eqn:Hc; [exfalso | reflexivity].
        cbn [app] in Hs.
        pose proof (takeWhile_longest isDigit m post Hm) as Hle.
        rewrite <- Hs in Hle.
        cbn [takeWhile] in Hlen; rewrite Hc in Hlen; cbn in Hlen; lia.
      * rewrite stopsAt_rev_cons; [exact Hrev | discriminate].
    + cbn [matchDigits4]; cbv zeta.
      assert (Hshort : (List.length (takeWhile isDigit (c :: pre)) < 4)%nat).
      { pose proof (takeWhile_longest isDigit (takeWhile isDigit (c :: pre))
                      (dropWhile isDigit (c :: pre) ++ m ++ post)
                      (takeWhile_all isDigit (c :: pre))) as Hle.
        rewrite app_assoc, <- takeWhile_dropWhile in Hle.
        change ((c :: pre) ++ m ++ post) with (c :: pre ++ m ++ post) in Hle.
        rewrite <- Hs in Hle; lia. }
      apply Nat.leb_gt in Hshort; rewrite Hshort; exact Hpre.
Qed.

(** X20: the number that [/\d{4,}/] finds in the subject is its first run
    of four digits or more, taken whole: every code unit of the match is a
    digit, no digit follows it or stands right before it, and no four
    digits in a row occur in the text before it. *)
Theorem X20_digits_match_is_first_whole_run :
  forall s m : jsstring,
    matchDigits4 s = Some m ->
    exists pre post,
      s = pre ++ m ++ post
      /\ forallb isDigit m = true /\ (4 <= List.length m)%nat
      /\ stopsAt isDigit post = true
      /\ stopsAt isDigit (rev pre) = true
      /\ (forall a d b, pre = a ++ d ++ b -> forallb isDigit d = true ->
                        (List.length d < 4)%nat).
Proof.
  intros s m H.
  destruct (matchDigits4_shape s m H)
    as (pre & post & Hs & Hm & Hl & Hpost & Hrev & Hpre).
  exists pre, post.
  split; [exact Hs |]; split; [exact Hm |]; split; [exact Hl |].
  split; [exact Hpost |]; split; [exact Hrev |].
  apply matchDigits4_none; exact Hpre.
Qed.

Lemma X20_witness_order_number :
  exists pre post,
    u "Order 123 / booking 4567890: refund" = pre ++ u "4567890" ++ post
    /\ forallb isDigit (u "4567890") = true
    /\ (4 <= List.length (u "4567890"))%nat
    /\ stopsAt isDigit post = true
    /\ stopsAt isDigit (rev pre) = true
    /\ (forall a d b, pre = a ++ d ++ b -> forallb isDigit d = true ->
                      (List.length d < 4)%nat).
Proof.
  apply (X20_digits_match_is_first_whole_run
           (u "Order 123 / booking 4567890: refund") (u "4567890")).
  vm_compute; reflexivity.
Defined.



(** X22: the experience type handed to the audit is never empty.  The
    first custom field whose key holds "experience" or "type" (in any case)
    decides alone: its value is taken, or "Unknown" when that value is
    missing or empty, whatever later fields hold; without such a field, or
    without custom fields, the type is "Unknown". *)
Theorem X22_experience_type_first_key :
  forall t : Ticket,
    experienceTypeOf t <> []
    /\ (forall pre key val post,
          customField t = Some (pre ++ (key, val) :: post) ->
          forallb (fun kv => negb (isTypeKey (fst kv))) pre = true ->
          isTypeKey key = true ->
          experienceTypeOf t = orDefault val (u "Unknown"))
    /\ (forall entries,
          customField t = Some entries ->
          forallb (fun kv => negb (isTypeKey (fst kv))) entries = true ->
          experienceTypeOf t = u "Unknown")
    /\ (customField t = None -> experienceTypeOf t = u "Unknown").
Proof.
  intros t.
  assert (Hdef : forall v, orDefault v (u "Unknown") <> []).
  { intros [[| c v] |]; discriminate. }
  assert (Hfind : forall pre key val post,
            forallb (fun kv : jsstring * option jsstring =>
                       negb (isTypeKey (fst kv))) pre = true ->
            isTypeKey key = true ->
            find (fun kv => isTypeKey (fst kv)) (pre ++ (key, val) :: post)
            = Some (key, val)).
  { intros pre key val post Hpre Hkey.
    induction pre as [| [k v] pre IH]; cbn.
    - rewrite Hkey; reflexivity.
    - cbn in Hpre; apply andb_true_iff in Hpre; destruct Hpre as [Hk Hpre].
      apply negb_true_iff in Hk; rewrite Hk; exact (IH Hpre). }
  assert (Hnofind : forall entries,
            forallb (fun kv : jsstring * option jsstring =>
                       negb (isTypeKey (fst kv))) entries = true ->
            find (fun kv => isTypeKey (fst kv)) entries = None).
  { intros entries; induction entries as [| [k v] entries IH]; cbn;
      [reflexivity |].
    intros H; apply andb_true_iff in H; destruct H as [Hk H].
    apply negb_true_iff in Hk; rewrite Hk; exact (IH H). }
  split; [| split; [| split]].
  - unfold experienceTypeOf.
    destruct (customField t) as [entries |]; [| discriminate].
    destruct (find _ entries) as [[k v] |]; [apply Hdef | discriminate].
  - intros pre key val post Hcf Hpre Hkey.
    unfold experienceTypeOf; rewrite Hcf, (Hfind _ _ _ _ Hpre Hkey).
    reflexivity.
  - intros entries Hcf Hno.
    unfold experienceTypeOf; rewrite Hcf, (Hnofind _ Hno); reflexivity.
  - intros Hcf; unfold experienceTypeOf; rewrite Hcf; reflexivity.
Qed.

Lemma X22_witness_empty_first_field :
  experienceTypeOf
    (mkTicket 7 None None
       (Some [(u "priority", Some (u "high"));
              (u "Ticket Type", Some []);
              (u "experience_type", Some (u "Partnered"))]))
  = u "Unknown".
Proof.
  apply (proj1 (proj2 (X22_experience_type_first_key
           (mkTicket 7 None None
              (Some [(u "priority", Some (u "high"));
                     (u "Ticket Type", Some []);
                     (u "experience_type", Some (u "Partnered"))]))))
         [(u "priority", Some (u "high"))] (u "Ticket Type") (Some [])
         [(u "experience_type", Some (u "Partnered"))]);
    reflexivity.
Defined.

Lemma latestCommentOf_last (earlier : list Comment) (c : Comment) :
  latestCommentOf (Some (earlier ++ [c])) = commentText c.
Proof.
  unfold latestCommentOf.
  destruct earlier as [| c0 earlier]; [reflexivity |].
  cbn [app]; rewrite last_last; reflexivity.
Qed.

(** X23: inside Zendesk the audit reads the last comment only, and of it
    the first 3000 code units: two comment lists whose last comments agree
    on those give the same record, whatever the earlier comments say. *)
Theorem X23_only_the_last_comment_counts :
  forall (now : jsstring) (grid : list GridRow) (t : Ticket)
         (earlier earlier' : list Comment) (c c' : Comment),
    firstn 3000 (commentText c) = firstn 3000 (commentText c') ->
    App.runAudit now grid (gatherInputs t (Some (earlier ++ [c])))
    = App.runAudit now grid (gatherInputs t (Some (earlier' ++ [c']))).
Proof.
  intros now grid t earlier earlier' c c' H.
  unfold gatherInputs, slice0.
  rewrite !latestCommentOf_last, H; reflexivity.
Qed.

Lemma X23_witness_earlier_amount :
  App.runAudit Sample.monday [Sample.cancelRow; Sample.unknownRow]
    (gatherInputs (mkTicket 7 (Some (u "Tour cancelled")) None None)
       (Some ([mkComment (Some (u "I paid $500 for this.")) None]
              ++ [mkComment None (Some (u "Please refund me."))])))
  = App.runAudit Sample.monday [Sample.cancelRow; Sample.unknownRow]
      (gatherInputs (mkTicket 7 (Some (u "Tour cancelled")) None None)
         (Some ([] ++ [mkComment (Some (u "Please refund me.")) None]))).
Proof.
  apply (X23_only_the_last_comment_counts Sample.monday [Sample.cancelRow; Sample.unknownRow]
           (mkTicket 7 (Some (u "Tour cancelled")) None None)
           [mkComment (Some (u "I paid $500 for this.")) None] []
           (mkComment None (Some (u "Please refund me.")))
           (mkComment (Some (u "Please refund me.")) None)).
  reflexivity.
Defined.

End GatherFacts.

(* ================================================================== *)
(** * Deadlines *)
(* ================================================================== *)

Section DeadlineFacts.

Import TimeUtils.
Open Scope Z_scope.

Lemma difference_parts (a b : Z) :
  let d := getTimeDifference a b in
  total d = Z.abs (b - a)
  /\ days d = total d / 86400000
  /\ 0 <= days d
  /\ 0 <= hours d < 24
  /\ 0 <= minutes d < 60
  /\ days d * 86400000 + hours d * 3600000 + minutes d * 60000 <= total d
  /\ total d
     < days d * 86400000 + hours d * 3600000 + minutes d * 60000 + 60000.
Proof.
  unfold getTimeDifference; cbn [total days hours minutes].
  change (1000 * 60 * 60 * 24) with 86400000.
  change (1000 * 60 * 60) with 3600000.
  change (1000 * 60) with 60000.
  pose proof (Z.abs_nonneg (b - a)) as Hnn.
  generalize dependent (Z.abs (b - a)); intros x Hx.
  repeat split; try (Z.div_mod_to_equations; lia).
Qed.

(** X24: for two dates less than 2^53 milliseconds apart, where the
    subtraction and the divisions of the source are exact,
    [getTimeDifference] splits their distance, in either order, into whole
    days, hours under 24 and minutes under 60; what the three leave out is
    less than a minute. *)
Theorem X24_time_difference_parts :
  forall date1 date2 : Z,
    Z.abs (date2 - date1) < 2 ^ 53 ->
    let d := getTimeDifference date1 date2 in
    total d = Z.abs (date2 - date1)
    /\ 0 <= days d
    /\ 0 <= hours d < 24
    /\ 0 <= minutes d < 60
    /\ days d * 86400000 + hours d * 3600000 + minutes d * 60000 <= total d
    /\ total d
       < days d * 86400000 + hours d * 3600000 + minutes d * 60000 + 60000
    /\ getTimeDifference date2 date1 = d.
Proof.
  intros a b _ d.
  destruct (difference_parts a b) as (H1 & _ & H2 & H3 & H4 & H5 & H6).
  repeat (split; [assumption |]).
  subst d; unfold getTimeDifference.
  replace (Z.abs (a - b)) with (Z.abs (b - a)) by lia.
  reflexivity.
Qed.

Lemma X24_witness_a_day_and_a_half :
  let d := getTimeDifference 1700000000000 (1700000000000 + 131465000) in
  total d = 131465000 /\ days d = 1 /\ hours d = 12 /\ minutes d = 31.
Proof.
  assert (Hnear : Z.abs (1700000000000 + 131465000 - 1700000000000) < 2 ^ 53)
    by (vm_compute; reflexivity).
  pose proof (X24_time_difference_parts 1700000000000
                (1700000000000 + 131465000) Hnear) as H.
  cbv zeta in H |- *.
  destruct H as (Ht & _).
  split; [rewrite Ht; reflexivity |].
  split; [| split]; vm_compute; reflexivity.
Defined.

(** X25: [formatTimeRemaining] names the largest of day, hour and minute
    that fits into the distance and counts it rounded down: a day or more
    is told in days, an hour or more in hours, anything less in minutes -
    "0 minute" under one minute - with "ago" for a date before the clock
    reading and "in" otherwise, the very instant of the reading included. *)
Theorem X25_time_remaining_largest_unit :
  forall now date : Z,
    let gap := Z.abs (date - now) in
    let told (s : jsstring) :=
      if date <? now then s ++ u " ago" else u "in " ++ s in
    (86400000 <= gap ->
     formatTimeRemaining now date
     = told (counted (gap / 86400000) (u "day")))
    /\ (3600000 <= gap < 86400000 ->
        formatTimeRemaining now date
        = told (counted (gap / 3600000) (u "hour")))
    /\ (gap < 3600000 ->
        formatTimeRemaining now date
        = told (counted (gap / 60000) (u "minute"))).
Proof.
  intros now date gap told.
  unfold formatTimeRemaining, getTimeDifference.
  cbn [total days hours minutes].
  change (1000 * 60 * 60 * 24) with 86400000.
  change (1000 * 60 * 60) with 3600000.
  change (1000 * 60) with 60000.
  fold gap.
  pose proof (Z.abs_nonneg (date - now)) as Hnn; fold gap in Hnn.
  assert (Hd : (0 <? gap / 86400000) = (86400000 <=? gap)).
  { destruct (Z.leb_spec 86400000 gap); destruct (Z.ltb_spec 0 (gap / 86400000));
      try reflexivity; exfalso; Z.div_mod_to_equations; lia. }
  assert (Hh : gap < 86400000 ->
               gap mod 86400000 / 3600000 = gap / 3600000).
  { intros Hlt; rewrite Z.mod_small by lia; reflexivity. }
  assert (Hh0 : (0 <? gap / 3600000) = (3600000 <=? gap)).
  { destruct (Z.leb_spec 3600000 gap); destruct (Z.ltb_spec 0 (gap / 3600000));
      try reflexivity; exfalso; Z.div_mod_to_equations; lia. }
  assert (Hm : gap < 3600000 -> gap mod 3600000 / 60000 = gap / 60000).
  { intros Hlt; rewrite Z.mod_small by lia; reflexivity. }
  rewrite Hd.
  split; [| split].
  - intros H; apply Z.leb_le in H; rewrite H.
    unfold told; destruct (date <? now); reflexivity.
  - intros [H1 H2].
    rewrite (proj2 (Z.leb_gt _ _) H2), (Hh H2), Hh0.
    apply Z.leb_le in H1; rewrite H1.
    unfold told; destruct (date <? now); reflexivity.
  - intros H.
    assert (H2 : gap < 86400000) by lia.
    rewrite (proj2 (Z.leb_gt _ _) H2), (Hh H2), Hh0.
    rewrite (proj2 (Z.leb_gt _ _) H), (Hm H).
    unfold told; destruct (date <? now); reflexivity.
Qed.

Lemma X25_witness_a_day_and_a_half :
  formatTimeRemaining 1700000000000 (1700000000000 + 129600000)
  = u "in 1 day"
  /\ formatTimeRemaining 1700000000000 (1700000000000 - 7500000)
     = u "2 hours ago"
  /\ formatTimeRemaining 1700000000000 1700000000000 = u "in 0 minute".
Proof.
  split; [| split].
  - apply (proj1 (X25_time_remaining_largest_unit
                    1700000000000 (1700000000000 + 129600000))).
    vm_compute; discriminate.
  - apply (proj1 (proj2 (X25_time_remaining_largest_unit
                           1700000000000 (1700000000000 - 7500000)))).
    vm_compute; split; [discriminate | reflexivity].
  - apply (proj2 (proj2 (X25_time_remaining_largest_unit
                           1700000000000 1700000000000))).
    vm_compute; reflexivity.
Defined.

(** X26: the status shown for a tour date, when the clock does not run
    backwards between the two readings: "passed" exactly for a date before
    the first reading, "approaching" exactly for a date after the second
    reading and at most 24 hours after it, "safe" otherwise - which includes
    a date that falls at a reading or between the two, and any date more than
    24 hours ahead.  At one reading a date never both has passed and is
    approaching. *)
Theorem X26_deadline_status_cases :
  forall now1 now2 tourDate : Z,
    now1 <= now2 ->
    (deadlineStatus now1 now2 tourDate = (u "passed", u "Deadline Passed")
     <-> tourDate < now1)
    /\ (deadlineStatus now1 now2 tourDate = (u "approaching", u "Approaching")
        <-> now2 < tourDate <= now2 + 86400000)
    /\ (deadlineStatus now1 now2 tourDate = (u "safe", u "On Time")
        <-> now1 <= tourDate <= now2 \/ now2 + 86400000 < tourDate)
    /\ (forall h, hasPassed now1 tourDate && isApproaching now1 tourDate h
                  = false).
Proof.
  intros now1 now2 date Hclock.
  unfold deadlineStatus, hasPassed, isApproaching.
  change (24 * (1000 * 60 * 60)) with 86400000.
  split; [| split; [| split]].
  - destruct (Z.ltb_spec date now1) as [H | H].
    + split; [intros _; exact H | reflexivity].
    + destruct ((0 <? date - now2) && (date - now2 <=? 86400000));
        (split; [discriminate | lia]).
  - destruct (Z.ltb_spec date now1) as [H | H].
    + split; [discriminate | lia].
    + destruct (Z.ltb_spec 0 (date - now2)) as [H1 | H1];
        destruct (Z.leb_spec (date - now2) 86400000) as [H2 | H2];
        cbn [andb]; (split; [try discriminate; intros _; lia
                            | try reflexivity; lia]).
  - destruct (Z.ltb_spec date now1) as [H | H].
    + split; [discriminate | lia].
    + destruct (Z.ltb_spec 0 (date - now2)) as [H1 | H1];
        destruct (Z.leb_spec (date - now2) 86400000) as [H2 | H2];
        cbn [andb]; (split; [try discriminate; intros _; lia
                            | try reflexivity; lia]).
  - intros h.
    destruct (Z.ltb_spec date now1) as [H | H]; [| reflexivity].
    destruct (Z.ltb_spec 0 (date - now1)) as [H1 | H1]; [lia | reflexivity].
Qed.

Lemma X26_witness_at_the_deadline :
  deadlineStatus 1700000000000 1700000000002 1700000000001
  = (u "safe", u "On Time").
Proof.
  assert (Hclock : 1700000000000 <= 1700000000002)
    by (vm_compute; discriminate).
  apply (proj2 (proj1 (proj2 (proj2
           (X26_deadline_status_cases 1700000000000 1700000000002
              1700000000001 Hclock))))).
  left; split; vm_compute; discriminate.
Defined.

End DeadlineFacts.
